(** * The library watch daemon of tools/watch.ts

    A shallow embedding of the development-loop daemon: the ignore-pattern
    matcher, the debouncer, the registry supervisor, the rebuild pipeline and
    the daemon controller, followed by the properties the specification
    states about them. *)

From Stdlib Require Import String Ascii List ZArith Lia Bool Arith.
From Stdlib Require Import DecimalString.
Import ListNotations.
Local Open Scope string_scope.

(** ** JavaScript strings

    A character of a string stands for one UTF-16 code unit of the
    JavaScript string. The strings of the model are those whose code
    units are all below 256, which covers the paths and messages of the
    script; [includes], [startsWith] and the regular expressions work on
    code units, as they do in JavaScript without the [u] flag. *)

Module Js.

(** [s.startsWith(p)] *)
Fixpoint startsWith (s p : string) : bool :=
  match p, s with
  | EmptyString, _ => true
  | String _ _, EmptyString => false
  | String a p', String b s' => Ascii.eqb a b && startsWith s' p'
  end.

(** [s.includes(p)] *)
Fixpoint includes (s p : string) : bool :=
  startsWith s p ||
  match s with
  | EmptyString => false
  | String _ s' => includes s' p
  end.

(** [s.replace(p, r)] with a string pattern: only the first occurrence
    of [p] is replaced. *)
Fixpoint drop (n : nat) (s : string) : string :=
  match n, s with
  | O, _ => s
  | S _, EmptyString => EmptyString
  | S n', String _ s' => drop n' s'
  end.

Fixpoint replace (s p r : string) : string :=
  if startsWith s p then r ++ drop (String.length p) s
  else match s with
       | EmptyString => EmptyString
       | String c s' => String c (replace s' p r)
       end.

(** Truthiness of a string: the empty string is falsy. *)
Definition truthy (s : string) : bool :=
  match s with EmptyString => false | _ => true end.

End Js.

(** ** Regular expressions

    The fragment of the RegExp syntax that the ignore patterns produce once
    their wildcard is rewritten: literal characters, the dot, and a
    starred atom. *)

Module Regex.

Inductive Atom : Type :=
| Lit (c : ascii)
| Dot.

Inductive Item : Type :=
| One (a : Atom)
| Star (a : Atom).

Definition t : Type := list Item.

Definition star_char : ascii := "*"%char.
Definition dot_char : ascii := "."%char.

(** Characters that carry a meaning in a pattern and are outside the
    modelled fragment. *)
Definition unsupported (c : ascii) : bool :=
  existsb (Ascii.eqb c)
    ["\"%char; "("%char; ")"%char; "["%char; "]"%char; "{"%char; "}"%char;
     "+"%char; "?"%char; "^"%char; "$"%char; "|"%char].

Definition atom_of (c : ascii) : Atom :=
  if Ascii.eqb c dot_char then Dot else Lit c.

(** [new RegExp(src)]: [None] stands for the SyntaxError of a star with
    nothing to repeat, or for a pattern outside the fragment. *)
Fixpoint compile (src : string) : option t :=
  match src with
  | EmptyString => Some []
  | String c rest =>
      if Ascii.eqb c star_char || unsupported c then None
      else match rest with
           | String d rest' =>
               if Ascii.eqb d star_char
               then option_map (cons (Star (atom_of c))) (compile rest')
               else option_map (cons (One (atom_of c))) (compile rest)
           | EmptyString => Some [One (atom_of c)]
           end
  end.

(** The dot matches every character but a line terminator. Of the four
    line terminators of JavaScript, U+000A and U+000D are characters of
    the model; U+2028 and U+2029 are not. *)
Definition line_terminator (c : ascii) : bool :=
  Ascii.eqb c "010"%char || Ascii.eqb c "013"%char.

Definition atom_matches (a : Atom) (c : ascii) : bool :=
  match a with
  | Lit d => Ascii.eqb d c
  | Dot => negb (line_terminator c)
  end.

(** Does [r] match a prefix of [s]? *)
Fixpoint match_here (r : t) (s : string) : bool :=
  match r with
  | [] => true
  | One a :: r' =>
      match s with
      | EmptyString => false
      | String c s' => atom_matches a c && match_here r' s'
      end
  | Star a :: r' =>
      (fix star (s : string) : bool :=
         match_here r' s ||
         match s with
         | EmptyString => false
         | String c s' => atom_matches a c && star s'
         end) s
  end.

(** [regex.test(s)] for a regex without flags: a match may start at any
    position. *)
Fixpoint test (r : t) (s : string) : bool :=
  match_here r s ||
  match s with
  | EmptyString => false
  | String _ s' => test r s'
  end.

(** The language of a regex, declaratively. *)
Inductive Matches : t -> string -> Prop :=
| M_nil : Matches [] EmptyString
| M_one a c r s :
    atom_matches a c = true -> Matches r s ->
    Matches (One a :: r) (String c s)
| M_star_done a r s :
    Matches r s -> Matches (Star a :: r) s
| M_star_more a c r s :
    atom_matches a c = true -> Matches (Star a :: r) s ->
    Matches (Star a :: r) (String c s).

End Regex.

(** ** Pattern matcher *)

Definition IGNORED_PATTERNS : list string :=
  [ "node_modules"; "dist"; ".git"; ".nx"; "tmp"; ".angular"; ".cache";
    "*.spec.ts"; "*.spec.js"; "*.test.ts"; "*.test.js"; ".DS_Store" ].

(** The callback of [IGNORED_PATTERNS.some]. A pattern whose rewriting is
    not a regex of the fragment cannot be tested; none of the configured
    patterns is one (see [IGNORED_PATTERNS_compile]). *)
Definition pattern_matches (path pattern : string) : bool :=
  if Js.includes pattern "*" then
    match Regex.compile (Js.replace pattern "*" ".*") with
    | Some regex => Regex.test regex path
    | None => false
    end
  else Js.includes path pattern.

Definition shouldIgnore (path : string) : bool :=
  existsb (pattern_matches path) IGNORED_PATTERNS.

(** ** The pattern matcher as the specification words it

    A rule with a wildcard is a glob with one wildcard: the text before
    the wildcard, anything, the text after it, all characters taken
    literally; the match may lie anywhere in the path. A rule without a
    wildcard is a substring test. *)

Definition is_wildcard (pattern : string) : bool :=
  Js.includes pattern "*".

(** The text before and after the first wildcard. *)
Fixpoint split_wildcard (pattern : string) : option (string * string) :=
  match pattern with
  | EmptyString => None
  | String c rest =>
      if Ascii.eqb c Regex.star_char then Some (EmptyString, rest)
      else match split_wildcard rest with
           | Some (before, after) => Some (String c before, after)
           | None => None
           end
  end.

(** [before], then anything, then [after], somewhere in [path]. *)
Fixpoint includes_then (path before after : string) : bool :=
  (Js.startsWith path before
   && Js.includes (Js.drop (String.length before) path) after)
  || match path with
     | EmptyString => false
     | String _ path' => includes_then path' before after
     end.

Definition glob_matches (pattern path : string) : bool :=
  match split_wildcard pattern with
  | Some (before, after) => includes_then path before after
  | None => false
  end.

Definition rule_matches (path pattern : string) : bool :=
  if is_wildcard pattern then glob_matches pattern path
  else Js.includes path pattern.

Definition spec_shouldIgnore (path : string) : bool :=
  existsb (rule_matches path) IGNORED_PATTERNS.

(** ** The process: state, effects and control

    The module-level variables of the script form the state. A computation
    reads and writes the state, leaves a trace of the effects it performs,
    and ends in one of three ways: it returns, it throws, or it ends the
    process ([process.exit], or an exception nobody catches). *)

Local Open Scope list_scope.

Inductive Cmd : Type := CmdBuild | CmdUnpublish | CmdPublish.

(** The [code] property of an error object. *)
Inductive JsCode : Type :=
| CodeUndefined
| CodeNum (n : Z)
| CodeStr (s : string).

(** The error object [execSync] throws for a non-zero exit or a timeout. *)
Record ExecError : Type := mkExecError {
  err_message : string;
  err_stdout : string;
  err_stderr : string;
  err_code : JsCode
}.

Inductive ExecResult : Type :=
| ExecOk (output : string)
| ExecFail (e : ExecError).

(** Values that are thrown: the error of a child process, or
    [new Error(message)]. *)
Inductive Thrown : Type :=
| ExecFailure (e : ExecError)
| JsError (message : string).

Definition message_of (e : Thrown) : string :=
  match e with
  | ExecFailure x => err_message x
  | JsError m => m
  end.

(** The callbacks handed to [setTimeout] in the watch loop. *)
Inductive Callback : Type := GuardedRebuild.

Record Timer : Type := mkTimer {
  timer_id : nat;
  timer_due : Z;
  timer_callback : Callback
}.

Inductive Event : Type :=
| ELog (msg : string)                      (* console.log / console.info *)
| EError (msg : string) (detail : option Thrown)       (* console.error *)
| EExec (c : Cmd)                                          (* execSync *)
| ESpawn                                      (* spawn of the registry *)
| EKill                                       (* verdaccioProcess.kill *)
| ESleep (ms : Z)                      (* awaited setTimeout of startup *)
| EPing (attempt : nat) (at_time : Z)              (* get(.../-/ping) *)
| EWatch (dir : string)                                    (* fs.watch *)
| ESetTimeout (id : nat) (due : Z)
| EClearTimeout (id : nat)
| EFire (id : nat) (at_time : Z)          (* the runtime runs a timer *)
| ERebuilding (b : bool)               (* assignment to isRebuilding *)
| EExit (code : Z)                                    (* process.exit *)
| EUncaught (e : Thrown).             (* exception outside every try *)

Record State : Type := mkState {
  isRebuilding : bool;
  rebuildTimer : option nat;
  verdaccioProcess : bool;           (* is the child handle defined? *)
  timers : list Timer;               (* armed timers of the runtime *)
  nextTimerId : nat;
  now : Z;                           (* clock of the runtime, in ms *)
  execCount : nat                    (* commands run so far *)
}.

Definition set_isRebuilding (b : bool) (s : State) : State :=
  mkState b (rebuildTimer s) (verdaccioProcess s) (timers s)
          (nextTimerId s) (now s) (execCount s).
Definition set_rebuildTimer (t : option nat) (s : State) : State :=
  mkState (isRebuilding s) t (verdaccioProcess s) (timers s)
          (nextTimerId s) (now s) (execCount s).
Definition set_verdaccioProcess (p : bool) (s : State) : State :=
  mkState (isRebuilding s) (rebuildTimer s) p (timers s)
          (nextTimerId s) (now s) (execCount s).
Definition set_timers (l : list Timer) (s : State) : State :=
  mkState (isRebuilding s) (rebuildTimer s) (verdaccioProcess s) l
          (nextTimerId s) (now s) (execCount s).
Definition set_nextTimerId (n : nat) (s : State) : State :=
  mkState (isRebuilding s) (rebuildTimer s) (verdaccioProcess s) (timers s)
          n (now s) (execCount s).
Definition set_now (t : Z) (s : State) : State :=
  mkState (isRebuilding s) (rebuildTimer s) (verdaccioProcess s) (timers s)
          (nextTimerId s) t (execCount s).
Definition set_execCount (n : nat) (s : State) : State :=
  mkState (isRebuilding s) (rebuildTimer s) (verdaccioProcess s) (timers s)
          (nextTimerId s) (now s) n.

Definition initial_state : State :=
  mkState false None false [] 0 0 0.

Inductive Outcome (A : Type) : Type :=
| Ret (a : A)
| Throw (e : Thrown)
| Halt (code : Z).
Arguments Ret {A} a.
Arguments Throw {A} e.
Arguments Halt {A} code.

Definition M (A : Type) : Type := State -> Outcome A * State * list Event.

Definition ret {A} (a : A) : M A := fun s => (Ret a, s, []).

Definition bind {A B} (m : M A) (k : A -> M B) : M B :=
  fun s =>
    match m s with
    | (Ret a, s1, t1) =>
        match k a s1 with (o, s2, t2) => (o, s2, t1 ++ t2) end
    | (Throw e, s1, t1) => (Throw e, s1, t1)
    | (Halt c, s1, t1) => (Halt c, s1, t1)
    end.

Declare Scope js_scope.
Delimit Scope js_scope with js.
Notation "x <- m ;; k" := (bind m (fun x => k))
  (at level 61, m at next level, right associativity) : js_scope.
Notation "m ;; k" := (bind m (fun _ => k))
  (at level 61, right associativity) : js_scope.
Local Open Scope js_scope.

Definition emit (e : Event) : M unit := fun s => (Ret tt, s, [e]).
Definition get_state : M State := fun s => (Ret s, s, []).
Definition modify (f : State -> State) : M unit := fun s => (Ret tt, f s, []).
Definition throw {A} (e : Thrown) : M A := fun s => (Throw e, s, []).

(** [process.exit(code)]: nothing of the process runs afterwards, not
    even a pending [finally]. *)
Definition exit {A} (code : Z) : M A := fun s => (Halt code, s, [EExit code]).

(** An exception that escapes a callback of the runtime: the process
    reports it and ends with code 1. *)
Definition uncaught {A} (e : Thrown) : M A :=
  fun s => (Halt 1, s, [EUncaught e]).

(** [try { body } catch (error) { handler }] *)
Definition try_catch {A} (body : M A) (handler : Thrown -> M A) : M A :=
  fun s =>
    match body s with
    | (Throw e, s1, t1) =>
        match handler e s1 with (o, s2, t2) => (o, s2, t1 ++ t2) end
    | r => r
    end.

(** [try { body } finally { cleanup }]: the cleanup runs whether the body
    returned or threw, and the body's outcome stands unless the cleanup
    ends otherwise. *)
Definition try_finally {A} (body : M A) (cleanup : M unit) : M A :=
  fun s =>
    match body s with
    | (Halt c, s1, t1) => (Halt c, s1, t1)
    | (o, s1, t1) =>
        match cleanup s1 with
        | (Ret _, s2, t2) => (o, s2, t1 ++ t2)
        | (Throw e, s2, t2) => (Throw e, s2, t1 ++ t2)
        | (Halt c, s2, t2) => (Halt c, s2, t1 ++ t2)
        end
    end.

Definition console_log (msg : string) : M unit := emit (ELog msg).
Definition console_error (msg : string) (detail : option Thrown) : M unit :=
  emit (EError msg detail).
Definition when (b : bool) (m : M unit) : M unit := if b then m else ret tt.

(** ** The environment

    What the outside world answers: the result of each command (by its
    rank among all commands run), the error event of the registry child if
    it emits one, the answer of the registry to each ping, the tree
    below the watched root, and the error [fs.watch] throws for a
    directory it cannot watch (one that is missing, say). *)

Inductive Ping : Type :=
| Status (code : Z)
| ConnectionError.

#[warnings="-register-all"]
Inductive Dirent : Type :=
| DFile (name : string)
| DDir (name : string) (listing : option (list Dirent)).

(** [res.statusCode === 200]; a connection error resolves to [false]. *)
Definition responds_200 (p : Ping) : bool :=
  match p with
  | Status code => Z.eqb code 200
  | ConnectionError => false
  end.

Record Env : Type := mkEnv {
  exec_result : nat -> Cmd -> ExecResult;
  spawn_error : option string;
  ping : nat -> Ping;
  cwd : string;
  readdir : string -> option (list Dirent);  (* the tree below a root *)
  watch_error : string -> option string      (* the message [watch] throws *)
}.

(** ** The script

    Console messages are kept without their pictograph and without the
    clock prefix of [formatTime]. *)

Section Daemon.

Variable env : Env.

(** [execSync(command, { timeout })]: the command runs to its end while
    the caller waits; a non-zero exit and a timeout both throw. *)
Definition execSync (c : Cmd) : M string :=
  fun s =>
    let s' := set_execCount (S (execCount s)) s in
    match exec_result env (execCount s) c with
    | ExecOk out => (Ret out, s', [EExec c])
    | ExecFail e => (Throw (ExecFailure e), s', [EExec c])
    end.

Definition stdout_of (e : Thrown) : string :=
  match e with ExecFailure x => err_stdout x | JsError _ => "" end.
Definition stderr_of (e : Thrown) : string :=
  match e with ExecFailure x => err_stderr x | JsError _ => "" end.
Definition code_of (e : Thrown) : JsCode :=
  match e with ExecFailure x => err_code x | JsError _ => CodeUndefined end.

(** [error.code !== 0] *)
Definition code_is_not_zero (c : JsCode) : bool :=
  match c with CodeNum n => negb (Z.eqb n 0) | _ => true end.

Definition show_code (c : JsCode) : string :=
  match c with
  | CodeUndefined => "undefined"
  | CodeNum n => NilZero.string_of_int (Z.to_int n)
  | CodeStr s => s
  end.

(** [error.toString()] of an Error object. *)
Definition toString (e : Thrown) : string :=
  if Js.truthy (message_of e) then ("Error: " ++ message_of e)%string
  else "Error".

Definition killChildProcesses : M unit :=
  s <- get_state ;;
  when (verdaccioProcess s) (emit EKill).

Definition cleanRegistry : M unit :=
  try_catch
    (console_log "Cleaning up previous packages..." ;;
     output <- execSync CmdUnpublish ;;
     when (Js.truthy output) (console_log output) ;;
     console_log "Cleanup completed")
    (fun error =>
       when (Js.truthy (stdout_of error))
            (console_log ("Stdout: " ++ stdout_of error)%string) ;;
       when (Js.truthy (stderr_of error))
            (console_log ("Stderr: " ++ stderr_of error)%string) ;;
       when (code_is_not_zero (code_of error))
            (console_log ("Unpublish command exited with code "
                            ++ show_code (code_of error))%string) ;;
       console_log
         "No previous packages to clean up (this is normal on first run)").

Definition SIGNATURE_PREVIOUSLY_PUBLISHED : string :=
  "cannot publish over the previously published versions".
Definition SIGNATURE_CANNOT_PUBLISH_OVER : string :=
  "You cannot publish over".

(** [error.message || error.toString() || ''] *)
Definition errorMsg_of (error : Thrown) : string :=
  if Js.truthy (message_of error) then message_of error
  else if Js.truthy (toString error) then toString error
  else "".

Definition already_published (errorMsg : string) : bool :=
  Js.includes errorMsg SIGNATURE_PREVIOUSLY_PUBLISHED
  || Js.includes errorMsg SIGNATURE_CANNOT_PUBLISH_OVER.

Definition publishPackages : M unit :=
  try_catch
    (console_log "Publishing packages to local registry..." ;;
     _ <- execSync CmdPublish ;;
     console_log "All packages published successfully!")
    (fun error =>
       let errorMsg := errorMsg_of error in
       if already_published errorMsg
       then console_log
              "Packages already exist at this version, skipping publish"
       else console_error "Publish completed with warnings" None).

Definition buildLibraries : M unit :=
  try_catch
    (console_log "Building libraries..." ;;
     _ <- execSync CmdBuild ;;
     console_log "Build completed")
    (fun error =>
       console_error ("Build failed: " ++ message_of error)%string None ;;
       throw (JsError ("Build failed: " ++ message_of error)%string)).

Definition rebuild : M unit :=
  s <- get_state ;;
  if isRebuilding s then
    console_log "Rebuild already in progress..."
  else
    modify (set_isRebuilding true) ;; emit (ERebuilding true) ;;
    console_log "Rebuilding and republishing..." ;;
    try_finally
      (try_catch
         (buildLibraries ;;
          cleanRegistry ;;
          publishPackages ;;
          console_log "Rebuild complete!")
         (fun error => console_error "Rebuild failed:" (Some error)))
      (modify (set_isRebuilding false) ;; emit (ERebuilding false)).

(** *** Debouncer *)

Definition setTimeout (func : Callback) (delay : Z) : M nat :=
  fun s =>
    let id := nextTimerId s in
    let due := (now s + delay)%Z in
    (Ret id,
     set_nextTimerId (S id) (set_timers (timers s ++ [mkTimer id due func]) s),
     [ESetTimeout id due]).

(** Clearing a timer that has fired already changes nothing. *)
Definition clearTimeout (id : nat) : M unit :=
  fun s =>
    (Ret tt,
     set_timers (filter (fun t => negb (Nat.eqb (timer_id t) id)) (timers s)) s,
     [EClearTimeout id]).

Definition debounce (func : Callback) (delay : Z) : M unit :=
  s <- get_state ;;
  match rebuildTimer s with
  | Some id => clearTimeout id
  | None => ret tt
  end ;;
  id <- setTimeout func delay ;;
  modify (set_rebuildTimer (Some id)).

(** *** Recursive watcher *)

(** [join(dir, name)] of [node:path], for a normalised [dir] (the working
    directory or a directory below it) and a [name] of one segment: the
    separator is not doubled after the root directory. *)
Fixpoint ends_with_separator (s : string) : bool :=
  match s with
  | EmptyString => false
  | String c EmptyString => Ascii.eqb c "/"
  | String _ rest => ends_with_separator rest
  end.

Definition join (dir name : string) : string :=
  if ends_with_separator dir then (dir ++ name)%string
  else (dir ++ "/" ++ name)%string.

(** [s.split('/')] *)
Fixpoint split_separator (s : string) : list string :=
  match s with
  | EmptyString => [EmptyString]
  | String c rest =>
      if Ascii.eqb c "/" then EmptyString :: split_separator rest
      else
        match split_separator rest with
        | [] => [String c EmptyString]
        | segment :: segments => String c segment :: segments
        end
  end.

(** The segments of an absolute, normalised path. *)
Definition segments (path : string) : list string :=
  filter Js.truthy (split_separator path).

Fixpoint drop_common (from to : list string) : list string * list string :=
  match from, to with
  | x :: from', y :: to' =>
      if String.eqb x y then drop_common from' to' else (from, to)
  | _, _ => (from, to)
  end.

(** [relative(process.cwd(), filepath)] of [node:path], for absolute and
    normalised paths: one [..] for each segment of [from] that [filepath]
    does not share, then what is left of [filepath]. *)
Definition relative (from filepath : string) : string :=
  let '(up, down) := drop_common (segments from) (segments filepath) in
  String.concat "/" (map (fun _ => "..") up ++ down).

Definition logChange (filepath : string) : M unit :=
  console_log ("File changed: " ++ relative (cwd env) filepath)%string.

(** The function handed to [debounce] by the watch callback. *)
Definition run_callback (cb : Callback) : M unit :=
  match cb with
  | GuardedRebuild =>
      s <- get_state ;;
      if negb (isRebuilding s) then rebuild else ret tt
  end.

(** The callback of [watch(dir, ...)]; the event type is not looked at. *)
Definition on_change (dir : string) (filename : option string) : M unit :=
  match filename with
  | None => ret tt
  | Some name =>
      if negb (Js.truthy name) || shouldIgnore name then ret tt
      else
        let fullPath := join dir name in
        logChange fullPath ;;
        debounce GuardedRebuild 1000
  end.

Definition has (watchers : list string) (dir : string) : bool :=
  existsb (String.eqb dir) watchers.

(** What a walk leaves: the set of watched directories, the events so
    far, and the exception that ended it, if one did. *)
Definition Walked : Type := list string * list Event * option Thrown.

(** The loops [for (const x of xs) { await visit(x) }]: the first visit
    that throws ends the loop. *)
Fixpoint walk_entries {A : Type} (visit : A -> list string -> Walked)
    (entries : list A) (watchers : list string) {struct entries} : Walked :=
  match entries with
  | [] => (watchers, [], None)
  | entry :: rest =>
      match visit entry watchers with
      | (w, t, Some error) => (w, t, Some error)
      | (w, t, None) =>
          match walk_entries visit rest w with
          | (w', t', r) => (w', t ++ t', r)
          end
      end
  end.

(** [watchDirectory], by recursion on the tree below the directory. The
    set of watched directories is threaded through the walk. The
    directory joins the set before [watch] is called, and [watch] is
    called outside the [try]: what it throws leaves [watchDirectory]. The
    [try] covers the listing and the walk below, so that a directory whose
    [watch] throws is reported by its parent, which then gives up its
    remaining entries. *)
Definition watch_listing
    (visit : string -> Dirent -> list string -> Walked)
    (dir : string) (listing : option (list Dirent)) (watchers : list string)
  : Walked :=
  if has watchers dir || shouldIgnore dir then (watchers, [], None)
  else
    let watchers := watchers ++ [dir] in
    match watch_error env dir with
    | Some message => (watchers, [], Some (JsError message))
    | None =>
        match listing with
        | None =>
            (watchers,
             [EWatch dir;
              EError ("Failed to watch directory " ++ dir ++ ":")%string None],
             None)
        | Some entries =>
            match walk_entries (visit dir) entries watchers with
            | (w, t, Some error) =>
                (w,
                 EWatch dir :: t ++
                 [EError ("Failed to watch directory " ++ dir ++ ":")%string
                         (Some error)],
                 None)
            | (w, t, None) => (w, EWatch dir :: t, None)
            end
        end
    end.

Fixpoint visit_entry (dir : string) (entry : Dirent) (watchers : list string)
  {struct entry} : Walked :=
  match entry with
  | DFile _ => (watchers, [], None)
  | DDir name listing =>
      if negb (shouldIgnore name)
      then watch_listing visit_entry (join dir name) listing watchers
      else (watchers, [], None)
  end.

Definition watchDirectory (dir : string) (watchers : list string) : Walked :=
  watch_listing visit_entry dir (readdir env dir) watchers.

Definition nat_to_string (n : nat) : string :=
  NilZero.string_of_uint (Nat.to_uint n).

Definition setupFileWatchers (directories : list string) : M unit :=
  fun s =>
    match walk_entries watchDirectory directories [] with
    | (_, t, Some error) => (Throw error, s, t)
    | (watchers, t, None) =>
        (Ret tt, s,
         t ++ [ELog ("Watching " ++ nat_to_string (List.length watchers)
                       ++ " directories for changes")%string])
    end.

(** *** Registry supervisor *)

Definition maxAttempts : nat := 30.

(** The listener of the child's [error] event. It runs as a callback of
    the runtime, outside the [try] of the caller: what it throws is
    caught by nobody. *)
Definition on_spawn_error (message : string) : M unit :=
  console_error "Verdaccio process error:" (Some (JsError message)) ;;
  if negb (Js.includes message "EADDRINUSE")
  then uncaught (JsError message)
  else ret tt.

(** [await new Promise(resolve => setTimeout(resolve, ms))] *)
Definition sleep (ms : Z) : M unit :=
  modify (fun s => set_now (now s + ms)%Z s) ;;
  emit (ESleep ms).

(** One request to the ping path: ready on status 200, not ready on any
    other status or on a connection error. *)
Definition isReady (attempt : nat) : M bool :=
  s <- get_state ;;
  emit (EPing attempt (now s)) ;;
  ret (responds_200 (ping env attempt)).

(** The loop [while (attempts < maxAttempts)], by recursion on the
    attempts that remain; [attempts] is the counter of the source. *)
Fixpoint health_loop (remaining attempts : nat) : M unit :=
  match remaining with
  | O => throw (JsError "Verdaccio failed to start")
  | S remaining' =>
      let attempts := S attempts in
      sleep 1000 ;;
      ready <- isReady attempts ;;
      if ready then console_log "Verdaccio is ready!"
      else health_loop remaining' attempts
  end.

(** The child emits its [error] event, if it has one, while startup
    waits for the first ping. *)
Definition startVerdaccio : M unit :=
  console_log "Starting Verdaccio local registry..." ;;
  emit ESpawn ;; modify (set_verdaccioProcess true) ;;
  match spawn_error env with
  | Some message => on_spawn_error message
  | None => ret tt
  end ;;
  health_loop maxAttempts 0.

(** *** Daemon controller *)

(** [startWatchMode] up to its last statement, which waits for ever and
    leaves the process to the callbacks of the runtime. *)
Definition startWatchMode : M unit :=
  try_catch
    (console_log "Starting watch mode for library development" ;;
     startVerdaccio ;;
     buildLibraries ;;
     cleanRegistry ;;
     publishPackages ;;
     let libsDir := join (cwd env) "libs" in
     setupFileWatchers [libsDir] ;;
     console_log "Watch mode ready!" ;;
     console_log "Local packages published to http://localhost:4873" ;;
     console_log "Watching for file changes in libs/" ;;
     console_log "Libraries will auto-rebuild on changes" ;;
     console_log "Press Ctrl+C to stop")
    (fun error =>
       console_error "Fatal:" (Some error) ;;
       killChildProcesses ;;
       exit 1).

Definition on_SIGINT : M unit :=
  console_log "Shutting down..." ;;
  killChildProcesses ;;
  exit 0.

(** *** The runtime's loop

    Callbacks run one at a time and to their end. A timer runs once its
    delay has passed, before any file notification delivered at that
    time or later. *)

Record Change : Type := mkChange {
  change_time : Z;               (* when the watch callback runs *)
  change_dir : string;
  change_filename : option string
}.

(** The armed timer that is due first, if one is due by [horizon]. *)
Fixpoint next_due (horizon : Z) (l : list Timer) : option Timer :=
  match l with
  | [] => None
  | t :: l' =>
      match next_due horizon l' with
      | Some u =>
          if (timer_due t <=? timer_due u)%Z && (timer_due t <=? horizon)%Z
          then Some t else Some u
      | None => if (timer_due t <=? horizon)%Z then Some t else None
      end
  end.

Definition remove_timer (id : nat) (l : list Timer) : list Timer :=
  filter (fun t => negb (Nat.eqb (timer_id t) id)) l.

Definition fire (t : Timer) : M unit :=
  modify (fun s => set_now (Z.max (now s) (timer_due t))
                     (set_timers (remove_timer (timer_id t) (timers s)) s)) ;;
  emit (EFire (timer_id t) (timer_due t)) ;;
  run_callback (timer_callback t).

(** Run the timers due by [horizon]; [fuel] bounds how many. *)
Fixpoint run_timers (fuel : nat) (horizon : Z) : M unit :=
  match fuel with
  | O => ret tt
  | S fuel' =>
      s <- get_state ;;
      match next_due horizon (timers s) with
      | None => ret tt
      | Some t => fire t ;; run_timers fuel' horizon
      end
  end.

(** No callback of the loop arms more than the timers it finds, so as
    many rounds as there are armed timers suffice. *)
Definition advance (horizon : Z) : M unit :=
  s <- get_state ;;
  run_timers (List.length (timers s)) horizon ;;
  modify (fun s => set_now (Z.max (now s) horizon) s).

Definition deliver (c : Change) : M unit :=
  advance (change_time c) ;;
  on_change (change_dir c) (change_filename c).

Fixpoint deliver_all (changes : list Change) : M unit :=
  match changes with
  | [] => ret tt
  | c :: rest => deliver c ;; deliver_all rest
  end.

(** The watch loop: the notifications in their order, then the clock
    runs on to [horizon]. *)
Definition event_loop (changes : list Change) (horizon : Z) : M unit :=
  deliver_all changes ;;
  advance horizon.

End Daemon.

(** ** Reading a trace *)

Definition is_exec (e : Event) : option Cmd :=
  match e with EExec c => Some c | _ => None end.

(** The commands run, in order. *)
Fixpoint execs (tr : list Event) : list Cmd :=
  match tr with
  | [] => []
  | e :: tr' =>
      match is_exec e with
      | Some c => c :: execs tr'
      | None => execs tr'
      end
  end.

(** The timers run by the runtime, with the time of each. *)
Fixpoint fires (tr : list Event) : list (nat * Z) :=
  match tr with
  | [] => []
  | EFire id t :: tr' => (id, t) :: fires tr'
  | _ :: tr' => fires tr'
  end.

(** The number of pipeline runs started. *)
Fixpoint runs_started (tr : list Event) : nat :=
  match tr with
  | [] => 0
  | ERebuilding true :: tr' => S (runs_started tr')
  | _ :: tr' => runs_started tr'
  end.

Fixpoint watches (tr : list Event) : list string :=
  match tr with
  | [] => []
  | EWatch d :: tr' => d :: watches tr'
  | _ :: tr' => watches tr'
  end.

(** [exclusive b tr]: starting with a run in progress or not ([b]), the
    trace never starts a run while another is in progress; the result says
    whether a run is in progress at the end. [None]: two runs overlapped. *)
Fixpoint exclusive (running : bool) (tr : list Event) : option bool :=
  match tr with
  | [] => Some running
  | ERebuilding true :: tr' =>
      if running then None else exclusive true tr'
  | ERebuilding false :: tr' => exclusive false tr'
  | EExec _ :: tr' =>
      (* a command of the pipeline runs inside a run only *)
      if running then exclusive running tr' else None
  | _ :: tr' => exclusive running tr'
  end.

Definition bump (s : State) : State := set_execCount (S (execCount s)) s.

(** ** The one-shot script

    The variant of the script without a watch loop (its functions
    [waitForVerdaccio], [startVerdaccio], [unpublish], [publish],
    [buildLibs] and [watch]): it starts the registry, builds, unpublishes
    and publishes once, then waits. *)

Module Legacy.

Section Script.

Variable env : Env.

(** [checkHealth] and [retry], which call each other through
    [setTimeout]; [fuel] bounds the rounds, [attempts] is the counter of
    the source. The loop stops by itself once [attempts] reaches
    [maxAttempts]. *)
Fixpoint checkHealth (fuel attempts maxAttempts : nat) : M unit :=
  match fuel with
  | O => throw (JsError "Verdaccio failed to start")
  | S fuel' =>
      sleep 1000 ;;
      let attempts := S attempts in
      ready <- isReady env attempts ;;
      if ready then console_log "Verdaccio is ready!"
      else if Nat.leb maxAttempts attempts
           then throw (JsError "Verdaccio failed to start")
           else checkHealth fuel' attempts maxAttempts
  end.

Definition waitForVerdaccio (maxAttempts : nat) : M unit :=
  checkHealth (Nat.max 1 maxAttempts) 0 maxAttempts.

(** The listener of the child's [error] event rejects the promise of
    [startVerdaccio], so that the [await] of the caller throws. The [try]
    inside has only the wait for the registry to fail. *)
Definition startVerdaccio : M unit :=
  let wait :=
    try_catch
      (waitForVerdaccio 30)
      (fun error =>
         console_error "Error starting Verdaccio:" (Some error) ;;
         throw error) in
  console_log "Starting Verdaccio local registry..." ;;
  emit ESpawn ;; modify (set_verdaccioProcess true) ;;
  match spawn_error env with
  | Some message =>
      console_error "Verdaccio process error:" (Some (JsError message)) ;;
      if negb (Js.includes message "EADDRINUSE")
      then throw (JsError message)
      else wait
  | None => wait
  end.

Definition unpublish : M unit :=
  try_catch
    (console_log "Cleaning up previous packages from local registry..." ;;
     _ <- execSync env CmdUnpublish ;;
     console_log "Cleanup completed")
    (fun _ =>
       console_log
         "No previous packages to clean up (this is normal for first run)").

Definition publish : M unit :=
  try_catch
    (console_log "Publishing packages to local registry..." ;;
     _ <- execSync env CmdPublish ;;
     console_log "All packages published successfully!")
    (fun error =>
       console_error ("Publish failed: " ++ message_of error)%string None ;;
       throw (JsError ("Publish failed: " ++ message_of error)%string)).

Definition buildLibs : M unit :=
  try_catch
    (console_log "Building libraries..." ;;
     _ <- execSync env CmdBuild ;;
     console_log "Build completed")
    (fun error =>
       console_error ("Build failed: " ++ message_of error)%string None ;;
       throw (JsError ("Build failed: " ++ message_of error)%string)).

Definition watch : M unit :=
  try_catch
    (console_log "Starting watch mode for library development" ;;
     startVerdaccio ;;
     buildLibs ;;
     unpublish ;;
     publish ;;
     console_log "Watch mode ready!" ;;
     console_log
       "Local packages are published to Verdaccio at http://localhost:4873" ;;
     console_log "You can now use these packages in your applications" ;;
     console_log "Press Ctrl+C to stop")
    (fun error =>
       console_error "Fatal error:" (Some error) ;;
       killChildProcesses ;;
       exit 1).

End Script.

End Legacy.

(** ** What the steps of the pipeline leave behind *)

Section Expected.

Variable env : Env.

Definition buildLibraries_result (s : State) : Outcome unit * list Event :=
  match exec_result env (execCount s) CmdBuild with
  | ExecOk _ =>
      (Ret tt,
       [ELog "Building libraries..."; EExec CmdBuild; ELog "Build completed"])
  | ExecFail e =>
      (Throw (JsError ("Build failed: " ++ err_message e)%string),
       [ELog "Building libraries..."; EExec CmdBuild;
        EError ("Build failed: " ++ err_message e)%string None])
  end.

Definition cleanRegistry_trace (s : State) : list Event :=
  match exec_result env (execCount s) CmdUnpublish with
  | ExecOk out =>
      [ELog "Cleaning up previous packages..."; EExec CmdUnpublish]
      ++ (if Js.truthy out then [ELog out] else [])
      ++ [ELog "Cleanup completed"]
  | ExecFail e =>
      [ELog "Cleaning up previous packages..."; EExec CmdUnpublish]
      ++ (if Js.truthy (err_stdout e)
          then [ELog ("Stdout: " ++ err_stdout e)%string] else [])
      ++ (if Js.truthy (err_stderr e)
          then [ELog ("Stderr: " ++ err_stderr e)%string] else [])
      ++ (if code_is_not_zero (err_code e)
          then [ELog ("Unpublish command exited with code "
                        ++ show_code (err_code e))%string]
          else [])
      ++ [ELog
            "No previous packages to clean up (this is normal on first run)"]
  end.

Definition publishPackages_trace (s : State) : list Event :=
  [ELog "Publishing packages to local registry..."; EExec CmdPublish]
  ++ match exec_result env (execCount s) CmdPublish with
     | ExecOk _ => [ELog "All packages published successfully!"]
     | ExecFail e =>
         if already_published (errorMsg_of (ExecFailure e))
         then [ELog "Packages already exist at this version, skipping publish"]
         else [EError "Publish completed with warnings" None]
     end.

(** What one run of the pipeline leaves in the trace between the two
    assignments to [isRebuilding]. *)
Definition pipeline_trace (s : State) : list Event :=
  match exec_result env (execCount s) CmdBuild with
  | ExecOk _ =>
      [ELog "Building libraries..."; EExec CmdBuild; ELog "Build completed"]
      ++ cleanRegistry_trace (bump s)
      ++ publishPackages_trace (bump (bump s))
      ++ [ELog "Rebuild complete!"]
  | ExecFail e =>
      [ELog "Building libraries..."; EExec CmdBuild;
       EError ("Build failed: " ++ err_message e)%string None;
       EError "Rebuild failed:"
              (Some (JsError ("Build failed: " ++ err_message e)%string))]
  end.

Definition pipeline_state (s : State) : State :=
  match exec_result env (execCount s) CmdBuild with
  | ExecOk _ => bump (bump (bump s))
  | ExecFail _ => bump s
  end.

End Expected.

(** ** Startup in the trace *)

(** The child reports a spawn error that the listener throws on. *)
Definition spawn_is_fatal (env : Env) : bool :=
  match spawn_error env with
  | Some message => negb (Js.includes message "EADDRINUSE")
  | None => false
  end.

Definition spawn_report (message : string) : list Event :=
  [ELog "Starting Verdaccio local registry..."; ESpawn;
   EError "Verdaccio process error:" (Some (JsError message))].

(** Startup up to the health check: the spawn, and the report of a spawn
    error that is not fatal. *)
Definition spawn_trace (env : Env) : list Event :=
  [ELog "Starting Verdaccio local registry..."; ESpawn]
  ++ match spawn_error env with
     | Some message =>
         [EError "Verdaccio process error:" (Some (JsError message))]
     | None => []
     end.


(** [remaining] polls that find the registry not ready, the first of them
    numbered [attempts + 1], starting at time [t]. *)
Fixpoint polls (remaining attempts : nat) (t : Z) : list Event :=
  match remaining with
  | O => []
  | S remaining' =>
      ESleep 1000 :: EPing (S attempts) (t + 1000)
      :: polls remaining' (S attempts) (t + 1000)
  end.

(** The clock after [n] sleeps of one second. *)
Fixpoint elapsed (n : nat) (t : Z) : Z :=
  match n with
  | O => t
  | S n' => elapsed n' (t + 1000)
  end.

Fixpoint pings (tr : list Event) : list nat :=
  match tr with
  | [] => []
  | EPing attempt _ :: tr' => attempt :: pings tr'
  | _ :: tr' => pings tr'
  end.

(** ** Sample environments *)

Definition command_failed (message : string) : ExecError :=
  mkExecError message "" "" CodeUndefined.

(** Every command succeeds, the registry answers the third ping. *)
Definition env_healthy : Env :=
  mkEnv (fun _ _ => ExecOk "")
        None
        (fun attempt => if Nat.leb 3 attempt then Status 200 else ConnectionError)
        "/work"
        (fun _ => Some [DFile "index.ts"; DDir "foo" (Some [DDir "src" (Some [])])])
        (fun _ => None).

(** The build fails. *)
Definition env_build_fails : Env :=
  mkEnv (fun _ c =>
           match c with
           | CmdBuild => ExecFail (command_failed "Command failed: nx build")
           | _ => ExecOk ""
           end)
        None (fun _ => Status 200) "/work" (fun _ => None)
        (fun _ => None).

(** Nothing is published yet: the unpublish command exits with 1. *)
Definition env_unpublish_fails : Env :=
  mkEnv (fun _ c =>
           match c with
           | CmdUnpublish =>
               ExecFail (mkExecError "Command failed: nx unpublish-local"
                                     "" "404 Not Found" CodeUndefined)
           | _ => ExecOk ""
           end)
        None (fun _ => Status 200) "/work" (fun _ => None)
        (fun _ => None).

(** The command lines handed to [execSync] by the daemon and by the
    one-shot script. *)
Definition command_line (c : Cmd) : string :=
  match c with
  | CmdBuild =>
      "npx nx run-many --target=build --all --configuration=development --parallel --output-style=stream --no-cloud"
  | CmdUnpublish =>
      "npx nx run-many --target=unpublish-local --all --parallel --output-style=stream --no-cloud"
  | CmdPublish =>
      "npx nx run-many --target=publish-local --all --parallel --output-style=stream --no-cloud"
  end.

Definition legacy_command_line (c : Cmd) : string :=
  match c with
  | CmdBuild =>
      "npx nx run-many --target=build --all --configuration=development --parallel"
  | CmdUnpublish => "npx nx run-many --target=unpublish-local --all --parallel"
  | CmdPublish => "npx nx run-many --target=publish-local --all --parallel"
  end.

(** What [execSync] throws when a command run with [stdio: 'inherit']
    ends with a status other than 0: the output went to the terminal,
    so the message names the command and nothing else, and [stdout] and
    [stderr] are [null]. *)
Definition exit_failure (command : string) : ExecError :=
  command_failed ("Command failed: " ++ command).

(** What [execSync] throws when the command outlives its timeout. *)
Definition timeout_failure : ExecError :=
  mkExecError "spawnSync /bin/sh ETIMEDOUT" "" "" (CodeStr "ETIMEDOUT").

(** The error of a failed publish step, whose output is inherited. *)
Definition inherited_failure (command : string) (e : ExecError) : Prop :=
  e = exit_failure command \/ e = timeout_failure.

(** The versions are in the registry already: npm writes its complaint
    to the terminal and the publish command ends with status 1. *)
Definition env_republish : Env :=
  mkEnv (fun _ c =>
           match c with
           | CmdPublish => ExecFail (exit_failure (command_line CmdPublish))
           | _ => ExecOk ""
           end)
        None (fun _ => Status 200) "/work" (fun _ => None)
        (fun _ => None).

(** The same for the one-shot script. *)
Definition env_legacy_republish : Env :=
  mkEnv (fun _ c =>
           match c with
           | CmdPublish =>
               ExecFail (exit_failure (legacy_command_line CmdPublish))
           | _ => ExecOk ""
           end)
        None (fun _ => Status 200) "/work" (fun _ => None)
        (fun _ => None).

(** The publish command times out. *)
Definition env_publish_times_out : Env :=
  mkEnv (fun _ c =>
           match c with
           | CmdPublish =>
               ExecFail timeout_failure
           | _ => ExecOk ""
           end)
        None (fun _ => Status 200) "/work" (fun _ => None)
        (fun _ => None).

(** ** Bursts of file changes *)

(** A notification the watch callback passes on to the debouncer. *)
Definition accepted (c : Change) : bool :=
  match change_filename c with
  | Some name => Js.truthy name && negb (shouldIgnore name)
  | None => false
  end.

(** Each notification comes less than the debounce delay after the one
    before it, the first one after [prev]. *)
Fixpoint within_window (prev : Z) (l : list Change) : bool :=
  match l with
  | [] => true
  | c :: rest =>
      (prev <=? change_time c)%Z && (change_time c <? prev + 1000)%Z
      && within_window (change_time c) rest
  end.

Fixpoint last_time (first : Change) (rest : list Change) : Z :=
  match rest with
  | [] => change_time first
  | c :: rest' => last_time c rest'
  end.

(** The debounce timer is armed, and it is the only timer. *)
Definition pending (due : Z) (s : State) : Prop :=
  exists id,
    timers s = [mkTimer id due GuardedRebuild]
    /\ rebuildTimer s = Some id.

(** A computation that returns and keeps pipeline runs apart: its trace
    starts no run while one is in progress, and [isRebuilding] tells at
    its end whether one is. *)
Definition orderly {A} (m : M A) : Prop :=
  forall s, exists a s' tr,
    m s = (Ret a, s', tr)
    /\ exclusive (isRebuilding s) tr = Some (isRebuilding s').

Definition sample_burst : list Change :=
  [ mkChange 100 "/work/libs/foo/src" (Some "index.ts");
    mkChange 300 "/work/libs/foo/src" (Some "index.ts");
    mkChange 1250 "/work/libs/foo/src" (Some "util.ts") ].

(** A run is in progress. *)
Definition state_rebuilding : State :=
  mkState true None true [] 0 0 0.

(** A run is in progress and the debounce timer is armed. *)
Definition state_rebuilding_with_timer : State :=
  mkState true (Some 0) true [mkTimer 0 1100 GuardedRebuild] 1 100 3.

(** The registry never answers. *)
Definition env_unreachable : Env :=
  mkEnv (fun _ _ => ExecOk "") None (fun _ => ConnectionError) "/work"
        (fun _ => Some [])
        (fun _ => None).

(** The port is taken by a registry that is running already. *)
Definition env_port_taken : Env :=
  mkEnv (fun _ _ => ExecOk "")
        (Some "listen EADDRINUSE: address already in use :::4873")
        (fun _ => Status 200) "/work" (fun _ => Some [])
        (fun _ => None).

(** The registry cannot be spawned. *)
Definition env_spawn_fails : Env :=
  mkEnv (fun _ _ => ExecOk "") (Some "spawn npx ENOENT")
        (fun _ => Status 200) "/work" (fun _ => Some [])
        (fun _ => None).

(** ** More of the watch loop *)

(** At most one timer is armed, and it is the debounce timer that
    [rebuildTimer] holds. *)
Definition one_timer (s : State) : Prop :=
  timers s = [] \/ exists due, pending due s.

(** A computation that returns and keeps a property of the state. *)
Definition keeps (I : State -> Prop) {A} (m : M A) : Prop :=
  forall s, I s -> exists a s' tr, m s = (Ret a, s', tr) /\ I s'.

(** *** Runs that take time

    [execSync] keeps the thread until its command has ended, so a
    pipeline run holds up the loop for as long as its three commands
    take: meanwhile no timer fires and no notification is delivered.
    [run_time n] is the time taken by the run that starts when [n]
    commands have been run. [change_time] is here the time at which the
    file changes; its notification is delivered then, or, when a run is
    in progress, once the run has ended. *)

Section Timed.

Variable env : Env.
Variable run_time : nat -> Z.

Definition timed_callback (cb : Callback) : M unit :=
  match cb with
  | GuardedRebuild =>
      s <- get_state ;;
      if negb (isRebuilding s) then
        rebuild env ;;
        modify (fun s' => set_now (now s' + run_time (execCount s))%Z s')
      else ret tt
  end.

(** A timer runs when it is due, or later if the loop is held up. *)
Definition timed_fire (t : Timer) : M unit :=
  modify (fun s => set_now (Z.max (now s) (timer_due t))
                     (set_timers (remove_timer (timer_id t) (timers s)) s)) ;;
  s <- get_state ;;
  emit (EFire (timer_id t) (now s)) ;;
  timed_callback (timer_callback t).

Fixpoint timed_run_timers (fuel : nat) (horizon : Z) : M unit :=
  match fuel with
  | O => ret tt
  | S fuel' =>
      s <- get_state ;;
      match next_due horizon (timers s) with
      | None => ret tt
      | Some t => timed_fire t ;; timed_run_timers fuel' horizon
      end
  end.

Definition timed_advance (horizon : Z) : M unit :=
  s <- get_state ;;
  timed_run_timers (List.length (timers s)) horizon ;;
  modify (fun s => set_now (Z.max (now s) horizon) s).

Definition timed_deliver (c : Change) : M unit :=
  timed_advance (change_time c) ;;
  on_change env (change_dir c) (change_filename c).

Fixpoint timed_deliver_all (changes : list Change) : M unit :=
  match changes with
  | [] => ret tt
  | c :: rest => timed_deliver c ;; timed_deliver_all rest
  end.

Definition timed_event_loop (changes : list Change) (horizon : Z) : M unit :=
  timed_deliver_all changes ;;
  timed_advance horizon.

End Timed.

(** Each file change comes at least [gap] after the one before it, the
    first one after [prev]. *)
Fixpoint spaced (gap prev : Z) (l : list Change) : bool :=
  match l with
  | [] => true
  | c :: rest =>
      (prev + gap <=? change_time c)%Z && spaced gap (change_time c) rest
  end.

(** Each file change comes while the loop is held up until [busy_until],
    and not before the one before it. *)
Fixpoint during (prev busy_until : Z) (l : list Change) : bool :=
  match l with
  | [] => true
  | c :: rest =>
      (prev <=? change_time c)%Z && (change_time c <=? busy_until)%Z
      && during (change_time c) busy_until rest
  end.

Definition sample_spaced : list Change :=
  [ mkChange 100 "/work/libs/foo/src" (Some "index.ts");
    mkChange 1500 "/work/libs/foo/src" (Some "index.ts");
    mkChange 5000 "/work/libs/bar/src" (Some "util.ts") ].

(** Two files change while the run for the first change is in
    progress. *)
Definition sample_during : list Change :=
  [ mkChange 1200 "/work/libs/foo/src" (Some "index.ts");
    mkChange 1300 "/work/libs/bar/src" (Some "util.ts") ].

Definition sample_ignored : list Change :=
  [ mkChange 100 "/work/libs/foo/src" (Some "index.spec.ts");
    mkChange 200 "/work/libs/foo/src" None;
    mkChange 300 "/work/libs/foo/src" (Some "");
    mkChange 2000 "/work/libs/foo" (Some "node_modules") ].

(** ** The directories of a tree *)

(** The paths of the directories at and below an entry of [dir], in the
    order of the listings. *)
Fixpoint dirs_below (dir : string) (entry : Dirent) : list string :=
  match entry with
  | DFile _ => []
  | DDir name listing =>
      join dir name
      :: match listing with
         | None => []
         | Some entries => flat_map (dirs_below (join dir name)) entries
         end
  end.

Definition tree_dirs (dir : string) (listing : option (list Dirent))
  : list string :=
  dir :: match listing with
         | None => []
         | Some entries => flat_map (dirs_below dir) entries
         end.

(** [fs.watch] accepts the directory. *)
Definition watchable (env : Env) (dir : string) : bool :=
  match watch_error env dir with
  | None => true
  | Some _ => false
  end.

(** What a walk that starts with the watched set [w] returns: the set it
    started with followed by the directories it added, none of them
    ignored, and no directory twice; the watches it set are on the added
    directories that [fs.watch] accepted, in the same order; the walk
    runs no command. *)
Definition walk_ok (env : Env) (w : list string) (r : Walked) : Prop :=
  exists added,
    fst (fst r) = w ++ added
    /\ watches (snd (fst r)) = filter (watchable env) added
    /\ Forall (fun d => shouldIgnore d = false) added
    /\ (NoDup w -> NoDup (fst (fst r)))
    /\ execs (snd (fst r)) = [].

(** The directories [l] of a tree are all to be watched: none is ignored,
    none occurs twice or is in the watched set [w] already, and [fs.watch]
    accepts each of them. *)
Definition clean (env : Env) (l w : list string) : Prop :=
  Forall (fun d => shouldIgnore d = false) l
  /\ NoDup l
  /\ Forall (fun d => ~ In d w) l
  /\ Forall (fun d => watch_error env d = None) l.

(** A project below a temporary directory. *)
Definition env_under_tmp : Env :=
  mkEnv (fun _ _ => ExecOk "") None (fun _ => Status 200) "/tmp/project"
        (fun _ => Some [DDir "foo" (Some [DDir "src" (Some [])])])
        (fun _ => None).

Definition sample_tree : option (list Dirent) :=
  Some [ DFile "README.md";
         DDir "foo" (Some [DFile "index.ts"; DDir "src" (Some [DDir "lib" None])]);
         DDir "bar" (Some []) ].

Definition env_sample_tree : Env :=
  mkEnv (fun _ _ => ExecOk "") None (fun _ => Status 200) "/work"
        (fun _ => sample_tree)
        (fun _ => None).

(** There is no [libs] directory. *)
Definition env_libs_missing : Env :=
  mkEnv (fun _ _ => ExecOk "") None (fun _ => Status 200) "/work"
        (fun _ => None)
        (fun dir =>
           if String.eqb dir "/work/libs"
           then Some "ENOENT: no such file or directory, watch '/work/libs'"
           else None).

(** The directory [foo] goes away between the listing of [libs] and the
    call of [watch] for it. *)
Definition env_foo_vanishes : Env :=
  mkEnv (fun _ _ => ExecOk "") None (fun _ => Status 200) "/work"
        (fun _ => sample_tree)
        (fun dir =>
           if String.eqb dir "/work/libs/foo"
           then Some "ENOENT: no such file or directory, watch '/work/libs/foo'"
           else None).

(** [clean], decided. *)
Fixpoint nodupb (l : list string) : bool :=
  match l with
  | [] => true
  | x :: rest => negb (has rest x) && nodupb rest
  end.

Definition cleanb (env : Env) (l w : list string) : bool :=
  forallb (fun d => negb (shouldIgnore d)) l
  && nodupb l
  && forallb (fun d => negb (has w d)) l
  && forallb (watchable env) l.

(** ** More sample environments *)

(** The registry answers the third ping with 200, after a 503 and a
    connection error. *)
Definition env_slow_registry : Env :=
  mkEnv (fun _ _ => ExecOk "") None
        (fun attempt =>
           match attempt with
           | 1 => ConnectionError
           | 2 => Status 503
           | _ => Status 200
           end)
        "/work" (fun _ => sample_tree)
        (fun _ => None).

(** Nothing is published yet and the publish command fails as well. *)
Definition env_registry_rejects : Env :=
  mkEnv (fun _ c =>
           match c with
           | CmdBuild => ExecOk ""
           | CmdUnpublish => ExecFail (command_failed "Command failed: nx unpublish-local")
           | CmdPublish => ExecFail (command_failed "Command failed: nx publish-local")
           end)
        None (fun _ => Status 200) "/work" (fun _ => sample_tree)
        (fun _ => None).

(** The lines [startWatchMode] ends with. *)
Definition ready_lines : list Event :=
  [ELog "Watch mode ready!";
   ELog "Local packages published to http://localhost:4873";
   ELog "Watching for file changes in libs/";
   ELog "Libraries will auto-rebuild on changes";
   ELog "Press Ctrl+C to stop"].

(** ** The registry child *)

Definition child_alive (s : State) : Prop := verdaccioProcess s = true.

(** A computation that leaves the child handle defined if it was,
    however it ends. *)
Definition child_kept {A} (m : M A) : Prop :=
  forall s, child_alive s -> child_alive (snd (fst (m s))).

(** A computation after which the child handle is defined, however it
    ends. *)
Definition child_set {A} (m : M A) : Prop :=
  forall s, child_alive (snd (fst (m s))).

(** What [Legacy.unpublish] leaves in the trace. *)
Definition legacy_unpublish_trace (env : Env) (s : State) : list Event :=
  [ELog "Cleaning up previous packages from local registry...";
   EExec CmdUnpublish;
   match exec_result env (execCount s) CmdUnpublish with
   | ExecOk _ => ELog "Cleanup completed"
   | ExecFail _ =>
       ELog "No previous packages to clean up (this is normal for first run)"
   end].

(** The lines [Legacy.watch] ends with. *)
Definition legacy_ready_lines : list Event :=
  [ELog "Watch mode ready!";
   ELog "Local packages are published to Verdaccio at http://localhost:4873";
   ELog "You can now use these packages in your applications";
   ELog "Press Ctrl+C to stop"].

(** ** The command line of the variant with a registry user

    [parseCommandLineArguments] of the variant of the script that registers
    a user with the registry before it builds. *)

Record Credentials : Type := mkCredentials {
  username : string;
  password : string;
  email : string
}.

Definition no_credentials : Credentials := mkCredentials "" "" "".

(** The [for] loop over [args]: a flag takes the argument after it, if
    that one is not empty, and the loop goes on behind the two; any other
    argument is passed over. *)
Fixpoint parse_args (args : list string) (acc : Credentials) : Credentials :=
  match args with
  | [] => acc
  | arg :: rest =>
      match rest with
      | [] => acc
      | next :: rest' =>
          if String.eqb arg "--username" && Js.truthy next
          then parse_args rest' (mkCredentials next (password acc) (email acc))
          else if String.eqb arg "--password" && Js.truthy next
          then parse_args rest' (mkCredentials (username acc) next (email acc))
          else if String.eqb arg "--email" && Js.truthy next
          then parse_args rest' (mkCredentials (username acc) (password acc) next)
          else parse_args rest acc
      end
  end.

Definition USAGE : string :=
  "Usage: node -r ts-node/register watch.ts --username <username> --password <password> --email <email>".

(** [argv] is [process.argv]: the interpreter, the script, then the
    arguments. *)
Definition parseCommandLineArguments (argv : list string) : M Credentials :=
  let args := skipn 2 argv in
  let c := parse_args args no_credentials in
  if negb (Js.truthy (username c)) || negb (Js.truthy (password c))
     || negb (Js.truthy (email c))
  then
    console_error "Missing required arguments!" None ;;
    console_error USAGE None ;;
    exit 1
  else ret c.

Inductive Flag : Type := FlagUsername | FlagPassword | FlagEmail.

Definition flag_name (f : Flag) : string :=
  match f with
  | FlagUsername => "--username"
  | FlagPassword => "--password"
  | FlagEmail => "--email"
  end.

Definition set_credential (acc : Credentials) (fv : Flag * string)
  : Credentials :=
  match fst fv with
  | FlagUsername => mkCredentials (snd fv) (password acc) (email acc)
  | FlagPassword => mkCredentials (username acc) (snd fv) (email acc)
  | FlagEmail => mkCredentials (username acc) (password acc) (snd fv)
  end.

(** Arguments written as flags, each with its value. *)
Definition flag_args (pairs : list (Flag * string)) : list string :=
  flat_map (fun fv => [flag_name (fst fv); snd fv]) pairs.

Definition sample_pairs : list (Flag * string) :=
  [ (FlagEmail, "dev@example.org"); (FlagUsername, "--password");
    (FlagPassword, "secret"); (FlagUsername, "dev") ].

(** ** The variant with [buildDevelop]

    The variant of the watch script whose build step has no [try] of its
    own ([buildDevelop], [unpublishLocal], [publishLocal], [rebuildAll]). *)

Module Develop.

Section Script.

Variable env : Env.

Definition buildDevelop : M unit :=
  console_log "Building libraries..." ;;
  _ <- execSync env CmdBuild ;;
  console_log "Build completed".

(** [execError.code !== undefined && execError.code !== 0] *)
Definition code_defined_and_not_zero (c : JsCode) : bool :=
  match c with
  | CodeUndefined => false
  | CodeNum n => negb (Z.eqb n 0)
  | CodeStr _ => true
  end.

Definition unpublishLocal : M unit :=
  try_catch
    (console_log "Cleaning up previous packages..." ;;
     output <- execSync env CmdUnpublish ;;
     when (Js.truthy output) (console_log output) ;;
     console_log "Cleanup completed")
    (fun error =>
       when (Js.truthy (stdout_of error))
            (console_log ("Stdout: " ++ stdout_of error)%string) ;;
       when (Js.truthy (stderr_of error))
            (console_log ("Stderr: " ++ stderr_of error)%string) ;;
       when (code_defined_and_not_zero (code_of error))
            (console_log ("Unpublish command exited with code "
                            ++ show_code (code_of error))%string) ;;
       console_log
         "No previous packages to clean up (this is normal on first run)").

(** [error instanceof Error ? error.message : String(error)]; what is
    thrown here is always an Error object. *)
Definition publishLocal : M unit :=
  try_catch
    (console_log "Publishing packages to local registry..." ;;
     _ <- execSync env CmdPublish ;;
     console_log "All packages published successfully!")
    (fun error =>
       let errorMsg := message_of error in
       if already_published errorMsg
       then console_log
              "Packages already exist at this version, skipping publish"
       else console_error "Publish completed with warnings" None).

Definition rebuildAll : M unit :=
  s <- get_state ;;
  if isRebuilding s then
    console_log "Rebuild already in progress..."
  else
    modify (set_isRebuilding true) ;; emit (ERebuilding true) ;;
    console_log "Rebuilding and republishing..." ;;
    try_finally
      (try_catch
         (buildDevelop ;;
          unpublishLocal ;;
          publishLocal ;;
          console_log "Rebuild complete!")
         (fun error => console_error "Rebuild failed:" (Some error)))
      (modify (set_isRebuilding false) ;; emit (ERebuilding false)).

End Script.

End Develop.

(** What the steps of [Develop.rebuildAll] leave in the trace. *)
Definition develop_unpublish_trace (env : Env) (s : State) : list Event :=
  match exec_result env (execCount s) CmdUnpublish with
  | ExecOk out =>
      [ELog "Cleaning up previous packages..."; EExec CmdUnpublish]
      ++ (if Js.truthy out then [ELog out] else [])
      ++ [ELog "Cleanup completed"]
  | ExecFail e =>
      [ELog "Cleaning up previous packages..."; EExec CmdUnpublish]
      ++ (if Js.truthy (err_stdout e)
          then [ELog ("Stdout: " ++ err_stdout e)%string] else [])
      ++ (if Js.truthy (err_stderr e)
          then [ELog ("Stderr: " ++ err_stderr e)%string] else [])
      ++ (if Develop.code_defined_and_not_zero (err_code e)
          then [ELog ("Unpublish command exited with code "
                        ++ show_code (err_code e))%string]
          else [])
      ++ [ELog
            "No previous packages to clean up (this is normal on first run)"]
  end.

Definition develop_publish_trace (env : Env) (s : State) : list Event :=
  [ELog "Publishing packages to local registry..."; EExec CmdPublish]
  ++ match exec_result env (execCount s) CmdPublish with
     | ExecOk _ => [ELog "All packages published successfully!"]
     | ExecFail e =>
         if already_published (err_message e)
         then [ELog "Packages already exist at this version, skipping publish"]
         else [EError "Publish completed with warnings" None]
     end.

Definition develop_pipeline_trace (env : Env) (s : State) : list Event :=
  match exec_result env (execCount s) CmdBuild with
  | ExecOk _ =>
      [ELog "Building libraries..."; EExec CmdBuild; ELog "Build completed"]
      ++ develop_unpublish_trace env (bump s)
      ++ develop_publish_trace env (bump (bump s))
      ++ [ELog "Rebuild complete!"]
  | ExecFail e =>
      [ELog "Building libraries..."; EExec CmdBuild;
       EError "Rebuild failed:" (Some (ExecFailure e))]
  end.

Definition EXIT_CODE_LINE : string := "Unpublish command exited with code ".

(** Is this the line that reports the exit code of the unpublish
    command? *)
Definition is_exit_code_line (e : Event) : bool :=
  match e with
  | ELog line => Js.startsWith line EXIT_CODE_LINE
  | _ => false
  end.
(** ** The pattern matcher *)

Lemma startsWith_app s : forall p,
  Js.startsWith s p = true -> exists post, s = (p ++ post)%string.
Proof.
  induction s as [|c s IH]; intros [|d p] H; cbn in H.
  - now exists EmptyString.
  - discriminate.
  - now exists (String c s).
  - apply andb_prop in H. destruct H as [Hc Hp].
    apply Ascii.eqb_eq in Hc. subst d.
    destruct (IH p Hp) as (post & ->). now exists post.
Qed.

Lemma includes_exists s p :
  Js.includes s p = true ->
  exists pre post, s = (pre ++ p ++ post)%string.
Proof.
  induction s as [|c s IH]; cbn [Js.includes]; intros H;
    apply orb_prop in H; destruct H as [H|H]; try discriminate.
  - destruct (startsWith_app _ _ H) as (post & ->). now exists EmptyString, post.
  - destruct (startsWith_app _ _ H) as (post & ->). now exists EmptyString, post.
  - destruct (IH H) as (pre & post & ->). now exists (String c pre), post.
Qed.

Lemma includes_then_empty path after :
  includes_then path EmptyString after = true ->
  Js.includes path after = true.
Proof.
  induction path as [|c path IH]; cbn; intros H.
  - now rewrite orb_false_r in H.
  - apply orb_prop in H. destruct H as [H|H]; [exact H|].
    rewrite (IH H). apply orb_true_r.
Qed.

Lemma test_here r s : Regex.match_here r s = true -> Regex.test r s = true.
Proof. intros H. destruct s; cbn [Regex.test]; now rewrite H. Qed.

Lemma test_skip r pre : forall s,
  Regex.test r s = true -> Regex.test r (pre ++ s)%string = true.
Proof.
  induction pre as [|c pre IH]; intros s H; [exact H|].
  cbn [String.append Regex.test]. rewrite (IH s H). apply orb_true_r.
Qed.

(** *** The matcher decides the language of the regex *)

Lemma match_here_star a r s :
  Regex.match_here (Regex.Star a :: r) s =
  Regex.match_here r s ||
  match s with
  | EmptyString => false
  | String c s' =>
      Regex.atom_matches a c && Regex.match_here (Regex.Star a :: r) s'
  end.
Proof. destruct s; reflexivity. Qed.

Lemma match_here_complete r m :
  Regex.Matches r m ->
  forall post, Regex.match_here r (m ++ post)%string = true.
Proof.
  induction 1 as [|a c r s Ha _ IH|a r s _ IH|a c r s Ha _ IH]; intros post.
  - reflexivity.
  - cbn. now rewrite Ha, IH.
  - rewrite match_here_star, IH. reflexivity.
  - rewrite match_here_star. cbn [String.append].
    rewrite Ha, IH. apply orb_true_r.
Qed.

Lemma match_here_sound r : forall s,
  Regex.match_here r s = true ->
  exists m post, s = (m ++ post)%string /\ Regex.Matches r m.
Proof.
  induction r as [|[a|a] r IH]; intros s H.
  - exists EmptyString, s. split; [reflexivity|constructor].
  - destruct s as [|c s]; cbn in H; [discriminate|].
    apply andb_prop in H. destruct H as [Ha Hr].
    destruct (IH s Hr) as (m & post & -> & Hm).
    exists (String c m), post. split; [reflexivity|now constructor].
  - induction s as [|c s IHs]; rewrite match_here_star in H;
      apply orb_prop in H; destruct H as [H|H]; try discriminate.
    + destruct (IH _ H) as (m & post & E & Hm).
      exists m, post. split; [exact E|now apply Regex.M_star_done].
    + destruct (IH _ H) as (m & post & E & Hm).
      exists m, post. split; [exact E|now apply Regex.M_star_done].
    + apply andb_prop in H. destruct H as [Ha Hs].
      destruct (IHs Hs) as (m & post & -> & Hm).
      exists (String c m), post. split; [reflexivity|].
      now apply Regex.M_star_more.
Qed.

Lemma test_sound r : forall s,
  Regex.test r s = true ->
  exists pre m post, s = (pre ++ m ++ post)%string /\ Regex.Matches r m.
Proof.
  induction s as [|c s IH]; cbn [Regex.test]; intros H;
    apply orb_prop in H; destruct H as [H|H]; try discriminate.
  - destruct (match_here_sound _ _ H) as (m & post & E & Hm).
    now exists EmptyString, m, post.
  - destruct (match_here_sound _ _ H) as (m & post & E & Hm).
    now exists EmptyString, m, post.
  - destruct (IH H) as (pre & m & post & -> & Hm).
    now exists (String c pre), m, post.
Qed.

Lemma test_complete r pre m post :
  Regex.Matches r m -> Regex.test r (pre ++ m ++ post)%string = true.
Proof.
  intros Hm. apply test_skip, test_here, match_here_complete, Hm.
Qed.

(** A regex that matches a text whatever follows it, finds it in every
    string that includes the text. *)
Lemma test_includes r text path :
  (forall post, Regex.match_here r (text ++ post)%string = true) ->
  Js.includes path text = true ->
  Regex.test r path = true.
Proof.
  intros Hr Hi. destruct (includes_exists _ _ Hi) as (pre & post & ->).
  apply test_skip, test_here, Hr.
Qed.

Lemma IGNORED_PATTERNS_compile :
  forallb
    (fun pattern =>
       negb (Js.includes pattern "*")
       || match Regex.compile (Js.replace pattern "*" ".*") with
          | Some _ => true
          | None => false
          end)
    IGNORED_PATTERNS = true.
Proof. reflexivity. Qed.

(** Every path that a configured rule matches, read as the specification
    words it, is ignored. *)
Lemma rule_matches_pattern_matches path pattern :
  In pattern IGNORED_PATTERNS ->
  rule_matches path pattern = true ->
  pattern_matches path pattern = true.
Proof.
  unfold IGNORED_PATTERNS. cbn [In].
  intros H;
    repeat (destruct H as [<-|H]; [|]); try contradiction;
    unfold rule_matches, pattern_matches, is_wildcard;
    match goal with
    | |- context [Js.includes ?p "*"] =>
        let b := eval vm_compute in (Js.includes p "*") in
        change (Js.includes p "*") with b; cbv iota
    end;
    try (intros Hm; exact Hm);
    unfold glob_matches;
    match goal with
    | |- context [split_wildcard ?p] =>
        let b := eval vm_compute in (split_wildcard p) in
        change (split_wildcard p) with b; cbv iota beta
    end;
    match goal with
    | |- context [Regex.compile ?p] =>
        let b := eval vm_compute in (Regex.compile p) in
        change (Regex.compile p) with b; cbv iota beta
    end;
    intros Hm; apply includes_then_empty in Hm;
    (eapply test_includes; [|exact Hm]);
    intros post; reflexivity.
Qed.

(** What [shouldIgnore] decides: a literal pattern is included in the
    path, or a part of the path is in the language of the regex made from
    a wildcard pattern. *)
Lemma shouldIgnore_iff path :
  shouldIgnore path = true <->
  exists pattern,
    In pattern IGNORED_PATTERNS
    /\ (if Js.includes pattern "*"
        then exists regex pre m post,
               Regex.compile (Js.replace pattern "*" ".*") = Some regex
               /\ path = (pre ++ m ++ post)%string
               /\ Regex.Matches regex m
        else Js.includes path pattern = true).
Proof.
  unfold shouldIgnore. rewrite existsb_exists.
  split; intros (pattern & Hin & H); exists pattern; (split; [exact Hin|]);
    unfold pattern_matches in *; destruct (Js.includes pattern "*");
    try exact H.
  - destruct (Regex.compile (Js.replace pattern "*" ".*")) as [regex|];
      [|discriminate].
    destruct (test_sound _ _ H) as (pre & m & post & E & Hm).
    now exists regex, pre, m, post.
  - destruct H as (regex & pre & m & post & -> & -> & Hm).
    now apply test_complete.
Qed.

Lemma spec_shouldIgnore_shouldIgnore path :
  spec_shouldIgnore path = true -> shouldIgnore path = true.
Proof.
  unfold spec_shouldIgnore, shouldIgnore. rewrite !existsb_exists.
  intros (pattern & Hin & Hm). exists pattern. split; [exact Hin|].
  now apply rule_matches_pattern_matches.
Qed.

(** ** The monad's equations *)

Lemma bind_Ret {A B} (m : M A) (k : A -> M B) s a s1 t1 :
  m s = (Ret a, s1, t1) ->
  bind m k s = (let '(o, s2, t2) := k a s1 in (o, s2, t1 ++ t2)).
Proof. intros H. unfold bind. rewrite H. reflexivity. Qed.

Lemma bind_Throw {A B} (m : M A) (k : A -> M B) s e s1 t1 :
  m s = (Throw e, s1, t1) -> bind m k s = (Throw e, s1, t1).
Proof. intros H. unfold bind. rewrite H. reflexivity. Qed.

Lemma bind_Halt {A B} (m : M A) (k : A -> M B) s c s1 t1 :
  m s = (Halt c, s1, t1) -> bind m k s = (Halt c, s1, t1).
Proof. intros H. unfold bind. rewrite H. reflexivity. Qed.

Lemma execs_app t1 t2 : execs (t1 ++ t2) = execs t1 ++ execs t2.
Proof.
  induction t1 as [|e t1 IH]; simpl; [reflexivity|].
  destruct (is_exec e); simpl; now rewrite IH.
Qed.

Lemma fires_app t1 t2 : fires (t1 ++ t2) = fires t1 ++ fires t2.
Proof.
  induction t1 as [|e t1 IH]; simpl; [reflexivity|].
  destruct e; simpl; now rewrite IH.
Qed.

Lemma runs_started_app t1 t2 :
  runs_started (t1 ++ t2) = runs_started t1 + runs_started t2.
Proof.
  induction t1 as [|e t1 IH]; simpl; [reflexivity|].
  destruct e as [| | | | | | | | | | |[|]| |]; simpl; now rewrite IH.
Qed.

Lemma watches_app t1 t2 : watches (t1 ++ t2) = watches t1 ++ watches t2.
Proof.
  induction t1 as [|e t1 IH]; simpl; [reflexivity|].
  destruct e; simpl; now rewrite IH.
Qed.

Lemma exclusive_app t1 t2 b :
  exclusive b (t1 ++ t2) =
  match exclusive b t1 with
  | Some b' => exclusive b' t2
  | None => None
  end.
Proof.
  revert b. induction t1 as [|e t1 IH]; intros b; simpl; [reflexivity|].
  destruct e as [| | | | | | | | | | |[|]| |]; simpl; try apply IH;
    destruct b; try apply IH; reflexivity.
Qed.

(** ** The steps of the pipeline *)

Section Pipeline.

Variable env : Env.

Lemma buildLibraries_eq s :
  buildLibraries env s =
  (fst (buildLibraries_result env s), bump s, snd (buildLibraries_result env s)).
Proof.
  unfold buildLibraries, buildLibraries_result, try_catch, bind, execSync,
    console_log, console_error, emit, throw; simpl.
  destruct (exec_result env (execCount s) CmdBuild); reflexivity.
Qed.

Lemma cleanRegistry_eq s :
  cleanRegistry env s = (Ret tt, bump s, cleanRegistry_trace env s).
Proof.
  unfold cleanRegistry, cleanRegistry_trace, try_catch, bind, execSync,
    console_log, emit, when, ret; simpl.
  destruct (exec_result env (execCount s) CmdUnpublish) as [out|e]; simpl.
  - destruct (Js.truthy out); reflexivity.
  - destruct (Js.truthy (err_stdout e)), (Js.truthy (err_stderr e)),
      (code_is_not_zero (err_code e)); reflexivity.
Qed.

Lemma cleanRegistry_trace_execs s : execs (cleanRegistry_trace env s) = [CmdUnpublish].
Proof.
  unfold cleanRegistry_trace.
  destruct (exec_result env (execCount s) CmdUnpublish) as [out|e]; simpl.
  - destruct (Js.truthy out); reflexivity.
  - destruct (Js.truthy (err_stdout e)), (Js.truthy (err_stderr e)),
      (code_is_not_zero (err_code e)); reflexivity.
Qed.

Lemma cleanRegistry_trace_exclusive s :
  exclusive true (cleanRegistry_trace env s) = Some true.
Proof.
  unfold cleanRegistry_trace.
  destruct (exec_result env (execCount s) CmdUnpublish) as [out|e]; simpl.
  - destruct (Js.truthy out); reflexivity.
  - destruct (Js.truthy (err_stdout e)), (Js.truthy (err_stderr e)),
      (code_is_not_zero (err_code e)); reflexivity.
Qed.

Lemma publishPackages_eq s :
  publishPackages env s = (Ret tt, bump s, publishPackages_trace env s).
Proof.
  unfold publishPackages, publishPackages_trace, try_catch, bind, execSync,
    console_log, console_error, emit; simpl.
  destruct (exec_result env (execCount s) CmdPublish) as [out|e]; simpl;
    [reflexivity|].
  destruct (already_published (errorMsg_of (ExecFailure e))); reflexivity.
Qed.

Lemma publishPackages_trace_execs s :
  execs (publishPackages_trace env s) = [CmdPublish].
Proof.
  unfold publishPackages_trace.
  destruct (exec_result env (execCount s) CmdPublish) as [out|e]; simpl;
    [reflexivity|].
  destruct (already_published (errorMsg_of (ExecFailure e))); reflexivity.
Qed.

Lemma publishPackages_trace_exclusive s :
  exclusive true (publishPackages_trace env s) = Some true.
Proof.
  unfold publishPackages_trace.
  destruct (exec_result env (execCount s) CmdPublish) as [out|e]; simpl;
    [reflexivity|].
  destruct (already_published (errorMsg_of (ExecFailure e))); reflexivity.
Qed.

Lemma rebuild_busy s :
  isRebuilding s = true ->
  rebuild env s = (Ret tt, s, [ELog "Rebuild already in progress..."]).
Proof.
  intros H. unfold rebuild, bind, get_state. simpl. rewrite H. reflexivity.
Qed.

Lemma rebuild_idle s :
  isRebuilding s = false ->
  rebuild env s =
  (Ret tt,
   set_isRebuilding false (pipeline_state env (set_isRebuilding true s)),
   [ERebuilding true; ELog "Rebuilding and republishing..."]
   ++ pipeline_trace env (set_isRebuilding true s)
   ++ [ERebuilding false]).
Proof.
  intros H.
  cbv [rebuild bind get_state try_finally try_catch modify emit console_log
       console_error].
  rewrite H, buildLibraries_eq.
  unfold pipeline_trace, pipeline_state, buildLibraries_result.
  cbn [execCount set_isRebuilding].
  destruct (exec_result env (execCount s) CmdBuild) as [out|e]; cbn [fst snd].
  - rewrite cleanRegistry_eq, publishPackages_eq. cbn.
    rewrite <- !app_assoc. reflexivity.
  - reflexivity.
Qed.

End Pipeline.

(** ** The pipeline in the trace *)

Section Runs.

Variable env : Env.

Lemma pipeline_state_frame s :
  isRebuilding (pipeline_state env s) = isRebuilding s
  /\ timers (pipeline_state env s) = timers s
  /\ rebuildTimer (pipeline_state env s) = rebuildTimer s
  /\ nextTimerId (pipeline_state env s) = nextTimerId s
  /\ now (pipeline_state env s) = now s.
Proof.
  unfold pipeline_state.
  destruct (exec_result env (execCount s) CmdBuild); repeat split.
Qed.

Lemma pipeline_trace_exclusive s :
  exclusive true (pipeline_trace env s) = Some true.
Proof.
  unfold pipeline_trace.
  destruct (exec_result env (execCount s) CmdBuild); [|reflexivity].
  cbn [app exclusive].
  rewrite exclusive_app, cleanRegistry_trace_exclusive.
  rewrite exclusive_app, publishPackages_trace_exclusive. reflexivity.
Qed.

Lemma cleanRegistry_trace_quiet s :
  runs_started (cleanRegistry_trace env s) = 0
  /\ fires (cleanRegistry_trace env s) = [].
Proof.
  unfold cleanRegistry_trace.
  destruct (exec_result env (execCount s) CmdUnpublish) as [out|e]; simpl.
  - destruct (Js.truthy out); split; reflexivity.
  - destruct (Js.truthy (err_stdout e)), (Js.truthy (err_stderr e)),
      (code_is_not_zero (err_code e)); split; reflexivity.
Qed.

Lemma publishPackages_trace_quiet s :
  runs_started (publishPackages_trace env s) = 0
  /\ fires (publishPackages_trace env s) = [].
Proof.
  unfold publishPackages_trace.
  destruct (exec_result env (execCount s) CmdPublish) as [out|e]; simpl;
    [split; reflexivity|].
  destruct (already_published (errorMsg_of (ExecFailure e)));
    split; reflexivity.
Qed.

Lemma pipeline_trace_quiet s :
  runs_started (pipeline_trace env s) = 0
  /\ fires (pipeline_trace env s) = [].
Proof.
  unfold pipeline_trace.
  destruct (exec_result env (execCount s) CmdBuild); [|split; reflexivity].
  cbn [app runs_started fires].
  rewrite !runs_started_app, !fires_app.
  destruct (cleanRegistry_trace_quiet (bump s)) as [-> ->].
  destruct (publishPackages_trace_quiet (bump (bump s))) as [-> ->].
  split; reflexivity.
Qed.

Lemma orderly_ret {A} (a : A) : orderly (ret a).
Proof. intros s. exists a, s, []. split; reflexivity. Qed.

Lemma orderly_bind {A B} (m : M A) (k : A -> M B) :
  orderly m -> (forall a, orderly (k a)) -> orderly (bind m k).
Proof.
  intros Hm Hk s.
  destruct (Hm s) as (a & s1 & t1 & E1 & X1).
  destruct (Hk a s1) as (b & s2 & t2 & E2 & X2).
  exists b, s2, (t1 ++ t2). split.
  - unfold bind. rewrite E1, E2. reflexivity.
  - rewrite exclusive_app, X1. exact X2.
Qed.

Lemma orderly_get_state : orderly get_state.
Proof. intros s. exists s, s, []. split; reflexivity. Qed.

Lemma orderly_rebuild : orderly (rebuild env).
Proof.
  intros s. destruct (isRebuilding s) eqn:E.
  - rewrite (rebuild_busy env s E). eexists _, _, _. split; [reflexivity|].
    now rewrite E.
  - rewrite (rebuild_idle env s E). eexists _, _, _. split; [reflexivity|].
    cbn [app exclusive].
    rewrite exclusive_app, pipeline_trace_exclusive. reflexivity.
Qed.

Lemma orderly_run_callback cb : orderly (run_callback env cb).
Proof.
  destruct cb. unfold run_callback.
  apply orderly_bind; [apply orderly_get_state|].
  intros s. destruct (isRebuilding s); [apply orderly_ret|apply orderly_rebuild].
Qed.

Lemma orderly_fire t : orderly (fire env t).
Proof.
  unfold fire. apply orderly_bind.
  - intros s. eexists tt, _, []. split; reflexivity.
  - intros _. apply orderly_bind; [|intros _; apply orderly_run_callback].
    intros s. eexists tt, s, _. split; reflexivity.
Qed.

Lemma orderly_run_timers fuel horizon : orderly (run_timers env fuel horizon).
Proof.
  induction fuel as [|fuel IH]; cbn [run_timers]; [apply orderly_ret|].
  apply orderly_bind; [apply orderly_get_state|].
  intros s. destruct (next_due horizon (timers s)); [|apply orderly_ret].
  apply orderly_bind; [apply orderly_fire|]. intros _. exact IH.
Qed.

Lemma orderly_advance horizon : orderly (advance env horizon).
Proof.
  unfold advance. apply orderly_bind; [apply orderly_get_state|].
  intros s. apply orderly_bind; [apply orderly_run_timers|].
  intros _ s1. eexists tt, _, []. split; reflexivity.
Qed.

Lemma orderly_debounce func delay : orderly (debounce func delay).
Proof.
  unfold debounce. apply orderly_bind; [apply orderly_get_state|].
  intros s. apply orderly_bind.
  - destruct (rebuildTimer s); [|apply orderly_ret].
    intros s1. eexists tt, _, _. split; reflexivity.
  - intros _. apply orderly_bind.
    + intros s1. eexists _, _, _. split; reflexivity.
    + intros id s1. eexists tt, _, []. split; reflexivity.
Qed.

Lemma orderly_on_change dir filename : orderly (on_change env dir filename).
Proof.
  unfold on_change. destruct filename as [name|]; [|apply orderly_ret].
  destruct (negb (Js.truthy name) || shouldIgnore name); [apply orderly_ret|].
  apply orderly_bind; [|intros _; apply orderly_debounce].
  intros s. eexists tt, s, _. split; reflexivity.
Qed.

Lemma orderly_deliver_all changes : orderly (deliver_all env changes).
Proof.
  induction changes as [|c rest IH]; cbn [deliver_all]; [apply orderly_ret|].
  apply orderly_bind; [|intros _; exact IH].
  unfold deliver. apply orderly_bind; [apply orderly_advance|].
  intros _. apply orderly_on_change.
Qed.

Lemma orderly_event_loop changes horizon :
  orderly (event_loop env changes horizon).
Proof.
  unfold event_loop. apply orderly_bind; [apply orderly_deliver_all|].
  intros _. apply orderly_advance.
Qed.

End Runs.

(** ** The debouncer and the loop *)

Section Debounce.

Variable env : Env.

Lemma debounce_replaces id due cb func delay s :
  timers s = [mkTimer id due cb] ->
  rebuildTimer s = Some id ->
  debounce func delay s =
  (Ret tt,
   set_rebuildTimer (Some (nextTimerId s))
     (set_nextTimerId (S (nextTimerId s))
        (set_timers [mkTimer (nextTimerId s) (now s + delay) func] s)),
   [EClearTimeout id; ESetTimeout (nextTimerId s) (now s + delay)]).
Proof.
  intros Ht Hr.
  unfold debounce, bind, get_state, clearTimeout, setTimeout, modify.
  rewrite Hr. cbn. rewrite Ht. cbn. rewrite Nat.eqb_refl. reflexivity.
Qed.

Lemma debounce_arms func delay s :
  timers s = [] ->
  exists tr,
    debounce func delay s =
    (Ret tt,
     set_rebuildTimer (Some (nextTimerId s))
       (set_nextTimerId (S (nextTimerId s))
          (set_timers [mkTimer (nextTimerId s) (now s + delay) func] s)),
     tr)
    /\ fires tr = [] /\ runs_started tr = 0.
Proof.
  intros Ht.
  unfold debounce, bind, get_state, clearTimeout, setTimeout, modify.
  destruct (rebuildTimer s) as [old|]; cbn; rewrite Ht; cbn;
    eexists; repeat split.
Qed.

Lemma advance_idle horizon s :
  next_due horizon (timers s) = None ->
  advance env horizon s = (Ret tt, set_now (Z.max (now s) horizon) s, []).
Proof.
  intros Hn. unfold advance, bind, get_state, modify.
  destruct (List.length (timers s)); cbn; [reflexivity|].
  unfold bind, get_state. rewrite Hn. reflexivity.
Qed.

Lemma next_due_single t horizon :
  next_due horizon [t] =
  if (timer_due t <=? horizon)%Z then Some t else None.
Proof. reflexivity. Qed.

Lemma on_change_accepted c s :
  accepted c = true ->
  exists name,
    change_filename c = Some name
    /\ on_change env (change_dir c) (change_filename c) s =
       (let '(o, s', tr) := debounce GuardedRebuild 1000 s in
        (o, s',
         ELog ("File changed: "
                 ++ relative (cwd env) (join (change_dir c) name))%string
         :: tr)).
Proof.
  unfold accepted. intros Hacc.
  destruct (change_filename c) as [name|]; [|discriminate].
  exists name. split; [reflexivity|].
  apply andb_prop in Hacc. destruct Hacc as [Ht Hi].
  unfold on_change. rewrite Ht.
  apply negb_true_iff in Hi. rewrite Hi. cbn [negb orb].
  unfold bind, logChange, console_log, emit.
  destruct (debounce GuardedRebuild 1000 s) as [[o s'] tr]. reflexivity.
Qed.

(** A notification inside the window finds the timer armed and not yet
    due: the timer is replaced by one due a full delay later. *)
Lemma deliver_in_window c due s :
  pending due s ->
  isRebuilding s = false ->
  accepted c = true ->
  (now s <= change_time c)%Z ->
  (change_time c < due)%Z ->
  exists s' tr,
    deliver env c s = (Ret tt, s', tr)
    /\ pending (change_time c + 1000) s'
    /\ isRebuilding s' = false
    /\ now s' = change_time c
    /\ fires tr = [] /\ runs_started tr = 0.
Proof.
  intros (id & Ht & Hr) Hidle Hacc Hnow Hdue.
  destruct (on_change_accepted c (set_now (Z.max (now s) (change_time c)) s) Hacc)
    as (name & _ & Hon).
  unfold deliver, bind.
  rewrite advance_idle.
  2:{ rewrite Ht, next_due_single. cbn [timer_due].
      destruct (Z.leb_spec due (change_time c)); [lia|reflexivity]. }
  rewrite Hon.
  rewrite (debounce_replaces id due GuardedRebuild) by assumption.
  eexists _, _. split; [reflexivity|].
  unfold pending. cbn. rewrite Z.max_r by lia.
  split; [exists (nextTimerId s); split; reflexivity|].
  repeat split; assumption.
Qed.

(** The first notification of a burst finds no timer armed. *)
Lemma deliver_first c s :
  timers s = [] ->
  isRebuilding s = false ->
  accepted c = true ->
  (now s <= change_time c)%Z ->
  exists s' tr,
    deliver env c s = (Ret tt, s', tr)
    /\ pending (change_time c + 1000) s'
    /\ isRebuilding s' = false
    /\ now s' = change_time c
    /\ fires tr = [] /\ runs_started tr = 0.
Proof.
  intros Ht Hidle Hacc Hnow.
  destruct (on_change_accepted c (set_now (Z.max (now s) (change_time c)) s) Hacc)
    as (name & _ & Hon).
  unfold deliver, bind.
  rewrite advance_idle by (rewrite Ht; reflexivity).
  rewrite Hon.
  destruct (debounce_arms GuardedRebuild 1000
              (set_now (Z.max (now s) (change_time c)) s) Ht)
    as (tr & -> & Hf & Hr).
  eexists _, _. split; [reflexivity|].
  unfold pending. cbn. rewrite Z.max_r by lia.
  split; [exists (nextTimerId s); split; reflexivity|].
  repeat split; assumption.
Qed.

Lemma deliver_burst rest : forall c due s,
  pending due s ->
  isRebuilding s = false ->
  now s = change_time c ->
  due = (change_time c + 1000)%Z ->
  forallb accepted rest = true ->
  within_window (change_time c) rest = true ->
  exists s' tr,
    deliver_all env rest s = (Ret tt, s', tr)
    /\ pending (last_time c rest + 1000) s'
    /\ isRebuilding s' = false
    /\ now s' = last_time c rest
    /\ fires tr = [] /\ runs_started tr = 0.
Proof.
  induction rest as [|d rest IH]; intros c due s Hp Hidle Hnow Hdue Hacc Hwin.
  - exists s, []. subst due. cbn. repeat split; assumption.
  - cbn [forallb] in Hacc. apply andb_prop in Hacc. destruct Hacc as [Hd Hacc].
    cbn [within_window] in Hwin.
    apply andb_prop in Hwin. destruct Hwin as [Hwin Hrest].
    apply andb_prop in Hwin. destruct Hwin as [Hlo Hhi].
    apply Z.leb_le in Hlo. apply Z.ltb_lt in Hhi.
    destruct (deliver_in_window d due s Hp Hidle Hd) as
      (s1 & t1 & E1 & P1 & I1 & N1 & F1 & R1); [lia|lia|].
    destruct (IH d _ s1 P1 I1 N1 eq_refl Hacc Hrest) as
      (s2 & t2 & E2 & P2 & I2 & N2 & F2 & R2).
    exists s2, (t1 ++ t2). cbn [deliver_all last_time].
    split; [unfold bind; rewrite E1, E2; reflexivity|].
    rewrite fires_app, runs_started_app, F1, F2, R1, R2.
    repeat split; assumption.
Qed.

(** A run of the pipeline, as the trace shows it. *)
Lemma fire_pending t s :
  timer_callback t = GuardedRebuild ->
  isRebuilding s = false ->
  exists s' tr,
    fire env t s = (Ret tt, s', EFire (timer_id t) (timer_due t) :: tr)
    /\ timers s' = remove_timer (timer_id t) (timers s)
    /\ rebuildTimer s' = rebuildTimer s
    /\ isRebuilding s' = false
    /\ now s' = Z.max (now s) (timer_due t)
    /\ fires tr = [] /\ runs_started tr = 1
    /\ exists tr', execs tr = CmdBuild :: tr'.
Proof.
  intros Hcb Hidle.
  unfold fire, bind, modify, emit, run_callback, get_state. rewrite Hcb.
  cbn. rewrite Hidle. cbn [negb].
  rewrite rebuild_idle by exact Hidle.
  eexists _, _. split; [reflexivity|].
  cbn [isRebuilding set_isRebuilding].
  destruct (pipeline_state_frame env
              (set_isRebuilding true
                 (set_now (Z.max (now s) (timer_due t))
                    (set_timers (remove_timer (timer_id t) (timers s)) s))))
    as (_ & Ht & Hr & _ & Hn).
  cbn [timers rebuildTimer now set_isRebuilding] in *.
  rewrite Ht, Hr, Hn. cbn.
  rewrite fires_app, runs_started_app.
  destruct (pipeline_trace_quiet env
              (set_isRebuilding true
                 (set_now (Z.max (now s) (timer_due t))
                    (set_timers (remove_timer (timer_id t) (timers s)) s))))
    as [-> ->].
  repeat split.
  unfold pipeline_trace.
  destruct (exec_result env _ CmdBuild); cbn; eexists; reflexivity.
Qed.

End Debounce.

Section Loop.

Variable env : Env.

(** Once the delay has passed, the loop runs the armed timer, and with it
    one run of the pipeline. *)
Lemma advance_fires due horizon s :
  pending due s ->
  isRebuilding s = false ->
  (due <= horizon)%Z ->
  exists id s' tr,
    advance env horizon s = (Ret tt, s', EFire id due :: tr)
    /\ timers s' = []
    /\ isRebuilding s' = false
    /\ fires tr = [] /\ runs_started tr = 1
    /\ exists tr', execs tr = CmdBuild :: tr'.
Proof.
  intros (id & Ht & Hr) Hidle Hdue.
  destruct (fire_pending env (mkTimer id due GuardedRebuild) s eq_refl Hidle)
    as (s1 & tr & E & T1 & _ & I1 & _ & F & R & X).
  cbn [timer_id timer_due] in E, T1.
  exists id, (set_now (Z.max (now s1) horizon) s1), tr.
  split.
  - unfold advance, bind, get_state. rewrite Ht.
    cbn [List.length run_timers]. unfold bind, get_state.
    rewrite Ht, next_due_single. cbn [timer_due].
    destruct (Z.leb_spec due horizon); [|lia].
    rewrite E. cbn. rewrite ?app_nil_r. reflexivity.
  - cbn [timers set_now isRebuilding]. rewrite T1, Ht.
    cbn. rewrite Nat.eqb_refl. repeat split; assumption.
Qed.

(** Before that, the loop has nothing to run. *)
Lemma advance_waits due horizon s :
  pending due s ->
  (horizon < due)%Z ->
  advance env horizon s = (Ret tt, set_now (Z.max (now s) horizon) s, []).
Proof.
  intros (id & Ht & _) Hlt. apply advance_idle.
  rewrite Ht, next_due_single. cbn [timer_due].
  destruct (Z.leb_spec due horizon); [lia|reflexivity].
Qed.

(** The rounds of [advance] suffice: when it is done, no timer is left
    that is due by the horizon. *)
Lemma next_due_In horizon l t :
  next_due horizon l = Some t -> In t l.
Proof.
  revert t. induction l as [|u l IH]; intros t H; [discriminate|].
  cbn [next_due] in H. destruct (next_due horizon l) as [v|].
  - destruct (_ && _); injection H as <-; [now left|right; now apply IH].
  - destruct (timer_due u <=? horizon)%Z; [|discriminate].
    injection H as <-. now left.
Qed.

Lemma remove_timer_shorter t l :
  In t l -> List.length (remove_timer (timer_id t) l) < List.length l.
Proof.
  unfold remove_timer. induction l as [|u l IH]; intros Hin; [contradiction|].
  cbn [filter List.length].
  destruct Hin as [->|Hin].
  - rewrite Nat.eqb_refl. cbn [negb].
    pose proof (filter_length_le
                  (fun x => negb (Nat.eqb (timer_id x) (timer_id t))) l).
    lia.
  - specialize (IH Hin).
    destruct (negb (Nat.eqb (timer_id u) (timer_id t))); cbn [List.length]; lia.
Qed.

Lemma rebuild_keeps_timers s :
  exists s' tr, rebuild env s = (Ret tt, s', tr) /\ timers s' = timers s.
Proof.
  destruct (isRebuilding s) eqn:E.
  - rewrite (rebuild_busy env s E). now eexists _, _.
  - rewrite (rebuild_idle env s E). eexists _, _. split; [reflexivity|].
    cbn [timers set_isRebuilding].
    now destruct (pipeline_state_frame env (set_isRebuilding true s))
      as (_ & -> & _).
Qed.

Lemma fire_removes t s :
  exists s' tr,
    fire env t s = (Ret tt, s', tr)
    /\ timers s' = remove_timer (timer_id t) (timers s).
Proof.
  unfold fire, run_callback. destruct (timer_callback t).
  unfold bind at 1 2 3, modify, emit, get_state.
  set (s1 := set_now _ _).
  destruct (isRebuilding s1) eqn:E; cbn [negb].
  - eexists _, _. split; reflexivity.
  - destruct (rebuild_keeps_timers s1) as (s' & tr & -> & Ht).
    eexists _, _. split; [reflexivity|]. rewrite Ht. reflexivity.
Qed.

Lemma run_timers_done horizon fuel : forall s,
  List.length (timers s) <= fuel ->
  exists s' tr,
    run_timers env fuel horizon s = (Ret tt, s', tr)
    /\ next_due horizon (timers s') = None.
Proof.
  induction fuel as [|fuel IH]; intros s Hlen.
  - exists s, []. split; [reflexivity|].
    destruct (timers s); [reflexivity|cbn in Hlen; lia].
  - cbn [run_timers]. unfold bind at 1, get_state.
    destruct (next_due horizon (timers s)) as [t|] eqn:En.
    + destruct (fire_removes t s) as (s1 & t1 & E1 & Ht1).
      pose proof (remove_timer_shorter t _ (next_due_In _ _ _ En)) as Hlt.
      destruct (IH s1) as (s2 & t2 & E2 & Hn); [rewrite Ht1; lia|].
      exists s2, (t1 ++ t2). split; [|exact Hn].
      unfold bind. rewrite E1, E2. reflexivity.
    + exists s, []. split; [reflexivity|exact En].
Qed.

Lemma advance_done horizon s :
  exists s' tr,
    advance env horizon s = (Ret tt, s', tr)
    /\ next_due horizon (timers s') = None.
Proof.
  destruct (run_timers_done horizon (List.length (timers s)) s (le_n _))
    as (s1 & t1 & E1 & Hn).
  unfold advance, bind, get_state, modify. rewrite E1.
  eexists _, _. split; [reflexivity|exact Hn].
Qed.

Lemma deliver_whole_burst c rest s :
  timers s = [] ->
  isRebuilding s = false ->
  (now s <= change_time c)%Z ->
  forallb accepted (c :: rest) = true ->
  within_window (change_time c) rest = true ->
  exists s' tr,
    deliver_all env (c :: rest) s = (Ret tt, s', tr)
    /\ pending (last_time c rest + 1000) s'
    /\ isRebuilding s' = false
    /\ now s' = last_time c rest
    /\ fires tr = [] /\ runs_started tr = 0.
Proof.
  intros Ht Hidle Hnow Hacc Hwin.
  cbn [forallb] in Hacc. apply andb_prop in Hacc. destruct Hacc as [Hc Hacc].
  destruct (deliver_first env c s Ht Hidle Hc Hnow)
    as (s1 & t1 & E1 & P1 & I1 & N1 & F1 & R1).
  destruct (deliver_burst env rest c _ s1 P1 I1 N1 eq_refl Hacc Hwin)
    as (s2 & t2 & E2 & P2 & I2 & N2 & F2 & R2).
  exists s2, (t1 ++ t2). cbn [deliver_all].
  split; [unfold bind; rewrite E1, E2; reflexivity|].
  rewrite fires_app, runs_started_app, F1, F2, R1, R2.
  repeat split; assumption.
Qed.

End Loop.

(** ** Startup *)

Section Startup.

Variable env : Env.

Lemma pings_app t1 t2 : pings (t1 ++ t2) = pings t1 ++ pings t2.
Proof.
  induction t1 as [|e t1 IH]; simpl; [reflexivity|].
  destruct e; simpl; now rewrite IH.
Qed.

Lemma polls_quiet remaining : forall attempts t,
  execs (polls remaining attempts t) = []
  /\ watches (polls remaining attempts t) = []
  /\ pings (polls remaining attempts t) = seq (S attempts) remaining.
Proof.
  induction remaining as [|r IH]; intros attempts t; cbn; [repeat split|].
  destruct (IH (S attempts) (t + 1000)%Z) as (-> & -> & ->). repeat split.
Qed.

Lemma elapsed_eq n : forall t, elapsed n t = (t + 1000 * Z.of_nat n)%Z.
Proof.
  induction n as [|n IH]; intros t; cbn [elapsed]; [lia|].
  rewrite IH. lia.
Qed.

Lemma set_now_now s : set_now (now s) s = s.
Proof. destruct s; reflexivity. Qed.

(** No answer with status 200 in the attempts that remain: the loop uses
    them all up and throws. *)
Lemma health_loop_exhausted remaining : forall attempts s,
  (forall k, attempts < k <= attempts + remaining ->
             responds_200 (ping env k) = false) ->
  health_loop env remaining attempts s =
  (Throw (JsError "Verdaccio failed to start"),
   set_now (elapsed remaining (now s)) s,
   polls remaining attempts (now s)).
Proof.
  induction remaining as [|r IH]; intros attempts s Hno.
  - cbn. rewrite set_now_now. reflexivity.
  - cbn [health_loop polls elapsed].
    unfold bind at 1, sleep, modify, emit, isReady, get_state, ret.
    cbn -[Z.add].
    rewrite (Hno (S attempts)) by lia.
    rewrite IH by (intros k Hk; apply Hno; lia).
    reflexivity.
Qed.

(** Some attempt within the budget is answered with status 200: the loop
    returns at the first such attempt. *)
Lemma health_loop_ready remaining : forall attempts s,
  (exists k, attempts < k <= attempts + remaining
             /\ responds_200 (ping env k) = true) ->
  exists n,
    n < remaining
    /\ health_loop env remaining attempts s =
       (Ret tt,
        set_now (elapsed (S n) (now s)) s,
        polls (S n) attempts (now s) ++ [ELog "Verdaccio is ready!"])
    /\ responds_200 (ping env (attempts + S n)) = true.
Proof.
  induction remaining as [|r IH]; intros attempts s (k & Hk & Hready); [lia|].
  destruct (responds_200 (ping env (S attempts))) eqn:E.
  - exists 0. split; [lia|]. split.
    + cbn [health_loop polls elapsed].
      unfold bind, sleep, modify, emit, isReady, get_state, ret, console_log.
      cbn -[Z.add]. rewrite E. reflexivity.
    + now rewrite Nat.add_1_r.
  - assert (Hk' : S attempts < k <= S attempts + r).
    { destruct (Nat.eq_dec k (S attempts)) as [->|]; [congruence|lia]. }
    destruct (IH (S attempts) (set_now (now s + 1000) s)
                 (ex_intro _ k (conj Hk' Hready)))
      as (n & Hn & Eq & Hr).
    exists (S n). split; [lia|]. split.
    + cbn [health_loop].
      unfold bind at 1, sleep, modify, emit, isReady, get_state, ret.
      cbn -[Z.add elapsed polls].
      rewrite E, Eq. reflexivity.
    + replace (attempts + S (S n)) with (S attempts + S n) by lia. exact Hr.
Qed.

End Startup.

Section Controller.

Variable env : Env.

Lemma try_catch_prefix {A} (body : M A) (handler : Thrown -> M A) s o s1 t1 :
  body s = (o, s1, t1) ->
  exists o' s2 t2, try_catch body handler s = (o', s2, t1 ++ t2).
Proof.
  intros E. unfold try_catch. rewrite E. destruct o as [a|e|c].
  - exists (Ret a), s1, []. now rewrite app_nil_r.
  - destruct (handler e s1) as [[o' s2] t2]. now exists o', s2, t2.
  - exists (Halt c), s1, []. now rewrite app_nil_r.
Qed.

Lemma buildLibraries_then {B} (k : unit -> M B) s :
  exists o s' tr,
    bind (buildLibraries env) k s
    = (o, s', ELog "Building libraries..." :: EExec CmdBuild :: tr).
Proof.
  unfold bind. rewrite buildLibraries_eq. unfold buildLibraries_result.
  destruct (exec_result env (execCount s) CmdBuild); cbn [fst snd].
  - destruct (k tt (bump s)) as [[o s'] tr]. eexists o, s', _. reflexivity.
  - eexists _, _, _. reflexivity.
Qed.

Lemma startVerdaccio_spawn_fatal s message :
  spawn_error env = Some message ->
  Js.includes message "EADDRINUSE" = false ->
  startVerdaccio env s =
  (Halt 1, set_verdaccioProcess true s,
   spawn_report message ++ [EUncaught (JsError message)]).
Proof.
  intros Hs Hi.
  unfold startVerdaccio, on_spawn_error, bind, console_log, console_error,
    emit, modify, uncaught.
  rewrite Hs, Hi. reflexivity.
Qed.

Lemma startVerdaccio_polls s :
  spawn_is_fatal env = false ->
  startVerdaccio env s =
  (let '(o, s', tr) :=
     health_loop env maxAttempts 0 (set_verdaccioProcess true s) in
   (o, s', spawn_trace env ++ tr)).
Proof.
  unfold spawn_is_fatal, spawn_trace. intros Hs.
  unfold startVerdaccio, on_spawn_error.
  unfold bind at 1 2 3 4 5, console_log, console_error, emit, modify.
  destruct (spawn_error env) as [message|].
  - apply negb_false_iff in Hs. rewrite Hs. cbn [negb].
    unfold bind, emit, ret.
    destruct (health_loop env maxAttempts 0 (set_verdaccioProcess true s))
      as [[[a|e|c] s'] tr]; reflexivity.
  - unfold ret.
    destruct (health_loop env maxAttempts 0 (set_verdaccioProcess true s))
      as [[[a|e|c] s'] tr]; reflexivity.
Qed.

End Controller.

(** ** The one-shot script *)

Section LegacyScript.

Variable env : Env.

(** For a budget of at least one attempt, the two health checks are the
    same loop. *)
Lemma legacy_checkHealth_health_loop r : forall attempts s,
  Legacy.checkHealth env (S r) attempts (attempts + S r) s
  = health_loop env (S r) attempts s.
Proof.
  induction r as [|r IH]; intros attempts s.
  - cbn [Legacy.checkHealth health_loop].
    unfold bind, sleep, modify, emit, isReady, get_state, ret.
    cbn -[Z.add Nat.leb].
    destruct (responds_200 (ping env (S attempts))); [reflexivity|].
    replace (Nat.leb (attempts + 1) (S attempts)) with true
      by (symmetry; apply Nat.leb_le; lia).
    reflexivity.
  - change (Legacy.checkHealth env (S (S r)) attempts (attempts + S (S r)) s)
      with ((sleep 1000 ;;
             ready <- isReady env (S attempts) ;;
             if ready then console_log "Verdaccio is ready!"
             else if Nat.leb (attempts + S (S r)) (S attempts)
                  then throw (JsError "Verdaccio failed to start")
                  else Legacy.checkHealth env (S r) (S attempts)
                         (attempts + S (S r))) s).
    change (health_loop env (S (S r)) attempts s)
      with ((sleep 1000 ;;
             ready <- isReady env (S attempts) ;;
             if ready then console_log "Verdaccio is ready!"
             else health_loop env (S r) (S attempts)) s).
    replace (Nat.leb (attempts + S (S r)) (S attempts)) with false
      by (symmetry; apply Nat.leb_gt; lia).
    replace (attempts + S (S r)) with (S attempts + S r) by lia.
    unfold bind, sleep, modify, emit, isReady, get_state, ret.
    cbn -[Z.add Legacy.checkHealth health_loop].
    destruct (responds_200 (ping env (S attempts))); [reflexivity|].
    rewrite IH. reflexivity.
Qed.

Lemma legacy_waitForVerdaccio_health_loop s :
  Legacy.waitForVerdaccio env 30 s = health_loop env maxAttempts 0 s.
Proof. exact (legacy_checkHealth_health_loop 29 0 s). Qed.

(** [publish] logs the failure of the command and throws it on, whatever
    its message. *)
Lemma legacy_publish_rethrows s e :
  exec_result env (execCount s) CmdPublish = ExecFail e ->
  Legacy.publish env s =
  (Throw (JsError ("Publish failed: " ++ err_message e)%string),
   bump s,
   [ELog "Publishing packages to local registry..."; EExec CmdPublish;
    EError ("Publish failed: " ++ err_message e)%string None]).
Proof.
  intros H.
  unfold Legacy.publish, try_catch, bind, execSync, console_log,
    console_error, emit, throw.
  rewrite H. reflexivity.
Qed.

(** A spawn error other than EADDRINUSE ends the script: the child is
    killed and the process exits with code 1. *)
Lemma legacy_spawn_error_is_fatal s message :
  spawn_error env = Some message ->
  Js.includes message "EADDRINUSE" = false ->
  Legacy.watch env s =
  (Halt 1, set_verdaccioProcess true s,
   [ELog "Starting watch mode for library development";
    ELog "Starting Verdaccio local registry..."; ESpawn;
    EError "Verdaccio process error:" (Some (JsError message));
    EError "Fatal error:" (Some (JsError message)); EKill; EExit 1]).
Proof.
  intros Hm Hi.
  unfold Legacy.watch, Legacy.startVerdaccio, killChildProcesses, when.
  unfold try_catch at 1. unfold bind at 1 2 3 4 5 6.
  unfold console_log at 1 2, emit at 1 2 3, modify at 1.
  rewrite Hm, Hi. cbn [negb].
  unfold bind, console_error, emit, throw, get_state, exit. reflexivity.
Qed.

(** With EADDRINUSE the script goes on to the health check. *)
Lemma legacy_port_taken_proceeds s message :
  spawn_error env = Some message ->
  Js.includes message "EADDRINUSE" = true ->
  (exists k, 1 <= k <= maxAttempts /\ responds_200 (ping env k) = true) ->
  exists n s',
    n < maxAttempts
    /\ Legacy.startVerdaccio env s =
       (Ret tt, s',
        spawn_report message ++ polls (S n) 0 (now s)
        ++ [ELog "Verdaccio is ready!"]).
Proof.
  intros Hm Hi (k & Hk & Hready).
  destruct (health_loop_ready env maxAttempts 0 (set_verdaccioProcess true s))
    as (n & Hn & EL & _); [exists k; split; [lia|exact Hready]|].
  exists n. eexists. split; [exact Hn|].
  unfold Legacy.startVerdaccio.
  unfold bind at 1 2 3. unfold console_log at 1, emit at 1 2, modify at 1.
  rewrite Hm, Hi. cbn [negb].
  unfold bind, console_error, emit, try_catch.
  rewrite legacy_waitForVerdaccio_health_loop, EL. reflexivity.
Qed.

End LegacyScript.


(** ** The pipeline runner *)

Lemma already_published_errorMsg (e : ExecError) :
  already_published (errorMsg_of (ExecFailure e))
  = already_published (err_message e).
Proof.
  unfold errorMsg_of, toString. cbn [message_of].
  destruct (err_message e); reflexivity.
Qed.

(** C3. Whatever the three steps of a pipeline run do, the run returns and
    its last action is the reset of [isRebuilding] to [false]; the next
    call of [rebuild] is therefore not turned away by the guard and starts
    a new run. *)
Theorem rebuild_always_resets_state (env : Env) (s : State) :
  isRebuilding s = false ->
  exists s' tr,
    rebuild env s = (Ret tt, s', tr ++ [ERebuilding false])
    /\ isRebuilding s' = false
    /\ exists s'' tr',
         rebuild env s' = (Ret tt, s'', ERebuilding true :: tr').
Proof.
  intros Hidle.
  rewrite (rebuild_idle env s Hidle).
  eexists _, _. split.
  - rewrite app_assoc. reflexivity.
  - split; [reflexivity|].
    rewrite rebuild_idle by reflexivity.
    eexists _, _. reflexivity.
Qed.

Lemma rebuild_always_resets_state_witness :
  isRebuilding initial_state = false
  /\ exists s' tr,
       rebuild env_build_fails initial_state
       = (Ret tt, s', tr ++ [ERebuilding false])
       /\ isRebuilding s' = false
       /\ exists s'' tr',
            rebuild env_build_fails s' = (Ret tt, s'', ERebuilding true :: tr').
Proof.
  split; [reflexivity|].
  apply (rebuild_always_resets_state env_build_fails initial_state).
  reflexivity.
Defined.

(** C4. When the build command fails, the run ends there: the trace of the
    run holds the build command and no other, the failure is logged by
    [buildLibraries] and again by [rebuild] as a failed rebuild,
    [isRebuilding] is reset, and [rebuild] returns (the process goes on). *)
Theorem build_failure_aborts_run (env : Env) (s : State) (e : ExecError) :
  isRebuilding s = false ->
  exec_result env (execCount s) CmdBuild = ExecFail e ->
  exists s',
    rebuild env s =
    (Ret tt, s',
     [ERebuilding true;
      ELog "Rebuilding and republishing...";
      ELog "Building libraries...";
      EExec CmdBuild;
      EError ("Build failed: " ++ err_message e)%string None;
      EError "Rebuild failed:"
             (Some (JsError ("Build failed: " ++ err_message e)%string));
      ERebuilding false])
    /\ isRebuilding s' = false
    /\ execCount s' = S (execCount s).
Proof.
  intros Hidle Hbuild.
  rewrite (rebuild_idle env s Hidle).
  unfold pipeline_trace, pipeline_state. cbn [execCount set_isRebuilding].
  rewrite Hbuild. eexists. repeat split.
Qed.

Lemma build_failure_aborts_run_witness :
  isRebuilding initial_state = false
  /\ exec_result env_build_fails (execCount initial_state) CmdBuild
     = ExecFail (command_failed "Command failed: nx build")
  /\ exists s',
       rebuild env_build_fails initial_state =
       (Ret tt, s',
        [ERebuilding true;
         ELog "Rebuilding and republishing...";
         ELog "Building libraries...";
         EExec CmdBuild;
         EError "Build failed: Command failed: nx build" None;
         EError "Rebuild failed:"
                (Some (JsError "Build failed: Command failed: nx build"));
         ERebuilding false])
       /\ isRebuilding s' = false
       /\ execCount s' = S (execCount initial_state).
Proof.
  split; [reflexivity|]. split; [reflexivity|].
  apply (build_failure_aborts_run env_build_fails initial_state
           (command_failed "Command failed: nx build")); reflexivity.
Defined.

(** C8. A failing unpublish command never makes [cleanRegistry] throw: it
    logs that there was nothing to clean up and returns. In a run whose
    build succeeded, the publish command is therefore run next, whatever
    the unpublish command did, and the run returns. *)
Theorem unpublish_failure_is_swallowed
    (env : Env) (s : State) (out : string) (e : ExecError) :
  isRebuilding s = false ->
  exec_result env (execCount s) CmdBuild = ExecOk out ->
  exec_result env (S (execCount s)) CmdUnpublish = ExecFail e ->
  (exists tr,
     cleanRegistry env (bump (set_isRebuilding true s))
     = (Ret tt, bump (bump (set_isRebuilding true s)),
        tr ++ [ELog "No previous packages to clean up (this is normal on first run)"]))
  /\ exists s' tr,
       rebuild env s = (Ret tt, s', tr)
       /\ execs tr = [CmdBuild; CmdUnpublish; CmdPublish]
       /\ isRebuilding s' = false.
Proof.
  intros Hidle Hbuild Hunpub. split.
  - rewrite cleanRegistry_eq. unfold cleanRegistry_trace.
    cbn [execCount bump set_execCount set_isRebuilding]. rewrite Hunpub.
    eexists. rewrite !app_assoc. reflexivity.
  - rewrite (rebuild_idle env s Hidle).
    eexists _, _. split; [reflexivity|]. split; [|reflexivity].
    unfold pipeline_trace. cbn [execCount set_isRebuilding]. rewrite Hbuild.
    cbn [app execs is_exec].
    rewrite !execs_app, cleanRegistry_trace_execs, publishPackages_trace_execs.
    reflexivity.
Qed.

Lemma unpublish_failure_is_swallowed_witness :
  isRebuilding initial_state = false
  /\ exec_result env_unpublish_fails (execCount initial_state) CmdBuild
     = ExecOk ""
  /\ exec_result env_unpublish_fails (S (execCount initial_state)) CmdUnpublish
     = ExecFail (mkExecError "Command failed: nx unpublish-local"
                             "" "404 Not Found" CodeUndefined)
  /\ (exists tr,
        cleanRegistry env_unpublish_fails
                      (bump (set_isRebuilding true initial_state))
        = (Ret tt, bump (bump (set_isRebuilding true initial_state)),
           tr ++ [ELog "No previous packages to clean up (this is normal on first run)"]))
  /\ exists s' tr,
       rebuild env_unpublish_fails initial_state = (Ret tt, s', tr)
       /\ execs tr = [CmdBuild; CmdUnpublish; CmdPublish]
       /\ isRebuilding s' = false.
Proof.
  split; [reflexivity|]. split; [reflexivity|]. split; [reflexivity|].
  apply (unpublish_failure_is_swallowed env_unpublish_fails initial_state ""
           (mkExecError "Command failed: nx unpublish-local"
                        "" "404 Not Found" CodeUndefined)); reflexivity.
Defined.

(** With the output of the publish command inherited, what [execSync]
    throws names the command and holds nothing of what npm wrote: the
    message carries neither signature, and [publishPackages] logs the
    warning, also when the versions are in the registry already. *)
Lemma inherited_failure_is_warned (e : ExecError) :
  inherited_failure (command_line CmdPublish) e ->
  already_published (errorMsg_of (ExecFailure e)) = false.
Proof. intros [->| ->]; reflexivity. Qed.

(** The claim C6 as the specification words it, read on the one-shot
    script of [unnamed/part_001]: a second publish of the same versions
    makes [publish] throw, and the script logs the fatal error, kills the
    registry child and exits with code 1. *)
Lemma publish_failure_ends_one_shot_script :
  Legacy.publish env_legacy_republish initial_state =
  (Throw (JsError
     "Publish failed: Command failed: npx nx run-many --target=publish-local --all --parallel"),
   bump initial_state,
   [ELog "Publishing packages to local registry..."; EExec CmdPublish;
    EError
      "Publish failed: Command failed: npx nx run-many --target=publish-local --all --parallel"
      None])
  /\ fst (fst (Legacy.watch env_legacy_republish initial_state)) = Halt 1
  /\ skipn 12 (snd (Legacy.watch env_legacy_republish initial_state)) =
     [ELog "Publishing packages to local registry..."; EExec CmdPublish;
      EError
        "Publish failed: Command failed: npx nx run-many --target=publish-local --all --parallel"
        None;
      EError "Fatal error:"
        (Some (JsError
           "Publish failed: Command failed: npx nx run-many --target=publish-local --all --parallel"));
      EKill; EExit 1].
Proof. vm_compute. repeat split. Qed.

(** C6, amended. In a pipeline run of the watch daemon ([rebuild] of
    [tools/watch.ts]) every failure of the publish command is caught by
    [publishPackages]: it logs that the packages exist already when the
    message of the error includes one of the two signatures, and the
    warning otherwise; in both cases the run goes on to log its
    completion, resets [isRebuilding], and [rebuild] returns: nothing is
    thrown and the process does not exit. The one-shot script is
    different: its [publish] logs every failure of the command and throws
    it on. *)
Theorem publish_failure_never_escapes
    (env : Env) (s : State) (out : string) (e : ExecError) :
  isRebuilding s = false ->
  exec_result env (execCount s) CmdBuild = ExecOk out ->
  exec_result env (S (S (execCount s))) CmdPublish = ExecFail e ->
  (exists s' tr,
     rebuild env s =
     (Ret tt, s',
      tr ++ [if Js.includes (err_message e) SIGNATURE_PREVIOUSLY_PUBLISHED
                || Js.includes (err_message e) SIGNATURE_CANNOT_PUBLISH_OVER
             then ELog "Packages already exist at this version, skipping publish"
             else EError "Publish completed with warnings" None;
             ELog "Rebuild complete!";
             ERebuilding false])
     /\ execs tr = [CmdBuild; CmdUnpublish; CmdPublish]
     /\ isRebuilding s' = false)
  /\ (forall s0 e0,
        exec_result env (execCount s0) CmdPublish = ExecFail e0 ->
        Legacy.publish env s0 =
        (Throw (JsError ("Publish failed: " ++ err_message e0)%string),
         bump s0,
         [ELog "Publishing packages to local registry..."; EExec CmdPublish;
          EError ("Publish failed: " ++ err_message e0)%string None])).
Proof.
  intros Hidle Hbuild Hpub.
  split; [|intros s0 e0 H0; exact (legacy_publish_rethrows env s0 e0 H0)].
  rewrite (rebuild_idle env s Hidle).
  unfold pipeline_trace. cbn [execCount set_isRebuilding]. rewrite Hbuild.
  unfold publishPackages_trace.
  cbn [execCount bump set_execCount set_isRebuilding]. rewrite Hpub.
  rewrite already_published_errorMsg. unfold already_published.
  exists (set_isRebuilding false
            (pipeline_state env (set_isRebuilding true s))).
  exists ([ERebuilding true; ELog "Rebuilding and republishing...";
           ELog "Building libraries..."; EExec CmdBuild; ELog "Build completed"]
          ++ cleanRegistry_trace env (bump (set_isRebuilding true s))
          ++ [ELog "Publishing packages to local registry...";
              EExec CmdPublish]).
  split; [|split; [|reflexivity]].
  - cbn [app]. rewrite <- !app_assoc. cbn [app].
    destruct (_ || _); reflexivity.
  - cbn [app execs is_exec].
    rewrite !execs_app. cbn [execs is_exec].
    rewrite cleanRegistry_trace_execs. reflexivity.
Qed.

Lemma publish_failure_never_escapes_witness :
  isRebuilding initial_state = false
  /\ exec_result env_republish (execCount initial_state) CmdBuild = ExecOk ""
  /\ exec_result env_republish (S (S (execCount initial_state))) CmdPublish
     = ExecFail (exit_failure (command_line CmdPublish))
  /\ (exists s' tr,
        rebuild env_republish initial_state =
        (Ret tt, s',
         tr ++ [EError "Publish completed with warnings" None;
                ELog "Rebuild complete!";
                ERebuilding false])
        /\ execs tr = [CmdBuild; CmdUnpublish; CmdPublish]
        /\ isRebuilding s' = false)
  /\ (forall s0 e0,
        exec_result env_republish (execCount s0) CmdPublish = ExecFail e0 ->
        Legacy.publish env_republish s0 =
        (Throw (JsError ("Publish failed: " ++ err_message e0)%string),
         bump s0,
         [ELog "Publishing packages to local registry..."; EExec CmdPublish;
          EError ("Publish failed: " ++ err_message e0)%string None])).
Proof.
  split; [reflexivity|]. split; [reflexivity|]. split; [reflexivity|].
  apply (publish_failure_never_escapes env_republish initial_state ""
           (exit_failure (command_line CmdPublish)));
    reflexivity.
Defined.

(** ** The debouncer and the guard *)

(** C1. A call of [rebuild] while a run is in progress logs and returns:
    the state is unchanged and no command is run. In the watch loop, for
    every sequence of file changes and from every state, the trace never
    shows a run starting while another is in progress, and shows the
    commands of the pipeline inside a run only. *)
Theorem rebuild_is_single_flight (env : Env) (s : State) :
  isRebuilding s = true ->
  rebuild env s = (Ret tt, s, [ELog "Rebuild already in progress..."])
  /\ forall (s0 : State) (changes : list Change) (horizon : Z),
       exists s' tr,
         event_loop env changes horizon s0 = (Ret tt, s', tr)
         /\ exclusive (isRebuilding s0) tr = Some (isRebuilding s').
Proof.
  intros Hbusy. split; [exact (rebuild_busy env s Hbusy)|].
  intros s0 changes horizon.
  destruct (orderly_event_loop env changes horizon s0) as ([] & s' & tr & E & X).
  exists s', tr. split; assumption.
Qed.

Lemma rebuild_is_single_flight_witness :
  isRebuilding state_rebuilding = true
  /\ rebuild env_healthy state_rebuilding
     = (Ret tt, state_rebuilding, [ELog "Rebuild already in progress..."])
  /\ forall (s0 : State) (changes : list Change) (horizon : Z),
       exists s' tr,
         event_loop env_healthy changes horizon s0 = (Ret tt, s', tr)
         /\ exclusive (isRebuilding s0) tr = Some (isRebuilding s').
Proof.
  split; [reflexivity|].
  apply (rebuild_is_single_flight env_healthy state_rebuilding).
  reflexivity.
Defined.

(** C2. A burst of one or more accepted file changes, each less than the
    delay of 1000 ms after the one before: every call of [debounce] that
    finds the timer armed clears it and arms a new one; when the burst is
    over one timer is armed, due 1000 ms after the last change, and
    nothing has run; the loop then runs exactly one timer and starts
    exactly one pipeline run, at that time and not before. *)
Theorem burst_collapses_to_one_run
    (env : Env) (s : State) (c : Change) (rest : list Change) :
  timers s = [] ->
  isRebuilding s = false ->
  (now s <= change_time c)%Z ->
  forallb accepted (c :: rest) = true ->
  within_window (change_time c) rest = true ->
  (forall s0 id due,
      timers s0 = [mkTimer id due GuardedRebuild] ->
      rebuildTimer s0 = Some id ->
      exists s1,
        debounce GuardedRebuild 1000 s0
        = (Ret tt, s1,
           [EClearTimeout id; ESetTimeout (nextTimerId s0) (now s0 + 1000)])
        /\ pending (now s0 + 1000) s1)
  /\ (exists s1 tr1,
        deliver_all env (c :: rest) s = (Ret tt, s1, tr1)
        /\ pending (last_time c rest + 1000) s1
        /\ fires tr1 = [] /\ runs_started tr1 = 0)
  /\ (forall horizon, (horizon < last_time c rest + 1000)%Z ->
        exists s2 tr2,
          event_loop env (c :: rest) horizon s = (Ret tt, s2, tr2)
          /\ fires tr2 = [] /\ runs_started tr2 = 0)
  /\ (forall horizon, (last_time c rest + 1000 <= horizon)%Z ->
        exists s2 tr2 id,
          event_loop env (c :: rest) horizon s = (Ret tt, s2, tr2)
          /\ fires tr2 = [(id, (last_time c rest + 1000)%Z)]
          /\ runs_started tr2 = 1
          /\ timers s2 = []).
Proof.
  intros Ht Hidle Hnow Hacc Hwin.
  destruct (deliver_whole_burst env c rest s Ht Hidle Hnow Hacc Hwin)
    as (s1 & tr1 & E1 & P1 & I1 & N1 & F1 & R1).
  split; [|split; [|split]].
  - intros s0 id due Ht0 Hr0.
    rewrite (debounce_replaces id due GuardedRebuild) by assumption.
    eexists. split; [reflexivity|].
    exists (nextTimerId s0). split; reflexivity.
  - exists s1, tr1. repeat split; assumption.
  - intros horizon Hh. unfold event_loop, bind. rewrite E1.
    rewrite (advance_waits env _ horizon s1 P1 Hh).
    eexists _, _. split; [reflexivity|].
    rewrite app_nil_r. split; assumption.
  - intros horizon Hh. unfold event_loop, bind. rewrite E1.
    destruct (advance_fires env _ horizon s1 P1 I1 Hh)
      as (id & s2 & tr2 & E2 & T2 & I2 & F2 & R2 & _).
    rewrite E2. exists s2, (tr1 ++ EFire id (last_time c rest + 1000) :: tr2), id.
    split; [reflexivity|].
    rewrite fires_app, runs_started_app, F1, R1. cbn [fires runs_started app].
    rewrite F2, R2. repeat split; assumption.
Qed.

Lemma burst_collapses_to_one_run_witness :
  timers initial_state = []
  /\ isRebuilding initial_state = false
  /\ (now initial_state <= 100)%Z
  /\ forallb accepted sample_burst = true
  /\ within_window 100 (tl sample_burst) = true
  /\ (forall s0 id due,
         timers s0 = [mkTimer id due GuardedRebuild] ->
         rebuildTimer s0 = Some id ->
         exists s1,
           debounce GuardedRebuild 1000 s0
           = (Ret tt, s1,
              [EClearTimeout id; ESetTimeout (nextTimerId s0) (now s0 + 1000)])
           /\ pending (now s0 + 1000) s1)
  /\ (exists s1 tr1,
         deliver_all env_healthy sample_burst initial_state = (Ret tt, s1, tr1)
         /\ pending 2250 s1
         /\ fires tr1 = [] /\ runs_started tr1 = 0)
  /\ (forall horizon, (horizon < 2250)%Z ->
         exists s2 tr2,
           event_loop env_healthy sample_burst horizon initial_state
           = (Ret tt, s2, tr2)
           /\ fires tr2 = [] /\ runs_started tr2 = 0)
  /\ (forall horizon, (2250 <= horizon)%Z ->
         exists s2 tr2 id,
           event_loop env_healthy sample_burst horizon initial_state
           = (Ret tt, s2, tr2)
           /\ fires tr2 = [(id, 2250%Z)]
           /\ runs_started tr2 = 1
           /\ timers s2 = []).
Proof.
  split; [reflexivity|]. split; [reflexivity|]. split; [cbn; lia|].
  split; [reflexivity|]. split; [reflexivity|].
  apply (burst_collapses_to_one_run env_healthy initial_state
           (mkChange 100 "/work/libs/foo/src" (Some "index.ts"))
           (tl sample_burst));
    solve [reflexivity | cbn; lia].
Defined.

(** C10. The timer fires while a run is in progress: the function it runs
    sees [isRebuilding] set and does nothing, and the timer is gone. Once
    the run is over, the loop starts no run however long it waits without
    a file change; an accepted file change arms a new timer, and that
    timer starts a run. *)
Theorem trigger_during_rebuild_is_dropped (env : Env) (s : State) (t : Timer) :
  isRebuilding s = true ->
  timers s = [t] ->
  timer_callback t = GuardedRebuild ->
  let s1 := set_now (Z.max (now s) (timer_due t)) (set_timers [] s) in
  fire env t s = (Ret tt, s1, [EFire (timer_id t) (timer_due t)])
  /\ (forall s2 horizon,
        timers s2 = timers s1 ->
        isRebuilding s2 = false ->
        event_loop env [] horizon s2
        = (Ret tt, set_now (Z.max (now s2) horizon) s2, []))
  /\ (forall s2 c horizon,
        timers s2 = timers s1 ->
        isRebuilding s2 = false ->
        accepted c = true ->
        (now s2 <= change_time c)%Z ->
        (change_time c + 1000 <= horizon)%Z ->
        exists s3 tr id,
          event_loop env [c] horizon s2 = (Ret tt, s3, tr)
          /\ fires tr = [(id, (change_time c + 1000)%Z)]
          /\ runs_started tr = 1).
Proof.
  intros Hbusy Ht Hcb s1. split; [|split].
  - unfold fire, bind, modify, emit, run_callback, get_state. rewrite Hcb.
    cbn. rewrite Hbusy, Ht. cbn. rewrite Nat.eqb_refl. reflexivity.
  - intros s2 horizon Ht2 _.
    unfold event_loop, bind. cbn [deliver_all ret].
    rewrite advance_idle by (rewrite Ht2; reflexivity). reflexivity.
  - intros s2 c horizon Ht2 Hidle Hacc Hnow Hh.
    assert (Hacc' : forallb accepted [c] = true)
      by (cbn; rewrite Hacc; reflexivity).
    destruct (deliver_whole_burst env c [] s2 Ht2 Hidle Hnow Hacc' eq_refl)
      as (s3 & tr3 & E3 & P3 & I3 & _ & F3 & R3).
    cbn [last_time] in P3.
    destruct (advance_fires env _ horizon s3 P3 I3 Hh)
      as (id & s4 & tr4 & E4 & _ & _ & F4 & R4 & _).
    exists s4, (tr3 ++ EFire id (change_time c + 1000) :: tr4), id.
    unfold event_loop, bind. rewrite E3, E4. split; [reflexivity|].
    rewrite fires_app, runs_started_app, F3, R3. cbn [fires runs_started app].
    rewrite F4, R4. split; reflexivity.
Qed.

Lemma trigger_during_rebuild_is_dropped_witness :
  isRebuilding state_rebuilding_with_timer = true
  /\ timers state_rebuilding_with_timer = [mkTimer 0 1100 GuardedRebuild]
  /\ fire env_healthy (mkTimer 0 1100 GuardedRebuild) state_rebuilding_with_timer
     = (Ret tt, mkState true (Some 0) true [] 1 1100 3, [EFire 0 1100])
  /\ (forall s2 horizon,
        timers s2 = [] ->
        isRebuilding s2 = false ->
        event_loop env_healthy [] horizon s2
        = (Ret tt, set_now (Z.max (now s2) horizon) s2, []))
  /\ (forall s2 c horizon,
        timers s2 = [] ->
        isRebuilding s2 = false ->
        accepted c = true ->
        (now s2 <= change_time c)%Z ->
        (change_time c + 1000 <= horizon)%Z ->
        exists s3 tr id,
          event_loop env_healthy [c] horizon s2 = (Ret tt, s3, tr)
          /\ fires tr = [(id, (change_time c + 1000)%Z)]
          /\ runs_started tr = 1).
Proof.
  split; [reflexivity|]. split; [reflexivity|].
  apply (trigger_during_rebuild_is_dropped env_healthy
           state_rebuilding_with_timer (mkTimer 0 1100 GuardedRebuild));
    reflexivity.
Defined.

(** ** The registry supervisor *)

Lemma startWatchMode_fails_to_start (env : Env) (s : State) :
  spawn_is_fatal env = false ->
  (forall k, 1 <= k <= maxAttempts -> responds_200 (ping env k) = false) ->
  startVerdaccio env s =
  (Throw (JsError "Verdaccio failed to start"),
   set_now (elapsed maxAttempts (now s)) (set_verdaccioProcess true s),
   spawn_trace env ++ polls maxAttempts 0 (now s))
  /\ startWatchMode env s =
     (Halt 1,
      set_now (elapsed maxAttempts (now s)) (set_verdaccioProcess true s),
      (ELog "Starting watch mode for library development"
       :: spawn_trace env ++ polls maxAttempts 0 (now s))
      ++ [EError "Fatal:" (Some (JsError "Verdaccio failed to start"));
          EKill; EExit 1]).
Proof.
  intros Hs Hno.
  assert (E : startVerdaccio env s =
              (Throw (JsError "Verdaccio failed to start"),
               set_now (elapsed maxAttempts (now s)) (set_verdaccioProcess true s),
               spawn_trace env ++ polls maxAttempts 0 (now s))).
  { rewrite (startVerdaccio_polls env s Hs).
    rewrite health_loop_exhausted by (intros k Hk; apply Hno; lia).
    reflexivity. }
  split; [exact E|].
  unfold startWatchMode, try_catch.
  unfold bind at 1 2. unfold console_log at 1, emit at 1.
  rewrite E.
  unfold killChildProcesses, when.
  unfold bind, console_error, emit, get_state, exit.
  cbn [verdaccioProcess set_now set_verdaccioProcess app].
  rewrite <- app_assoc. reflexivity.
Qed.

(** C7. With no fatal spawn error: if none of the 30 pings, one second
    apart, is answered with status 200, [startVerdaccio] throws that the
    registry failed to start, and [startWatchMode] reports the fatal
    error, kills the child and exits with code 1, having run no command
    and set up no watcher. If one of the 30 pings is answered with status
    200, [startVerdaccio] returns and [startWatchMode] goes on to the
    build. *)
Theorem health_check_bound (env : Env) (s : State) :
  spawn_is_fatal env = false ->
  ((forall k, 1 <= k <= maxAttempts -> responds_200 (ping env k) = false) ->
   exists s' tr,
     startVerdaccio env s = (Throw (JsError "Verdaccio failed to start"), s', tr)
     /\ pings tr = seq 1 30
     /\ now s' = (now s + 30000)%Z
     /\ startWatchMode env s =
        (Halt 1, s',
         (ELog "Starting watch mode for library development" :: tr)
         ++ [EError "Fatal:" (Some (JsError "Verdaccio failed to start"));
             EKill; EExit 1])
     /\ execs tr = [] /\ watches tr = [])
  /\ ((exists k, 1 <= k <= maxAttempts /\ responds_200 (ping env k) = true) ->
      exists s' tr,
        startVerdaccio env s = (Ret tt, s', tr ++ [ELog "Verdaccio is ready!"])
        /\ exists o s'' tr',
             startWatchMode env s =
             (o, s'',
              (ELog "Starting watch mode for library development" :: tr)
              ++ [ELog "Verdaccio is ready!";
                  ELog "Building libraries..."; EExec CmdBuild]
              ++ tr')).
Proof.
  intros Hs. split.
  - intros Hno.
    destruct (startWatchMode_fails_to_start env s Hs Hno) as [EV EW].
    eexists _, _. split; [exact EV|].
    split; [|split; [|split; [exact EW|]]].
    + rewrite pings_app.
      destruct (polls_quiet maxAttempts 0 (now s)) as (_ & _ & ->).
      unfold spawn_trace. destruct (spawn_error env); reflexivity.
    + cbn [now set_now]. rewrite elapsed_eq. unfold maxAttempts. lia.
    + rewrite execs_app, watches_app.
      destruct (polls_quiet maxAttempts 0 (now s)) as (-> & -> & _).
      unfold spawn_trace. destruct (spawn_error env); split; reflexivity.
  - intros (k & Hk & Hready).
    destruct (health_loop_ready env maxAttempts 0 (set_verdaccioProcess true s))
      as (n & Hn & EL & _); [exists k; split; [lia|exact Hready]|].
    assert (EV : startVerdaccio env s =
                 (Ret tt,
                  set_now (elapsed (S n) (now s)) (set_verdaccioProcess true s),
                  (spawn_trace env ++ polls (S n) 0 (now s))
                  ++ [ELog "Verdaccio is ready!"])).
    { rewrite (startVerdaccio_polls env s Hs), EL.
      cbn [now set_verdaccioProcess]. now rewrite app_assoc. }
    eexists _, _. split; [exact EV|].
    unfold startWatchMode.
    match goal with
    | |- context [try_catch ?b ?h] => set (body := b); set (handler := h)
    end.
    assert (EB : exists o s1 t1,
               body s =
               (o, s1,
                (ELog "Starting watch mode for library development"
                 :: spawn_trace env ++ polls (S n) 0 (now s))
                ++ [ELog "Verdaccio is ready!";
                    ELog "Building libraries..."; EExec CmdBuild] ++ t1)).
    { subst body. unfold bind at 1 2. unfold console_log at 1, emit at 1.
      rewrite EV.
      match goal with
      | |- context [bind (buildLibraries env) ?k ?st] =>
          destruct (buildLibraries_then env k st) as (o & s1 & t1 & ->)
      end.
      exists o, s1, t1. cbn [app]. rewrite <- !app_assoc. reflexivity. }
    destruct EB as (o & s1 & t1 & EB).
    destruct (try_catch_prefix body handler s o s1 _ EB) as (o' & s2 & t2 & ->).
    exists o', s2, (t1 ++ t2). rewrite <- !app_assoc. reflexivity.
Qed.

Lemma health_check_bound_witness :
  spawn_is_fatal env_unreachable = false
  /\ (forall k, 1 <= k <= maxAttempts ->
                responds_200 (ping env_unreachable k) = false)
  /\ exists s' tr,
       startVerdaccio env_unreachable initial_state
       = (Throw (JsError "Verdaccio failed to start"), s', tr)
       /\ pings tr = seq 1 30
       /\ now s' = 30000%Z
       /\ startWatchMode env_unreachable initial_state =
          (Halt 1, s',
           (ELog "Starting watch mode for library development" :: tr)
           ++ [EError "Fatal:" (Some (JsError "Verdaccio failed to start"));
               EKill; EExit 1])
       /\ execs tr = [] /\ watches tr = [].
Proof.
  split; [reflexivity|]. split; [intros k _; reflexivity|].
  apply (proj1 (health_check_bound env_unreachable initial_state eq_refl)).
  intros k _. reflexivity.
Defined.

(** C9. The registry child reports a spawn error. If the message carries
    EADDRINUSE, the listener logs it and startup polls the registry: it
    returns as soon as a ping within the 30 is answered with status 200.
    For any other message the listener throws, nobody catches it, and the
    process ends with code 1 before any ping, command or watcher. *)
Theorem spawn_error_handling (env : Env) (s : State) (message : string) :
  spawn_error env = Some message ->
  (Js.includes message "EADDRINUSE" = true ->
   (exists k, 1 <= k <= maxAttempts /\ responds_200 (ping env k) = true) ->
   exists n s',
     n < maxAttempts
     /\ startVerdaccio env s =
        (Ret tt, s',
         spawn_report message ++ polls (S n) 0 (now s)
         ++ [ELog "Verdaccio is ready!"])
     /\ responds_200 (ping env (S n)) = true)
  /\ (Js.includes message "EADDRINUSE" = false ->
      startVerdaccio env s =
      (Halt 1, set_verdaccioProcess true s,
       spawn_report message ++ [EUncaught (JsError message)])
      /\ startWatchMode env s =
         (Halt 1, set_verdaccioProcess true s,
          ELog "Starting watch mode for library development"
          :: spawn_report message ++ [EUncaught (JsError message)])).
Proof.
  intros Hm. split.
  - intros Hi (k & Hk & Hready).
    assert (Hs : spawn_is_fatal env = false)
      by (unfold spawn_is_fatal; rewrite Hm, Hi; reflexivity).
    destruct (health_loop_ready env maxAttempts 0 (set_verdaccioProcess true s))
      as (n & Hn & EL & Hr); [exists k; split; [lia|exact Hready]|].
    exists n. eexists. split; [exact Hn|]. split; [|exact Hr].
    rewrite (startVerdaccio_polls env s Hs), EL.
    unfold spawn_trace, spawn_report. rewrite Hm. reflexivity.
  - intros Hi.
    pose proof (startVerdaccio_spawn_fatal env s message Hm Hi) as EV.
    split; [exact EV|].
    unfold startWatchMode, try_catch.
    unfold bind at 1 2. unfold console_log at 1, emit at 1.
    rewrite EV. reflexivity.
Qed.

Lemma spawn_error_handling_witness :
  spawn_error env_port_taken
  = Some "listen EADDRINUSE: address already in use :::4873"
  /\ Js.includes "listen EADDRINUSE: address already in use :::4873"
                 "EADDRINUSE" = true
  /\ (exists k, 1 <= k <= maxAttempts
                /\ responds_200 (ping env_port_taken k) = true)
  /\ exists n s',
       n < maxAttempts
       /\ startVerdaccio env_port_taken initial_state =
          (Ret tt, s',
           spawn_report "listen EADDRINUSE: address already in use :::4873"
           ++ polls (S n) 0 0 ++ [ELog "Verdaccio is ready!"])
       /\ responds_200 (ping env_port_taken (S n)) = true.
Proof.
  split; [reflexivity|]. split; [reflexivity|].
  assert (H : exists k, 1 <= k <= maxAttempts
                        /\ responds_200 (ping env_port_taken k) = true).
  { exists 1. unfold maxAttempts. split; [lia|reflexivity]. }
  split; [exact H|].
  exact (proj1 (spawn_error_handling env_port_taken initial_state _ eq_refl)
               eq_refl H).
Defined.

(** ** The pattern matcher *)

(** C5. Every path that a rule of the specification matches is ignored
    (lemma [spec_shouldIgnore_shouldIgnore]), but not every other path is
    passed on. The file name [latest.ts]
    includes none of the literal rules and matches none of the wildcard
    rules (it has no [.test.ts] in it), and [shouldIgnore] returns [true]
    for it: the dots of [*.test.ts] are left unescaped in the regular
    expression, where each stands for any character, so that [atest.ts]
    is a match. *)
Theorem shouldIgnore_latest_ts :
  shouldIgnore "latest.ts" = true
  /\ pattern_matches "latest.ts" "*.test.ts" = true
  /\ forallb (fun pattern => negb (rule_matches "latest.ts" pattern))
             IGNORED_PATTERNS = true
  /\ spec_shouldIgnore "latest.ts" = false.
Proof. repeat split. Qed.

(** ** Further properties of the pattern matcher *)

Lemma string_app_assoc (a b c : string) :
  ((a ++ b) ++ c = a ++ b ++ c)%string.
Proof. induction a as [|x a IH]; cbn; [reflexivity|now rewrite IH]. Qed.

Lemma startsWith_append p post : Js.startsWith (p ++ post)%string p = true.
Proof.
  induction p as [|c p IH]; cbn; [now destruct post|].
  now rewrite Ascii.eqb_refl, IH.
Qed.

Lemma includes_here s p : Js.startsWith s p = true -> Js.includes s p = true.
Proof. intros H. destruct s; cbn [Js.includes]; now rewrite H. Qed.

Lemma includes_skip pre s p :
  Js.includes s p = true -> Js.includes (pre ++ s)%string p = true.
Proof.
  induction pre as [|c pre IH]; intros H; [exact H|].
  cbn [String.append Js.includes]. rewrite (IH H). apply orb_true_r.
Qed.

Lemma includes_intro pre p post :
  Js.includes (pre ++ p ++ post)%string p = true.
Proof. apply includes_skip, includes_here, startsWith_append. Qed.

Lemma shouldIgnore_inside (path pre post : string) :
  shouldIgnore path = true ->
  shouldIgnore (pre ++ path ++ post)%string = true.
Proof.
  rewrite !shouldIgnore_iff. intros (pattern & Hin & H).
  exists pattern. split; [exact Hin|].
  destruct (Js.includes pattern "*").
  - destruct H as (regex & p1 & m & p2 & Hc & -> & Hm).
    exists regex, (pre ++ p1)%string, m, (p2 ++ post)%string.
    split; [exact Hc|]. split; [|exact Hm].
    now rewrite !string_app_assoc.
  - destruct (includes_exists _ _ H) as (p1 & p2 & ->).
    rewrite !string_app_assoc, <- (string_app_assoc pre p1).
    apply includes_intro.
Qed.

(** X1. A path that has an ignored path inside it is ignored: whatever lies
    below an ignored directory is ignored with it, and so is every longer
    name that contains an ignored one. *)
Theorem shouldIgnore_extends (path pre post : string) :
  shouldIgnore path = true ->
  shouldIgnore (pre ++ path ++ post)%string = true.
Proof. apply shouldIgnore_inside. Qed.

Lemma shouldIgnore_extends_witness :
  shouldIgnore "dist" = true
  /\ shouldIgnore ("/work/libs/foo/" ++ "dist" ++ "/bundle.js")%string = true.
Proof.
  split; [reflexivity|].
  apply (shouldIgnore_extends "dist" "/work/libs/foo/" "/bundle.js").
  reflexivity.
Defined.

(** ** Further properties of the watch loop *)

Section LoopInvariants.

Variable env : Env.

Lemma keeps_ret I {A} (a : A) : keeps I (ret a).
Proof. intros s H. now exists a, s, []. Qed.

Lemma keeps_bind I {A B} (m : M A) (k : A -> M B) :
  keeps I m -> (forall a, keeps I (k a)) -> keeps I (bind m k).
Proof.
  intros Hm Hk s H.
  destruct (Hm s H) as (a & s1 & t1 & E1 & H1).
  destruct (Hk a s1 H1) as (b & s2 & t2 & E2 & H2).
  exists b, s2, (t1 ++ t2). split; [|exact H2].
  unfold bind. now rewrite E1, E2.
Qed.

Lemma keeps_get_state I : keeps I get_state.
Proof. intros s H. now exists s, s, []. Qed.

Lemma rebuild_frame s :
  exists s' tr,
    rebuild env s = (Ret tt, s', tr)
    /\ timers s' = timers s
    /\ rebuildTimer s' = rebuildTimer s
    /\ verdaccioProcess s' = verdaccioProcess s
    /\ now s' = now s.
Proof.
  destruct (isRebuilding s) eqn:E.
  - rewrite (rebuild_busy env s E). eexists _, _. repeat split.
  - rewrite (rebuild_idle env s E). eexists _, _. split; [reflexivity|].
    unfold pipeline_state. cbn [execCount set_isRebuilding].
    destruct (exec_result env (execCount s) CmdBuild); repeat split.
Qed.

Lemma one_timer_frame s s' :
  timers s' = timers s -> rebuildTimer s' = rebuildTimer s ->
  one_timer s -> one_timer s'.
Proof.
  unfold one_timer, pending. intros -> ->. exact (fun H => H).
Qed.

Lemma keeps_one_timer_rebuild : keeps one_timer (rebuild env).
Proof.
  intros s H. destruct (rebuild_frame s) as (s' & tr & E & Ht & Hr & _).
  exists tt, s', tr. split; [exact E|]. exact (one_timer_frame s s' Ht Hr H).
Qed.

Lemma keeps_one_timer_run_callback cb :
  keeps one_timer (run_callback env cb).
Proof.
  destruct cb. unfold run_callback.
  apply keeps_bind; [apply keeps_get_state|].
  intros s. destruct (isRebuilding s); [apply keeps_ret|].
  apply keeps_one_timer_rebuild.
Qed.

Lemma remove_timer_one id t :
  remove_timer id [t] = [] \/ remove_timer id [t] = [t].
Proof.
  unfold remove_timer. cbn. destruct (Nat.eqb (timer_id t) id); [left|right];
    reflexivity.
Qed.

Lemma keeps_one_timer_fire t : keeps one_timer (fire env t).
Proof.
  unfold fire. apply keeps_bind.
  - intros s H. eexists tt, _, []. split; [reflexivity|].
    destruct H as [H|(due & id & Ht & Hr)].
    + left. cbn. now rewrite H.
    + cbn. destruct (remove_timer_one (timer_id t)
                       (mkTimer id due GuardedRebuild)) as [E|E].
      * left. cbn. now rewrite Ht, E.
      * right. exists due, id. cbn. rewrite Ht, E. now split.
  - intros _. apply keeps_bind; [|intros _; apply keeps_one_timer_run_callback].
    intros s H. now exists tt, s, [EFire (timer_id t) (timer_due t)].
Qed.

Lemma keeps_one_timer_run_timers fuel horizon :
  keeps one_timer (run_timers env fuel horizon).
Proof.
  induction fuel as [|fuel IH]; cbn [run_timers]; [apply keeps_ret|].
  apply keeps_bind; [apply keeps_get_state|].
  intros s. destruct (next_due horizon (timers s)); [|apply keeps_ret].
  apply keeps_bind; [apply keeps_one_timer_fire|]. intros _. exact IH.
Qed.

Lemma keeps_one_timer_advance horizon : keeps one_timer (advance env horizon).
Proof.
  unfold advance. apply keeps_bind; [apply keeps_get_state|].
  intros s. apply keeps_bind; [apply keeps_one_timer_run_timers|].
  intros _ s1 H. eexists tt, _, []. split; [reflexivity|].
  exact (one_timer_frame s1 _ eq_refl eq_refl H).
Qed.

Lemma keeps_one_timer_debounce func :
  keeps one_timer (debounce func 1000).
Proof.
  intros s [H|(due & id & Ht & Hr)].
  - destruct (debounce_arms func 1000 s H) as (tr & E & _).
    eexists tt, _, tr. split; [exact E|].
    right. exists (now s + 1000)%Z, (nextTimerId s). destruct func.
    split; reflexivity.
  - rewrite (debounce_replaces id due GuardedRebuild func 1000 s Ht Hr).
    eexists tt, _, _. split; [reflexivity|].
    right. exists (now s + 1000)%Z, (nextTimerId s). destruct func.
    split; reflexivity.
Qed.

Lemma keeps_one_timer_on_change dir filename :
  keeps one_timer (on_change env dir filename).
Proof.
  unfold on_change. destruct filename as [name|]; [|apply keeps_ret].
  destruct (negb (Js.truthy name) || shouldIgnore name); [apply keeps_ret|].
  apply keeps_bind; [|intros _; apply keeps_one_timer_debounce].
  intros s H. eexists tt, s, _. split; [reflexivity|exact H].
Qed.

Lemma keeps_one_timer_deliver_all changes :
  keeps one_timer (deliver_all env changes).
Proof.
  induction changes as [|c rest IH]; cbn [deliver_all]; [apply keeps_ret|].
  apply keeps_bind; [|intros _; exact IH].
  unfold deliver. apply keeps_bind; [apply keeps_one_timer_advance|].
  intros _. apply keeps_one_timer_on_change.
Qed.

End LoopInvariants.

(** X2. However many file changes arrive, and whenever: the watch loop never
    has more than one timer armed, and the armed timer is the one that
    [rebuildTimer] holds, so that the next call of [debounce] clears it. *)
Theorem watch_loop_keeps_one_timer
    (env : Env) (changes : list Change) (horizon : Z) (s : State) :
  one_timer s ->
  exists s' tr,
    event_loop env changes horizon s = (Ret tt, s', tr)
    /\ one_timer s'
    /\ List.length (timers s') <= 1.
Proof.
  intros H.
  assert (K : keeps one_timer (event_loop env changes horizon)).
  { unfold event_loop. apply keeps_bind.
    - apply keeps_one_timer_deliver_all.
    - intros _. apply keeps_one_timer_advance. }
  destruct (K s H) as ([] & s' & tr & E & H').
  exists s', tr. split; [exact E|]. split; [exact H'|].
  destruct H' as [->|(due & id & -> & _)]; cbn; lia.
Qed.

Lemma watch_loop_keeps_one_timer_witness :
  one_timer initial_state
  /\ exists s' tr,
       event_loop env_healthy sample_burst 1500 initial_state = (Ret tt, s', tr)
       /\ one_timer s'
       /\ List.length (timers s') <= 1.
Proof.
  split; [left; reflexivity|].
  apply (watch_loop_keeps_one_timer env_healthy sample_burst 1500 initial_state).
  left. reflexivity.
Defined.

Section MoreLoop.

Variable env : Env.

Lemma on_change_not_accepted c s :
  accepted c = false ->
  on_change env (change_dir c) (change_filename c) s = (Ret tt, s, []).
Proof.
  unfold accepted, on_change. destruct (change_filename c) as [name|];
    [|reflexivity].
  destruct (Js.truthy name), (shouldIgnore name); cbn; intros H;
    try discriminate; reflexivity.
Qed.

Lemma deliver_all_not_accepted changes : forall s,
  timers s = [] ->
  forallb (fun c => negb (accepted c)) changes = true ->
  exists t, deliver_all env changes s = (Ret tt, set_now t s, []).
Proof.
  induction changes as [|c rest IH]; intros s Ht Hall.
  - exists (now s). cbn. now rewrite set_now_now.
  - cbn [forallb] in Hall. apply andb_prop in Hall. destruct Hall as [Hc Hall].
    apply negb_true_iff in Hc.
    destruct (IH (set_now (Z.max (now s) (change_time c)) s) Ht Hall)
      as (t & E).
    exists t. cbn [deliver_all]. unfold deliver, bind.
    rewrite advance_idle by (rewrite Ht; reflexivity).
    rewrite on_change_not_accepted by exact Hc.
    rewrite E. reflexivity.
Qed.

End MoreLoop.

(** X3. Notifications without a file name, with an empty one or with an
    ignored one leave nothing behind: no log line, no timer, no pipeline
    run, however many there are and however long the loop runs after
    them. *)
Theorem ignored_changes_start_nothing
    (env : Env) (changes : list Change) (horizon : Z) (s : State) :
  timers s = [] ->
  forallb (fun c => negb (accepted c)) changes = true ->
  exists t, event_loop env changes horizon s = (Ret tt, set_now t s, []).
Proof.
  intros Ht Hall.
  destruct (deliver_all_not_accepted env changes s Ht Hall) as (t & E).
  exists (Z.max t horizon). unfold event_loop, bind. rewrite E.
  rewrite advance_idle by (cbn; rewrite Ht; reflexivity).
  reflexivity.
Qed.

Lemma ignored_changes_start_nothing_witness :
  timers initial_state = []
  /\ forallb (fun c => negb (accepted c)) sample_ignored = true
  /\ exists t,
       event_loop env_healthy sample_ignored 10000 initial_state
       = (Ret tt, set_now t initial_state, []).
Proof.
  split; [reflexivity|]. split; [reflexivity|].
  apply (ignored_changes_start_nothing env_healthy sample_ignored 10000
           initial_state); reflexivity.
Defined.

(** ** The watch loop when runs take time *)

Section TimedLoop.

Variable env : Env.
Variable run_time : nat -> Z.

(** A timer that finds no run in progress starts one, and the loop is
    held up until the run has ended. *)
Lemma timed_fire_pending t s :
  timer_callback t = GuardedRebuild ->
  isRebuilding s = false ->
  exists s' tr,
    timed_fire env run_time t s =
    (Ret tt, s', EFire (timer_id t) (Z.max (now s) (timer_due t)) :: tr)
    /\ timers s' = remove_timer (timer_id t) (timers s)
    /\ rebuildTimer s' = rebuildTimer s
    /\ isRebuilding s' = false
    /\ now s' = (Z.max (now s) (timer_due t) + run_time (execCount s))%Z
    /\ fires tr = [] /\ runs_started tr = 1.
Proof.
  intros Hcb Hidle.
  set (s0 := set_now (Z.max (now s) (timer_due t))
               (set_timers (remove_timer (timer_id t) (timers s)) s)).
  assert (H0 : isRebuilding s0 = false) by exact Hidle.
  unfold timed_fire, bind at 1 2 3, modify at 1, emit, get_state at 1.
  fold s0. rewrite Hcb. unfold timed_callback, bind at 1, get_state.
  rewrite H0. cbn [negb]. unfold bind, modify.
  rewrite (rebuild_idle env s0 H0).
  eexists _, _. split; [cbn [app]; reflexivity|].
  destruct (pipeline_state_frame env (set_isRebuilding true s0))
    as (_ & Ht & Hr & _ & Hn).
  destruct (pipeline_trace_quiet env (set_isRebuilding true s0)) as [R F].
  cbn [timers rebuildTimer now isRebuilding set_isRebuilding set_now] in *.
  rewrite Ht, Hr, Hn.
  rewrite app_nil_r. cbn [fires runs_started].
  rewrite fires_app, runs_started_app, R, F.
  repeat split.
Qed.

Lemma timed_advance_idle horizon s :
  next_due horizon (timers s) = None ->
  timed_advance env run_time horizon s
  = (Ret tt, set_now (Z.max (now s) horizon) s, []).
Proof.
  intros Hn. unfold timed_advance, bind, get_state, modify.
  destruct (List.length (timers s)); cbn; [reflexivity|].
  unfold bind, get_state. rewrite Hn. reflexivity.
Qed.

(** The armed timer is due and the loop is free: the timer runs when it
    is due, and the clock moves on to the end of the run, or to the
    horizon if that is later. *)
Lemma timed_advance_fires due horizon s :
  pending due s ->
  isRebuilding s = false ->
  (now s <= due)%Z ->
  (due <= horizon)%Z ->
  exists id s' tr,
    timed_advance env run_time horizon s = (Ret tt, s', EFire id due :: tr)
    /\ timers s' = []
    /\ isRebuilding s' = false
    /\ now s' = Z.max (due + run_time (execCount s)) horizon
    /\ fires tr = [] /\ runs_started tr = 1.
Proof.
  intros (id & Ht & Hr) Hidle Hnow Hdue.
  destruct (timed_fire_pending (mkTimer id due GuardedRebuild) s eq_refl Hidle)
    as (s1 & tr & E & T1 & _ & I1 & N1 & F & R).
  cbn [timer_id timer_due] in E, T1, N1.
  rewrite Z.max_r in E, N1 by exact Hnow.
  exists id, (set_now (Z.max (now s1) horizon) s1), tr.
  split.
  - unfold timed_advance, bind, get_state. rewrite Ht.
    cbn [List.length timed_run_timers]. unfold bind, get_state.
    rewrite Ht, next_due_single. cbn [timer_due].
    destruct (Z.leb_spec due horizon); [|lia].
    rewrite E. cbn -[Z.max Z.add]. rewrite ?app_nil_r. reflexivity.
  - cbn [timers set_now isRebuilding now]. rewrite T1, Ht, N1.
    cbn [remove_timer filter timer_id]. rewrite Nat.eqb_refl.
    repeat split; assumption.
Qed.

(** The first change finds no timer armed. *)
Lemma timed_deliver_first c s :
  timers s = [] ->
  isRebuilding s = false ->
  accepted c = true ->
  exists s' tr,
    timed_deliver env run_time c s = (Ret tt, s', tr)
    /\ pending (Z.max (now s) (change_time c) + 1000) s'
    /\ isRebuilding s' = false
    /\ now s' = Z.max (now s) (change_time c)
    /\ execCount s' = execCount s
    /\ fires tr = [] /\ runs_started tr = 0.
Proof.
  intros Ht Hidle Hacc.
  destruct (on_change_accepted env c
              (set_now (Z.max (now s) (change_time c)) s) Hacc)
    as (name & _ & Hon).
  unfold timed_deliver, bind.
  rewrite timed_advance_idle by (rewrite Ht; reflexivity).
  rewrite Hon.
  destruct (debounce_arms GuardedRebuild 1000
              (set_now (Z.max (now s) (change_time c)) s) Ht)
    as (tr & -> & Hf & Hr).
  eexists _, _. split; [reflexivity|].
  unfold pending. cbn -[Z.max Z.add].
  split; [exists (nextTimerId s); split; reflexivity|].
  repeat split; assumption.
Qed.

(** A change that comes before the armed timer is due replaces the
    timer, also when it is delivered late. *)
Lemma timed_deliver_in_window c due s :
  pending due s ->
  isRebuilding s = false ->
  accepted c = true ->
  (change_time c < due)%Z ->
  exists s' tr,
    timed_deliver env run_time c s = (Ret tt, s', tr)
    /\ pending (Z.max (now s) (change_time c) + 1000) s'
    /\ isRebuilding s' = false
    /\ now s' = Z.max (now s) (change_time c)
    /\ execCount s' = execCount s
    /\ fires tr = [] /\ runs_started tr = 0.
Proof.
  intros (id & Ht & Hr) Hidle Hacc Hdue.
  destruct (on_change_accepted env c
              (set_now (Z.max (now s) (change_time c)) s) Hacc)
    as (name & _ & Hon).
  unfold timed_deliver, bind.
  rewrite timed_advance_idle.
  2:{ rewrite Ht, next_due_single. cbn [timer_due].
      destruct (Z.leb_spec due (change_time c)); [lia|reflexivity]. }
  rewrite Hon.
  rewrite (debounce_replaces id due GuardedRebuild) by assumption.
  eexists _, _. split; [reflexivity|].
  unfold pending. cbn -[Z.max Z.add].
  split; [exists (nextTimerId s); split; reflexivity|].
  repeat split; assumption.
Qed.

(** A change that comes when the armed timer is due or later: the timer
    ran when it was due, and the change is delivered when it comes, or
    at the end of the run if that is later; a new timer is armed then. *)
Lemma timed_deliver_due c due s :
  pending due s ->
  isRebuilding s = false ->
  accepted c = true ->
  (now s <= due)%Z ->
  (due <= change_time c)%Z ->
  exists s' tr id,
    timed_deliver env run_time c s = (Ret tt, s', tr)
    /\ pending (Z.max (due + run_time (execCount s)) (change_time c) + 1000) s'
    /\ isRebuilding s' = false
    /\ now s' = Z.max (due + run_time (execCount s)) (change_time c)
    /\ fires tr = [(id, due)] /\ runs_started tr = 1.
Proof.
  intros Hp Hidle Hacc Hnow Hdue.
  destruct (timed_advance_fires due (change_time c) s Hp Hidle Hnow Hdue)
    as (id & s1 & t1 & E1 & T1 & I1 & N1 & F1 & R1).
  destruct (on_change_accepted env c s1 Hacc) as (name & _ & Hon).
  destruct (debounce_arms GuardedRebuild 1000 s1 T1) as (t2 & E2 & F2 & R2).
  unfold timed_deliver, bind. rewrite E1, Hon, E2.
  eexists _, _, id. split; [reflexivity|].
  split; [|split; [exact I1|split; [exact N1|]]].
  - exists (nextTimerId s1). rewrite <- N1. split; reflexivity.
  - cbn [app fires runs_started]. rewrite fires_app, runs_started_app.
    cbn [fires runs_started]. rewrite F1, F2, R1, R2. split; reflexivity.
Qed.

Variable longest : Z.
Hypothesis run_time_bounds : forall n, (0 <= run_time n <= longest)%Z.

Lemma timed_deliver_spaced rest : forall c s,
  pending (change_time c + 1000) s ->
  isRebuilding s = false ->
  now s = change_time c ->
  forallb accepted rest = true ->
  spaced (1000 + longest) (change_time c) rest = true ->
  exists s' tr,
    timed_deliver_all env run_time rest s = (Ret tt, s', tr)
    /\ pending (last_time c rest + 1000) s'
    /\ isRebuilding s' = false
    /\ now s' = last_time c rest
    /\ runs_started tr = List.length rest
    /\ map snd (fires tr) ++ [(last_time c rest + 1000)%Z]
       = map (fun d => (change_time d + 1000)%Z) (c :: rest).
Proof.
  induction rest as [|d rest IH]; intros c s Hp Hidle Hnow Hacc Hsp.
  - exists s, []. cbn. repeat split; assumption.
  - cbn [forallb] in Hacc. apply andb_prop in Hacc. destruct Hacc as [Hd Hacc].
    cbn [spaced] in Hsp. apply andb_prop in Hsp. destruct Hsp as [Hgap Hsp].
    apply Z.leb_le in Hgap.
    pose proof (run_time_bounds (execCount s)) as Hb.
    destruct (timed_deliver_due d _ s Hp Hidle Hd) as
      (s1 & t1 & id & E1 & P1 & I1 & N1 & F1 & R1); [lia|lia|].
    rewrite Z.max_r in P1, N1 by lia.
    destruct (IH d s1 P1 I1 N1 Hacc Hsp) as
      (s2 & t2 & E2 & P2 & I2 & N2 & R2 & F2).
    exists s2, (t1 ++ t2). cbn [timed_deliver_all last_time].
    split; [unfold bind; rewrite E1, E2; reflexivity|].
    rewrite fires_app, runs_started_app, F1, R1, R2.
    repeat split; try assumption.
    cbn [map app snd]. cbn [map] in F2. rewrite F2. reflexivity.
Qed.

(** File changes while the loop is held up are delivered together when
    the run has ended: each replaces the timer of the one before, and one
    timer is left, due a full delay after the end of the run. *)
Lemma timed_deliver_during rest : forall s,
  pending (now s + 1000) s ->
  isRebuilding s = false ->
  forallb accepted rest = true ->
  forallb (fun c => (change_time c <=? now s)%Z) rest = true ->
  exists s' tr,
    timed_deliver_all env run_time rest s = (Ret tt, s', tr)
    /\ pending (now s + 1000) s'
    /\ isRebuilding s' = false
    /\ now s' = now s
    /\ execCount s' = execCount s
    /\ fires tr = [] /\ runs_started tr = 0.
Proof.
  induction rest as [|d rest IH]; intros s Hp Hidle Hacc Hlate.
  - exists s, []. cbn. repeat split; assumption.
  - cbn [forallb] in Hacc, Hlate.
    apply andb_prop in Hacc. destruct Hacc as [Hd Hacc].
    apply andb_prop in Hlate. destruct Hlate as [Hl Hlate].
    apply Z.leb_le in Hl.
    destruct (timed_deliver_in_window d _ s Hp Hidle Hd) as
      (s1 & t1 & E1 & P1 & I1 & N1 & X1 & F1 & R1); [lia|].
    rewrite Z.max_l in P1, N1 by exact Hl.
    rewrite <- N1 in P1.
    destruct (IH s1 P1 I1 Hacc) as
      (s2 & t2 & E2 & P2 & I2 & N2 & X2 & F2 & R2).
    { rewrite N1. exact Hlate. }
    exists s2, (t1 ++ t2). cbn [timed_deliver_all].
    split; [unfold bind; rewrite E1, E2; reflexivity|].
    rewrite fires_app, runs_started_app, F1, F2, R1, R2.
    rewrite N1 in P2, N2. rewrite X2, X1.
    repeat split; assumption.
Qed.

Lemma during_late prev busy_until rest : forall t,
  during prev busy_until rest = true ->
  (busy_until <= t)%Z ->
  forallb (fun c => (change_time c <=? t)%Z) rest = true.
Proof.
  revert prev. induction rest as [|d rest IH]; intros prev t H Ht;
    [reflexivity|].
  cbn [during] in H. apply andb_prop in H. destruct H as [H Hrest].
  apply andb_prop in H. destruct H as [_ Hhi]. apply Z.leb_le in Hhi.
  cbn [forallb]. rewrite (IH _ t Hrest Ht).
  destruct (Z.leb_spec (change_time d) t); [reflexivity|lia].
Qed.

End TimedLoop.

(** X4. File changes are not collapsed when each of them comes after the run
    for the one before it has ended, that is, at least the delay of
    1000 ms plus the length of a run later: each of them gets a pipeline
    run of its own, started 1000 ms after it. A run holds up the loop for
    its length, at most [longest]. *)
Theorem spaced_changes_run_each
    (env : Env) (run_time : nat -> Z) (longest : Z)
    (s : State) (c : Change) (rest : list Change) (horizon : Z) :
  (forall n, (0 <= run_time n <= longest)%Z) ->
  timers s = [] ->
  isRebuilding s = false ->
  (now s <= change_time c)%Z ->
  forallb accepted (c :: rest) = true ->
  spaced (1000 + longest) (change_time c) rest = true ->
  (last_time c rest + 1000 <= horizon)%Z ->
  exists s' tr,
    timed_event_loop env run_time (c :: rest) horizon s = (Ret tt, s', tr)
    /\ runs_started tr = List.length (c :: rest)
    /\ map snd (fires tr)
       = map (fun d => (change_time d + 1000)%Z) (c :: rest)
    /\ timers s' = [].
Proof.
  intros Hb Ht Hidle Hnow Hacc Hsp Hh.
  cbn [forallb] in Hacc. apply andb_prop in Hacc. destruct Hacc as [Hc Hacc].
  destruct (timed_deliver_first env run_time c s Ht Hidle Hc)
    as (s1 & t1 & E1 & P1 & I1 & N1 & _ & F1 & R1).
  rewrite Z.max_r in P1, N1 by exact Hnow.
  destruct (timed_deliver_spaced env run_time longest Hb rest c s1 P1 I1 N1
              Hacc Hsp)
    as (s2 & t2 & E2 & P2 & I2 & N2 & R2 & F2).
  destruct (timed_advance_fires env run_time _ horizon s2 P2 I2)
    as (id & s3 & t3 & E3 & T3 & _ & _ & F3 & R3); [lia|exact Hh|].
  exists s3, ((t1 ++ t2) ++ EFire id (last_time c rest + 1000) :: t3).
  split.
  - unfold timed_event_loop. cbn [timed_deliver_all]. unfold bind.
    rewrite E1, E2, E3. reflexivity.
  - rewrite !runs_started_app, !fires_app. cbn [runs_started fires].
    rewrite F1, R1, R2, R3, F3. cbn [app map snd List.length].
    split; [lia|]. split; [|exact T3].
    rewrite map_app. cbn [map snd]. exact F2.
Qed.

Lemma spaced_changes_run_each_witness :
  (forall n : nat, (0 <= 400 <= 400)%Z)
  /\ timers initial_state = []
  /\ isRebuilding initial_state = false
  /\ (now initial_state <= 100)%Z
  /\ forallb accepted sample_spaced = true
  /\ spaced (1000 + 400) 100 (tl sample_spaced) = true
  /\ exists s' tr,
       timed_event_loop env_healthy (fun _ => 400%Z) sample_spaced 6000
                        initial_state
       = (Ret tt, s', tr)
       /\ runs_started tr = 3
       /\ map snd (fires tr) = [1100; 2500; 6000]%Z
       /\ timers s' = [].
Proof.
  split; [intros _; lia|]. split; [reflexivity|]. split; [reflexivity|].
  split; [cbn; lia|]. split; [reflexivity|]. split; [reflexivity|].
  apply (spaced_changes_run_each env_healthy (fun _ => 400%Z) 400
           initial_state
           (mkChange 100 "/work/libs/foo/src" (Some "index.ts"))
           (tl sample_spaced) 6000);
    solve [reflexivity | cbn; lia | intros _; lia].
Defined.

(** X22. File changes while a pipeline run is in progress are not lost and do
    not interrupt it: they are delivered when the run has ended, they
    share one timer, and one more run is started for all of them, a full
    delay of 1000 ms after the end of the run they came in. *)
Theorem changes_during_a_run_share_one_run
    (env : Env) (run_time : nat -> Z)
    (s : State) (c d : Change) (late : list Change) (horizon : Z) :
  (0 <= run_time (execCount s))%Z ->
  timers s = [] ->
  isRebuilding s = false ->
  (now s <= change_time c)%Z ->
  forallb accepted (c :: d :: late) = true ->
  during (change_time c + 1000)
         (change_time c + 1000 + run_time (execCount s)) (d :: late) = true ->
  (change_time c + 1000 + run_time (execCount s) + 1000 <= horizon)%Z ->
  exists s' tr,
    timed_event_loop env run_time (c :: d :: late) horizon s = (Ret tt, s', tr)
    /\ runs_started tr = 2
    /\ map snd (fires tr)
       = [(change_time c + 1000)%Z;
          (change_time c + 1000 + run_time (execCount s) + 1000)%Z]
    /\ timers s' = [].
Proof.
  intros Hpos Ht Hidle Hnow Hacc Hdur Hh.
  cbn [forallb] in Hacc. apply andb_prop in Hacc. destruct Hacc as [Hc Hacc].
  apply andb_prop in Hacc. destruct Hacc as [Hd Hacc].
  cbn [during] in Hdur. apply andb_prop in Hdur. destruct Hdur as [Hdur Hrest].
  apply andb_prop in Hdur. destruct Hdur as [Hlo Hhi].
  apply Z.leb_le in Hlo. apply Z.leb_le in Hhi.
  destruct (timed_deliver_first env run_time c s Ht Hidle Hc)
    as (s1 & t1 & E1 & P1 & I1 & N1 & X1 & F1 & R1).
  rewrite Z.max_r in P1, N1 by exact Hnow.
  destruct (timed_deliver_due env run_time d _ s1 P1 I1 Hd)
    as (s2 & t2 & id & E2 & P2 & I2 & N2 & F2 & R2); [lia|exact Hlo|].
  rewrite X1 in P2, N2. rewrite Z.max_l in P2, N2 by exact Hhi.
  rewrite <- N2 in P2.
  destruct (timed_deliver_during env run_time late s2 P2 I2 Hacc)
    as (s3 & t3 & E3 & P3 & I3 & N3 & _ & F3 & R3).
  { apply (during_late (change_time d)
             (change_time c + 1000 + run_time (execCount s))).
    - exact Hrest.
    - rewrite N2. lia. }
  rewrite <- N3 in P3.
  destruct (timed_advance_fires env run_time _ horizon s3 P3 I3)
    as (id' & s4 & t4 & E4 & T4 & _ & _ & F4 & R4); [lia|lia|].
  exists s4, (t1 ++ t2 ++ t3 ++ EFire id' (now s3 + 1000) :: t4).
  split.
  - unfold timed_event_loop. cbn [timed_deliver_all]. unfold bind.
    rewrite E1, E2, E3, E4. rewrite <- !app_assoc. reflexivity.
  - rewrite !runs_started_app, !fires_app. cbn [runs_started fires].
    rewrite F1, F2, F3, F4, R1, R2, R3, R4. cbn [app map snd].
    split; [reflexivity|]. split; [|exact T4].
    rewrite N3, N2. reflexivity.
Qed.

Lemma changes_during_a_run_share_one_run_witness :
  (0 <= 400)%Z
  /\ timers initial_state = []
  /\ isRebuilding initial_state = false
  /\ (now initial_state <= 100)%Z
  /\ forallb accepted
       (mkChange 100 "/work/libs/foo/src" (Some "index.ts") :: sample_during)
     = true
  /\ during (100 + 1000) (100 + 1000 + 400) sample_during = true
  /\ exists s' tr,
       timed_event_loop env_healthy (fun _ => 400%Z)
         (mkChange 100 "/work/libs/foo/src" (Some "index.ts") :: sample_during)
         5000 initial_state
       = (Ret tt, s', tr)
       /\ runs_started tr = 2
       /\ map snd (fires tr) = [1100; 2500]%Z
       /\ timers s' = [].
Proof.
  split; [lia|]. split; [reflexivity|]. split; [reflexivity|].
  split; [cbn; lia|]. split; [reflexivity|]. split; [reflexivity|].
  apply (changes_during_a_run_share_one_run env_healthy (fun _ => 400%Z)
           initial_state
           (mkChange 100 "/work/libs/foo/src" (Some "index.ts"))
           (mkChange 1200 "/work/libs/foo/src" (Some "index.ts"))
           [mkChange 1300 "/work/libs/bar/src" (Some "util.ts")] 5000);
    solve [reflexivity | cbn; lia].
Defined.

(** ** The recursive watcher *)

Lemma Dirent_nested_ind (P : Dirent -> Prop) :
  (forall name, P (DFile name)) ->
  (forall name, P (DDir name None)) ->
  (forall name entries, Forall P entries -> P (DDir name (Some entries))) ->
  forall entry, P entry.
Proof.
  intros HF HN HD. fix IH 1. intros [name|name [entries|]].
  - apply HF.
  - apply HD. revert entries. fix IHl 1. intros [|x entries].
    + constructor.
    + constructor; [apply IH|apply IHl].
  - apply HN.
Qed.

Lemma has_false w dir : has w dir = false -> ~ In dir w.
Proof.
  unfold has. intros H Hin.
  assert (E : existsb (String.eqb dir) w = true).
  { apply existsb_exists. exists dir. split; [exact Hin|apply String.eqb_refl]. }
  congruence.
Qed.

Lemma has_not_in w dir : ~ In dir w -> has w dir = false.
Proof.
  unfold has. intros H. destruct (existsb (String.eqb dir) w) eqn:E;
    [|reflexivity].
  apply existsb_exists in E. destruct E as (x & Hin & Hx).
  apply String.eqb_eq in Hx. subst x. contradiction.
Qed.

(** A directory that is watched already, or ignored, is passed over. *)
Lemma watch_listing_skip env visit dir listing w :
  has w dir || shouldIgnore dir = true ->
  watch_listing env visit dir listing w = (w, [], None).
Proof. unfold watch_listing. intros ->. reflexivity. Qed.

(** [watchDirectory] throws what [watch] throws for its own directory,
    and nothing else. *)
Lemma watch_listing_throws env visit dir listing w e :
  snd (watch_listing env visit dir listing w) = Some e ->
  shouldIgnore dir = false
  /\ exists m, watch_error env dir = Some m /\ e = JsError m.
Proof.
  unfold watch_listing.
  destruct (has w dir); [discriminate|].
  destruct (shouldIgnore dir); [discriminate|]. cbn [orb].
  destruct (watch_error env dir) as [m|].
  - cbn [snd]. intros H. injection H as <-. split; [reflexivity|].
    now exists m.
  - destruct listing as [entries|]; [|discriminate].
    destruct (walk_entries (visit dir) entries (w ++ [dir]))
      as [[w' t] [err|]]; discriminate.
Qed.

Lemma watch_listing_returns env visit dir listing w :
  watchable env dir = true ->
  snd (watch_listing env visit dir listing w) = None.
Proof.
  unfold watchable. intros H.
  destruct (snd (watch_listing env visit dir listing w)) as [e|] eqn:E;
    [|reflexivity].
  apply watch_listing_throws in E. destruct E as (_ & m & Hm & _).
  rewrite Hm in H. discriminate.
Qed.

Lemma walk_ok_quiet env w t r :
  watches t = [] -> execs t = [] -> walk_ok env w (w, t, r).
Proof.
  intros Hw Hx. exists []. cbn [fst snd filter]. rewrite app_nil_r.
  repeat split; auto.
Qed.

Lemma walk_ok_trans env w w1 t1 r1 w2 t2 r2 :
  walk_ok env w (w1, t1, r1) -> walk_ok env w1 (w2, t2, r2) ->
  walk_ok env w (w2, t1 ++ t2, r2).
Proof.
  intros (a1 & E1 & W1 & F1 & N1 & X1) (a2 & E2 & W2 & F2 & N2 & X2).
  cbn [fst snd] in *.
  exists (a1 ++ a2). cbn [fst snd].
  rewrite watches_app, execs_app, X1, X2, W1, W2, filter_app.
  split; [rewrite E2, E1; now rewrite app_assoc|].
  split; [reflexivity|].
  split; [apply Forall_app; now split|].
  split; [auto|reflexivity].
Qed.

Lemma walk_ok_entries env {A} (visit : A -> list string -> Walked) entries :
  Forall (fun e => forall w, walk_ok env w (visit e w)) entries ->
  forall w, walk_ok env w (walk_entries visit entries w).
Proof.
  induction 1 as [|e entries He _ IH]; intros w; cbn [walk_entries].
  - now apply walk_ok_quiet.
  - specialize (He w). destruct (visit e w) as [[w1 t1] [err|]].
    + exact He.
    + specialize (IH w1).
      destruct (walk_entries visit entries w1) as [[w2 t2] r2].
      exact (walk_ok_trans env w w1 t1 None w2 t2 r2 He IH).
Qed.

Lemma walk_ok_watch_listing env visit dir listing :
  (forall entries, listing = Some entries ->
     Forall (fun e => forall w, walk_ok env w (visit dir e w)) entries) ->
  forall w, walk_ok env w (watch_listing env visit dir listing w).
Proof.
  intros Hv w. unfold watch_listing.
  destruct (has w dir) eqn:Hh; [now apply walk_ok_quiet|].
  destruct (shouldIgnore dir) eqn:Hi; [now apply walk_ok_quiet|].
  cbn [orb].
  assert (Hn : NoDup w -> NoDup (w ++ [dir])).
  { intros Hn. apply NoDup_app; [exact Hn|repeat constructor; auto|].
    intros a Ha [E|[]]. subst a. exact (has_false w dir Hh Ha). }
  destruct (watch_error env dir) as [m|] eqn:Hw.
  - exists [dir]. cbn [fst snd watches filter]. unfold watchable. rewrite Hw.
    repeat split; auto.
  - assert (H1 : walk_ok env w (w ++ [dir], [EWatch dir], None)).
    { exists [dir]. cbn [fst snd watches filter]. unfold watchable. rewrite Hw.
      repeat split; auto. }
    destruct listing as [entries|].
    + pose proof (walk_ok_entries env (visit dir) entries (Hv entries eq_refl)
                    (w ++ [dir])) as H2.
      destruct (walk_entries (visit dir) entries (w ++ [dir]))
        as [[w' t] [err|]].
      * refine (walk_ok_trans env w _ [EWatch dir] None w' _ None H1 _).
        refine (walk_ok_trans env _ w' t (Some err) w' _ None H2 _).
        now apply walk_ok_quiet.
      * exact (walk_ok_trans env w _ [EWatch dir] None w' t None H1 H2).
    + refine (walk_ok_trans env w _ [EWatch dir] None _ _ None H1 _).
      now apply walk_ok_quiet.
Qed.

Lemma walk_ok_visit_entry env entry : forall dir w,
  walk_ok env w (visit_entry env dir entry w).
Proof.
  induction entry as [name|name|name entries IH] using Dirent_nested_ind;
    intros dir w; cbn [visit_entry].
  - now apply walk_ok_quiet.
  - destruct (shouldIgnore name); cbn [negb]; [now apply walk_ok_quiet|].
    apply walk_ok_watch_listing. intros entries H. discriminate.
  - destruct (shouldIgnore name); cbn [negb]; [now apply walk_ok_quiet|].
    apply walk_ok_watch_listing. intros entries' H. injection H as <-.
    apply Forall_forall. intros e He w'.
    rewrite Forall_forall in IH. apply IH. exact He.
Qed.

Lemma walk_ok_watchDirectory env dir w :
  walk_ok env w (watchDirectory env dir w).
Proof.
  unfold watchDirectory. apply walk_ok_watch_listing.
  intros entries _. apply Forall_forall. intros e _ w'.
  apply walk_ok_visit_entry.
Qed.



Lemma string_app_nil_r (a : string) : (a ++ "")%string = a.
Proof. induction a as [|x a IH]; cbn; [reflexivity|now rewrite IH]. Qed.

(** A directory whose path is not ignored has a name that is not. *)
Lemma join_not_ignored dir name :
  shouldIgnore (join dir name) = false -> shouldIgnore name = false.
Proof.
  intros H. destruct (shouldIgnore name) eqn:E; [|reflexivity].
  unfold join in H. destruct (ends_with_separator dir).
  - pose proof (shouldIgnore_inside name dir ""%string E) as H'.
    rewrite string_app_nil_r in H'. congruence.
  - pose proof (shouldIgnore_inside name (dir ++ "/")%string ""%string E) as H'.
    rewrite string_app_nil_r, string_app_assoc in H'. congruence.
Qed.

Lemma nodupb_NoDup l : nodupb l = true -> NoDup l.
Proof.
  induction l as [|x l IH]; cbn [nodupb]; intros H; constructor.
  - apply andb_prop in H. destruct H as [H _].
    apply negb_true_iff in H. exact (has_false l x H).
  - apply andb_prop in H. apply IH, H.
Qed.

Lemma cleanb_clean env l w : cleanb env l w = true -> clean env l w.
Proof.
  unfold cleanb, clean. intros H.
  apply andb_prop in H. destruct H as [H H4].
  apply andb_prop in H. destruct H as [H H3].
  apply andb_prop in H. destruct H as [H1 H2].
  split; [|split; [|split]].
  - apply Forall_forall. intros d Hd.
    rewrite forallb_forall in H1. apply negb_true_iff, H1, Hd.
  - apply nodupb_NoDup, H2.
  - apply Forall_forall. intros d Hd.
    rewrite forallb_forall in H3. apply has_false, negb_true_iff, H3, Hd.
  - apply Forall_forall. intros d Hd.
    rewrite forallb_forall in H4. specialize (H4 d Hd).
    unfold watchable in H4. now destruct (watch_error env d).
Qed.

Lemma NoDup_app_disjoint (l1 l2 : list string) :
  NoDup (l1 ++ l2) -> forall a, In a l2 -> ~ In a l1.
Proof.
  induction l1 as [|x l1 IH]; intros H a Ha2 Ha1; [contradiction|].
  cbn in H. apply NoDup_cons_iff in H. destruct H as [Hx H].
  destruct Ha1 as [->|Ha1].
  - apply Hx, in_or_app. now right.
  - exact (IH H a Ha2 Ha1).
Qed.

Lemma clean_app env l1 l2 w :
  clean env (l1 ++ l2) w -> clean env l1 w /\ clean env l2 (w ++ l1).
Proof.
  unfold clean. intros (F & N & I & O).
  apply Forall_app in F. destruct F as [F1 F2].
  apply Forall_app in I. destruct I as [I1 I2].
  apply Forall_app in O. destruct O as [O1 O2].
  split; (split; [|split; [|split]]); try assumption.
  - exact (NoDup_app_remove_r _ _ N).
  - exact (NoDup_app_remove_l _ _ N).
  - apply Forall_forall. intros d Hd Hin.
    apply in_app_or in Hin. destruct Hin as [Hin|Hin].
    + rewrite Forall_forall in I2. exact (I2 d Hd Hin).
    + exact (NoDup_app_disjoint l1 l2 N d Hd Hin).
Qed.

Lemma clean_cons env d l w :
  clean env (d :: l) w ->
  has w d = false /\ shouldIgnore d = false /\ watch_error env d = None
  /\ clean env l (w ++ [d]).
Proof.
  intros H. change (d :: l) with ([d] ++ l) in H.
  apply clean_app in H. destruct H as [(F & _ & I & O) H2].
  inversion F; subst. inversion I; subst. inversion O; subst.
  split; [apply has_not_in; assumption|]. split; [assumption|].
  split; assumption.
Qed.

(** The loop over a listing: the walk of each entry visits all of its
    directories. *)
Lemma whole_entries env (visit : Dirent -> list string -> Walked)
      (below : Dirent -> list string) entries :
  Forall (fun e => forall w,
            clean env (below e) w ->
            exists tr, visit e w = (w ++ below e, tr, None)
                       /\ watches tr = below e) entries ->
  forall w0,
    clean env (flat_map below entries) w0 ->
    exists t,
      walk_entries visit entries w0
      = (w0 ++ flat_map below entries, t, None)
      /\ watches t = flat_map below entries.
Proof.
  induction 1 as [|e entries He _ IH]; intros w0 Hc.
  - exists []. cbn. now rewrite app_nil_r.
  - cbn [flat_map] in Hc. apply clean_app in Hc. destruct Hc as [Hc1 Hc2].
    destruct (He w0 Hc1) as (t1 & E1 & W1).
    destruct (IH (w0 ++ below e) Hc2) as (t2 & E2 & W2).
    exists (t1 ++ t2). cbn [walk_entries flat_map]. rewrite E1, E2.
    rewrite watches_app, W1, W2, <- !app_assoc. split; reflexivity.
Qed.

Lemma whole_watch_listing env
      (visit : string -> Dirent -> list string -> Walked) dir listing :
  (forall entries, listing = Some entries ->
     Forall (fun e => forall w,
               clean env (dirs_below dir e) w ->
               exists tr, visit dir e w = (w ++ dirs_below dir e, tr, None)
                          /\ watches tr = dirs_below dir e) entries) ->
  forall w,
    clean env (tree_dirs dir listing) w ->
    exists tr,
      watch_listing env visit dir listing w
      = (w ++ tree_dirs dir listing, tr, None)
      /\ watches tr = tree_dirs dir listing.
Proof.
  intros Hv w Hc. unfold tree_dirs in *.
  apply clean_cons in Hc. destruct Hc as (Hh & Hi & Hw & Hc).
  unfold watch_listing. rewrite Hh, Hi, Hw. cbn [orb].
  destruct listing as [entries|].
  - destruct (whole_entries env (visit dir) (dirs_below dir) entries
                (Hv entries eq_refl) (w ++ [dir]) Hc) as (t & E & W).
    rewrite E. exists (EWatch dir :: t). cbn [app watches].
    rewrite W, <- app_assoc. split; reflexivity.
  - eexists. split; reflexivity.
Qed.

Lemma whole_visit_entry env entry : forall dir w,
  clean env (dirs_below dir entry) w ->
  exists tr,
    visit_entry env dir entry w = (w ++ dirs_below dir entry, tr, None)
    /\ watches tr = dirs_below dir entry.
Proof.
  induction entry as [name|name|name entries IH] using Dirent_nested_ind;
    intros dir w Hc.
  - exists []. cbn. now rewrite app_nil_r.
  - cbn [visit_entry].
    assert (Hn : shouldIgnore name = false).
    { apply (join_not_ignored dir). now destruct Hc as (F & _); inversion F. }
    rewrite Hn. cbn [negb].
    apply (whole_watch_listing env (visit_entry env) (join dir name) None);
      [intros entries H; discriminate|exact Hc].
  - cbn [visit_entry].
    assert (Hn : shouldIgnore name = false).
    { apply (join_not_ignored dir). now destruct Hc as (F & _); inversion F. }
    rewrite Hn. cbn [negb].
    apply (whole_watch_listing env (visit_entry env) (join dir name)
             (Some entries)); [|exact Hc].
    intros entries' H. injection H as <-.
    apply Forall_forall. intros e He w' Hc'.
    rewrite Forall_forall in IH. exact (IH e He _ w' Hc').
Qed.

(** X6. A tree in which no directory has an ignored path, no directory
    occurs twice and [fs.watch] accepts every directory: the walk puts a
    watch on every directory of the tree, the root first and each listing
    in its order, also on a directory whose listing fails, and it does not
    throw. *)
Theorem clean_tree_is_watched_whole (env : Env) (dir : string) :
  cleanb env (tree_dirs dir (readdir env dir)) [] = true ->
  exists tr,
    watchDirectory env dir [] = (tree_dirs dir (readdir env dir), tr, None)
    /\ watches tr = tree_dirs dir (readdir env dir).
Proof.
  intros H. apply cleanb_clean in H.
  unfold watchDirectory.
  destruct (whole_watch_listing env (visit_entry env) dir (readdir env dir))
    with (w := @nil string) as (tr & E & W); [|exact H|].
  - intros entries _. apply Forall_forall. intros e _ w' Hc.
    now apply whole_visit_entry.
  - exists tr. split; [exact E|exact W].
Qed.

Lemma clean_tree_is_watched_whole_witness :
  cleanb env_sample_tree
         (tree_dirs "/work/libs" (readdir env_sample_tree "/work/libs")) []
  = true
  /\ exists tr,
       watchDirectory env_sample_tree "/work/libs" []
       = (["/work/libs"; "/work/libs/foo"; "/work/libs/foo/src";
           "/work/libs/foo/src/lib"; "/work/libs/bar"], tr, None)
       /\ watches tr
          = ["/work/libs"; "/work/libs/foo"; "/work/libs/foo/src";
             "/work/libs/foo/src/lib"; "/work/libs/bar"].
Proof.
  split; [reflexivity|].
  apply (clean_tree_is_watched_whole env_sample_tree "/work/libs").
  reflexivity.
Defined.

(** X7. A project that lives below an ignored name (a working directory such
    as [/tmp/project]): the root of the walk is ignored with it, and
    [setupFileWatchers] sets no watch at all and says so. *)
Theorem ignored_working_directory_watches_nothing (env : Env) (s : State) :
  shouldIgnore (cwd env) = true ->
  setupFileWatchers env [join (cwd env) "libs"] s
  = (Ret tt, s, [ELog "Watching 0 directories for changes"]).
Proof.
  intros H.
  assert (Hd : shouldIgnore (join (cwd env) "libs") = true).
  { unfold join. destruct (ends_with_separator (cwd env)).
    - exact (shouldIgnore_inside (cwd env) ""%string "libs"%string H).
    - exact (shouldIgnore_inside (cwd env) ""%string "/libs"%string H). }
  unfold setupFileWatchers. cbn [walk_entries].
  unfold watchDirectory. rewrite watch_listing_skip; [reflexivity|].
  rewrite Hd. apply orb_true_r.
Qed.

Lemma ignored_working_directory_watches_nothing_witness :
  shouldIgnore (cwd env_under_tmp) = true
  /\ setupFileWatchers env_under_tmp [join (cwd env_under_tmp) "libs"]
                       initial_state
     = (Ret tt, initial_state, [ELog "Watching 0 directories for changes"]).
Proof.
  split; [reflexivity|].
  apply (ignored_working_directory_watches_nothing env_under_tmp initial_state).
  reflexivity.
Defined.

(** The files of a listing are passed over. *)
Lemma walk_entries_files env dir files entries w :
  walk_entries (visit_entry env dir) (map DFile files ++ entries) w
  = walk_entries (visit_entry env dir) entries w.
Proof.
  induction files as [|f files IH]; [reflexivity|].
  cbn [map app].
  transitivity
    (match walk_entries (visit_entry env dir) (map DFile files ++ entries) w
     with (w', t', r) => (w', [] ++ t', r) end); [reflexivity|].
  rewrite IH.
  now destruct (walk_entries (visit_entry env dir) entries w) as [[w' t'] r'].
Qed.

(** X24. A subdirectory that [fs.watch] refuses ends the walk of its parent:
    it has joined the set already, the parent reports the error under its
    own name and gives up the entries that follow, which get no watch;
    the size that is logged counts the refused directory. *)
Theorem unwatchable_child_ends_listing
    (env : Env) (s : State) (dir : string) (files : list string)
    (name : string) (sub : option (list Dirent)) (rest : list Dirent)
    (m : string) :
  shouldIgnore dir = false ->
  watch_error env dir = None ->
  readdir env dir = Some (map DFile files ++ DDir name sub :: rest) ->
  shouldIgnore (join dir name) = false ->
  String.eqb (join dir name) dir = false ->
  watch_error env (join dir name) = Some m ->
  setupFileWatchers env [dir] s =
  (Ret tt, s,
   [EWatch dir;
    EError ("Failed to watch directory " ++ dir ++ ":")%string
           (Some (JsError m));
    ELog "Watching 2 directories for changes"]).
Proof.
  intros Hi Hw Hl Hc Hne Hm.
  pose proof (join_not_ignored dir name Hc) as Hn.
  unfold setupFileWatchers. cbn [walk_entries].
  unfold watchDirectory, watch_listing at 1.
  rewrite Hi, Hw, Hl. cbn [has existsb orb app]. rewrite walk_entries_files.
  cbn [walk_entries visit_entry]. rewrite Hn. cbn [negb].
  unfold watch_listing. cbn [has existsb]. rewrite Hne, Hc, Hm.
  reflexivity.
Qed.

Lemma unwatchable_child_ends_listing_witness :
  shouldIgnore "/work/libs" = false
  /\ watch_error env_foo_vanishes "/work/libs" = None
  /\ readdir env_foo_vanishes "/work/libs"
     = Some (map DFile ["README.md"]
             ++ DDir "foo" (Some [DFile "index.ts";
                                  DDir "src" (Some [DDir "lib" None])])
                :: [DDir "bar" (Some [])])
  /\ shouldIgnore (join "/work/libs" "foo") = false
  /\ String.eqb (join "/work/libs" "foo") "/work/libs" = false
  /\ watch_error env_foo_vanishes (join "/work/libs" "foo")
     = Some "ENOENT: no such file or directory, watch '/work/libs/foo'"
  /\ setupFileWatchers env_foo_vanishes ["/work/libs"] initial_state =
     (Ret tt, initial_state,
      [EWatch "/work/libs";
       EError "Failed to watch directory /work/libs:"
              (Some (JsError
                 "ENOENT: no such file or directory, watch '/work/libs/foo'"));
       ELog "Watching 2 directories for changes"]).
Proof.
  repeat (split; [reflexivity|]).
  apply (unwatchable_child_ends_listing env_foo_vanishes initial_state
           "/work/libs" ["README.md"] "foo"
           (Some [DFile "index.ts"; DDir "src" (Some [DDir "lib" None])])
           [DDir "bar" (Some [])]
           "ENOENT: no such file or directory, watch '/work/libs/foo'");
    reflexivity.
Defined.

(** ** Startup *)

Section MoreStartup.

Variable env : Env.

(** The loop returns at the first ping that is answered with 200. *)
Lemma health_loop_first j : forall remaining attempts s,
  (forall i, attempts < i < attempts + S j ->
             responds_200 (ping env i) = false) ->
  responds_200 (ping env (attempts + S j)) = true ->
  j < remaining ->
  health_loop env remaining attempts s =
  (Ret tt, set_now (elapsed (S j) (now s)) s,
   polls (S j) attempts (now s) ++ [ELog "Verdaccio is ready!"]).
Proof.
  induction j as [|j IH]; intros remaining attempts s Hno Hyes Hlt;
    (destruct remaining as [|r]; [lia|]).
  - rewrite Nat.add_1_r in Hyes.
    cbn [health_loop polls elapsed].
    unfold bind, sleep, modify, emit, isReady, get_state, ret, console_log.
    cbn -[Z.add]. rewrite Hyes. reflexivity.
  - cbn [health_loop].
    unfold bind at 1, sleep, modify, emit, isReady, get_state, ret.
    cbn -[Z.add elapsed polls health_loop].
    rewrite (Hno (S attempts)) by lia.
    rewrite (IH r (S attempts) (set_now (now s + 1000) s)).
    + reflexivity.
    + intros i Hi. apply Hno. lia.
    + replace (S attempts + S j) with (attempts + S (S j)) by lia. exact Hyes.
    + lia.
Qed.

Lemma spawn_trace_quiet :
  execs (spawn_trace env) = []
  /\ watches (spawn_trace env) = []
  /\ pings (spawn_trace env) = [].
Proof. unfold spawn_trace. destruct (spawn_error env); repeat split. Qed.

(** Startup up to the build, when the registry answers. *)
Lemma startVerdaccio_ready s :
  spawn_is_fatal env = false ->
  (exists k, 1 <= k <= maxAttempts /\ responds_200 (ping env k) = true) ->
  exists n,
    startVerdaccio env s =
    (Ret tt,
     set_now (elapsed (S n) (now s)) (set_verdaccioProcess true s),
     spawn_trace env ++ polls (S n) 0 (now s) ++ [ELog "Verdaccio is ready!"]).
Proof.
  intros Hs (k & Hk & Hready).
  destruct (health_loop_ready env maxAttempts 0 (set_verdaccioProcess true s))
    as (n & _ & EL & _); [exists k; split; [lia|exact Hready]|].
  exists n. rewrite (startVerdaccio_polls env s Hs), EL. reflexivity.
Qed.

Lemma cleanRegistry_trace_watches s : watches (cleanRegistry_trace env s) = [].
Proof.
  unfold cleanRegistry_trace.
  destruct (exec_result env (execCount s) CmdUnpublish) as [out|e]; cbn.
  - now destruct (Js.truthy out).
  - now destruct (Js.truthy (err_stdout e)), (Js.truthy (err_stderr e)),
      (code_is_not_zero (err_code e)).
Qed.

Lemma publishPackages_trace_watches s :
  watches (publishPackages_trace env s) = [].
Proof.
  unfold publishPackages_trace.
  destruct (exec_result env (execCount s) CmdPublish) as [out|e]; cbn;
    [reflexivity|].
  now destruct (already_published (errorMsg_of (ExecFailure e))).
Qed.

(** A root that is not ignored and that [fs.watch] accepts gets the
    first watch. *)
Lemma watchDirectory_root root :
  shouldIgnore root = false ->
  watch_error env root = None ->
  exists w t, watchDirectory env root [] = (w, EWatch root :: t, None).
Proof.
  intros Hi Hw. unfold watchDirectory, watch_listing.
  cbn [has existsb orb]. rewrite Hi, Hw.
  destruct (readdir env root) as [entries|]; [|eexists _, _; reflexivity].
  destruct (walk_entries (visit_entry env root) entries ([] ++ [root]))
    as [[w t] [e|]]; eexists _, _; reflexivity.
Qed.

(** The walk of the one root of the daemon, when [fs.watch] accepts the
    root. *)
Lemma setupFileWatchers_libs s :
  watchable env (join (cwd env) "libs") = true ->
  exists walk,
    setupFileWatchers env [join (cwd env) "libs"] s = (Ret tt, s, walk)
    /\ execs walk = []
    /\ (shouldIgnore (join (cwd env) "libs") = false ->
        In (join (cwd env) "libs") (watches walk)).
Proof.
  intros Hw. set (root := join (cwd env) "libs") in *.
  unfold setupFileWatchers. cbn [walk_entries].
  pose proof (walk_ok_watchDirectory env root []) as H.
  pose proof (watch_listing_returns env (visit_entry env) root
                (readdir env root) [] Hw) as Hr.
  fold (watchDirectory env root []) in Hr.
  assert (Hroot : shouldIgnore root = false ->
                  In root (watches (snd (fst (watchDirectory env root []))))).
  { intros Hi. unfold watchable in Hw.
    destruct (watch_error env root) eqn:E; [discriminate|].
    destruct (watchDirectory_root root Hi E) as (w & t & ->). now left. }
  destruct (watchDirectory env root []) as [[w t] r].
  cbn [fst snd] in Hr, Hroot. subst r.
  destruct H as (added & _ & _ & _ & _ & X). cbn [fst snd] in X.
  rewrite app_nil_r.
  eexists. split; [reflexivity|]. split.
  - rewrite execs_app, X. reflexivity.
  - intros Hi. rewrite watches_app. apply in_or_app. left. auto.
Qed.

(** The walk when [fs.watch] refuses the root: the exception leaves
    [setupFileWatchers], with nothing logged. *)
Lemma setupFileWatchers_libs_refused s m :
  shouldIgnore (join (cwd env) "libs") = false ->
  watch_error env (join (cwd env) "libs") = Some m ->
  setupFileWatchers env [join (cwd env) "libs"] s = (Throw (JsError m), s, []).
Proof.
  intros Hi Hm. unfold setupFileWatchers. cbn [walk_entries].
  unfold watchDirectory, watch_listing. cbn [has existsb orb].
  rewrite Hi, Hm. reflexivity.
Qed.

End MoreStartup.

(** X8. Startup waits exactly as long as the registry needs: when the [k]-th
    ping is the first one answered with status 200, [startVerdaccio]
    returns after [k] pings and [k] seconds, and sends no further ping. *)
Theorem registry_ready_at_first_200 (env : Env) (s : State) (k : nat) :
  spawn_is_fatal env = false ->
  1 <= k <= maxAttempts ->
  responds_200 (ping env k) = true ->
  (forall i, 1 <= i < k -> responds_200 (ping env i) = false) ->
  exists s' tr,
    startVerdaccio env s = (Ret tt, s', tr)
    /\ pings tr = seq 1 k
    /\ now s' = (now s + 1000 * Z.of_nat k)%Z
    /\ verdaccioProcess s' = true.
Proof.
  intros Hs Hk Hyes Hno.
  destruct k as [|j]; [lia|].
  rewrite (startVerdaccio_polls env s Hs).
  rewrite (health_loop_first env j maxAttempts 0 (set_verdaccioProcess true s));
    [|intros i Hi; apply Hno; lia|exact Hyes|lia].
  eexists _, _. split; [reflexivity|].
  cbn [now set_now set_verdaccioProcess verdaccioProcess].
  rewrite !pings_app, elapsed_eq.
  destruct (spawn_trace_quiet env) as (_ & _ & ->).
  destruct (polls_quiet (S j) 0 (now s)) as (_ & _ & ->).
  cbn [pings app]. rewrite app_nil_r. repeat split.
Qed.

Lemma registry_ready_at_first_200_witness :
  spawn_is_fatal env_slow_registry = false
  /\ 1 <= 3 <= maxAttempts
  /\ responds_200 (ping env_slow_registry 3) = true
  /\ (forall i, 1 <= i < 3 -> responds_200 (ping env_slow_registry i) = false)
  /\ exists s' tr,
       startVerdaccio env_slow_registry initial_state = (Ret tt, s', tr)
       /\ pings tr = [1; 2; 3]
       /\ now s' = 3000%Z
       /\ verdaccioProcess s' = true.
Proof.
  assert (H : forall i, 1 <= i < 3 ->
                        responds_200 (ping env_slow_registry i) = false).
  { intros i Hi. destruct i as [|[|[|i]]]; [lia|reflexivity|reflexivity|lia]. }
  split; [reflexivity|]. split; [unfold maxAttempts; lia|].
  split; [reflexivity|]. split; [exact H|].
  apply (registry_ready_at_first_200 env_slow_registry initial_state 3);
    [reflexivity|unfold maxAttempts; lia|reflexivity|exact H].
Defined.

(** X9. At startup a failing build is fatal to the daemon, unlike in a run of
    [rebuild]: [startWatchMode] logs the failure, kills the registry child
    and exits with code 1, without unpublishing, publishing or watching. *)
Theorem boot_build_failure_is_fatal (env : Env) (s : State) (e : ExecError) :
  spawn_is_fatal env = false ->
  (exists k, 1 <= k <= maxAttempts /\ responds_200 (ping env k) = true) ->
  exec_result env (execCount s) CmdBuild = ExecFail e ->
  exists s' tr,
    startWatchMode env s =
    (Halt 1, s',
     tr ++ [ELog "Building libraries..."; EExec CmdBuild;
            EError ("Build failed: " ++ err_message e)%string None;
            EError "Fatal:"
                   (Some (JsError ("Build failed: " ++ err_message e)%string));
            EKill; EExit 1])
    /\ execs tr = [] /\ watches tr = [].
Proof.
  intros Hs Hready Hbuild.
  destruct (startVerdaccio_ready env s Hs Hready) as (n & EV).
  unfold startWatchMode, try_catch.
  unfold bind at 1 2. unfold console_log at 1, emit at 1. rewrite EV.
  unfold bind at 1. rewrite buildLibraries_eq. unfold buildLibraries_result.
  cbn [execCount set_now set_verdaccioProcess]. rewrite Hbuild. cbn [fst snd].
  unfold killChildProcesses, when.
  unfold bind, console_error, emit, get_state, exit.
  cbn [verdaccioProcess bump set_execCount set_now set_verdaccioProcess].
  eexists _, (ELog "Starting watch mode for library development"
              :: spawn_trace env ++ polls (S n) 0 (now s)
              ++ [ELog "Verdaccio is ready!"]).
  split.
  - cbn [app]. rewrite <- !app_assoc. reflexivity.
  - cbn [execs is_exec watches]. rewrite !execs_app, !watches_app.
    destruct (spawn_trace_quiet env) as (-> & -> & _).
    destruct (polls_quiet (S n) 0 (now s)) as (-> & -> & _).
    split; reflexivity.
Qed.

Lemma boot_build_failure_is_fatal_witness :
  spawn_is_fatal env_build_fails = false
  /\ (exists k, 1 <= k <= maxAttempts
                /\ responds_200 (ping env_build_fails k) = true)
  /\ exec_result env_build_fails (execCount initial_state) CmdBuild
     = ExecFail (command_failed "Command failed: nx build")
  /\ exists s' tr,
       startWatchMode env_build_fails initial_state =
       (Halt 1, s',
        tr ++ [ELog "Building libraries..."; EExec CmdBuild;
               EError "Build failed: Command failed: nx build" None;
               EError "Fatal:"
                      (Some (JsError "Build failed: Command failed: nx build"));
               EKill; EExit 1])
       /\ execs tr = [] /\ watches tr = [].
Proof.
  assert (H : exists k, 1 <= k <= maxAttempts
                        /\ responds_200 (ping env_build_fails k) = true).
  { exists 1. unfold maxAttempts. split; [lia|reflexivity]. }
  split; [reflexivity|]. split; [exact H|]. split; [reflexivity|].
  apply (boot_build_failure_is_fatal env_build_fails initial_state
           (command_failed "Command failed: nx build"));
    [reflexivity|exact H|reflexivity].
Defined.

(** X10. At startup, once the registry answers and the build succeeds, nothing
    the unpublish and publish commands do stops the daemon: both are run,
    and when [fs.watch] accepts the [libs] directory the watchers are set
    up (on the root, unless its path is ignored) and [startWatchMode]
    reports that watch mode is ready, with the registry child alive and
    no run in progress or timer armed that was not before. *)
Theorem boot_completes_after_build (env : Env) (s : State) (out : string) :
  spawn_is_fatal env = false ->
  (exists k, 1 <= k <= maxAttempts /\ responds_200 (ping env k) = true) ->
  exec_result env (execCount s) CmdBuild = ExecOk out ->
  watchable env (join (cwd env) "libs") = true ->
  exists s' tr,
    startWatchMode env s = (Ret tt, s', tr ++ ready_lines)
    /\ execs tr = [CmdBuild; CmdUnpublish; CmdPublish]
    /\ (shouldIgnore (join (cwd env) "libs") = false ->
        In (join (cwd env) "libs") (watches tr))
    /\ verdaccioProcess s' = true
    /\ isRebuilding s' = isRebuilding s
    /\ timers s' = timers s.
Proof.
  intros Hs Hready Hbuild Hwatch.
  destruct (startVerdaccio_ready env s Hs Hready) as (n & EV).
  set (s1 := set_now (elapsed (S n) (now s)) (set_verdaccioProcess true s)) in *.
  destruct (setupFileWatchers_libs env (bump (bump (bump s1))) Hwatch)
    as (walk & EW & XW & HW).
  exists (bump (bump (bump s1))).
  exists ((ELog "Starting watch mode for library development"
           :: spawn_trace env ++ polls (S n) 0 (now s)
           ++ [ELog "Verdaccio is ready!"])
          ++ [ELog "Building libraries..."; EExec CmdBuild;
              ELog "Build completed"]
          ++ cleanRegistry_trace env (bump s1)
          ++ publishPackages_trace env (bump (bump s1))
          ++ walk).
  split; [|split; [|split; [|repeat split]]].
  - unfold startWatchMode, try_catch.
    unfold bind at 1 2. unfold console_log at 1, emit at 1. rewrite EV.
    unfold bind at 1. rewrite buildLibraries_eq. unfold buildLibraries_result.
    replace (execCount s1) with (execCount s) by reflexivity.
    rewrite Hbuild. cbn [fst snd].
    unfold bind at 1. rewrite cleanRegistry_eq.
    unfold bind at 1. rewrite publishPackages_eq.
    unfold bind at 1. rewrite EW.
    unfold ready_lines, bind, console_log, emit. cbn [app].
    repeat (rewrite <- ?app_assoc; cbn [app]). reflexivity.
  - cbn [app execs is_exec]. rewrite !execs_app. cbn [execs is_exec].
    rewrite !execs_app, cleanRegistry_trace_execs, publishPackages_trace_execs, XW.
    destruct (spawn_trace_quiet env) as (-> & _ & _).
    destruct (polls_quiet (S n) 0 (now s)) as (-> & _ & _).
    reflexivity.
  - intros Hi. rewrite !watches_app. do 4 (apply in_or_app; right).
    exact (HW Hi).
Qed.

Lemma boot_completes_after_build_witness :
  spawn_is_fatal env_registry_rejects = false
  /\ (exists k, 1 <= k <= maxAttempts
                /\ responds_200 (ping env_registry_rejects k) = true)
  /\ exec_result env_registry_rejects (execCount initial_state) CmdBuild
     = ExecOk ""
  /\ watchable env_registry_rejects (join (cwd env_registry_rejects) "libs")
     = true
  /\ exists s' tr,
       startWatchMode env_registry_rejects initial_state
       = (Ret tt, s', tr ++ ready_lines)
       /\ execs tr = [CmdBuild; CmdUnpublish; CmdPublish]
       /\ (shouldIgnore (join (cwd env_registry_rejects) "libs") = false ->
           In (join (cwd env_registry_rejects) "libs") (watches tr))
       /\ verdaccioProcess s' = true
       /\ isRebuilding s' = isRebuilding initial_state
       /\ timers s' = timers initial_state.
Proof.
  assert (H : exists k, 1 <= k <= maxAttempts
                        /\ responds_200 (ping env_registry_rejects k) = true).
  { exists 1. unfold maxAttempts. split; [lia|reflexivity]. }
  split; [reflexivity|]. split; [exact H|]. split; [reflexivity|].
  split; [reflexivity|].
  apply (boot_completes_after_build env_registry_rejects initial_state "");
    [reflexivity|exact H|reflexivity|reflexivity].
Defined.

(** X23. At startup a [libs] directory that [fs.watch] refuses (a project
    without one, say) is fatal to the daemon: after the build, the
    unpublish and the publish, [startWatchMode] logs the error of
    [fs.watch], kills the registry child and exits with code 1, with no
    watch set. *)
Theorem boot_watch_failure_is_fatal
    (env : Env) (s : State) (out : string) (m : string) :
  spawn_is_fatal env = false ->
  (exists k, 1 <= k <= maxAttempts /\ responds_200 (ping env k) = true) ->
  exec_result env (execCount s) CmdBuild = ExecOk out ->
  shouldIgnore (join (cwd env) "libs") = false ->
  watch_error env (join (cwd env) "libs") = Some m ->
  exists s' tr,
    startWatchMode env s =
    (Halt 1, s', tr ++ [EError "Fatal:" (Some (JsError m)); EKill; EExit 1])
    /\ execs tr = [CmdBuild; CmdUnpublish; CmdPublish]
    /\ watches tr = []
    /\ verdaccioProcess s' = true.
Proof.
  intros Hs Hready Hbuild Hi Hm.
  destruct (startVerdaccio_ready env s Hs Hready) as (n & EV).
  set (s1 := set_now (elapsed (S n) (now s)) (set_verdaccioProcess true s)) in *.
  exists (bump (bump (bump s1))).
  exists ((ELog "Starting watch mode for library development"
           :: spawn_trace env ++ polls (S n) 0 (now s)
           ++ [ELog "Verdaccio is ready!"])
          ++ [ELog "Building libraries..."; EExec CmdBuild;
              ELog "Build completed"]
          ++ cleanRegistry_trace env (bump s1)
          ++ publishPackages_trace env (bump (bump s1))).
  split; [|split; [|split; [|reflexivity]]].
  - unfold startWatchMode, try_catch.
    unfold bind at 1 2. unfold console_log at 1, emit at 1. rewrite EV.
    unfold bind at 1. rewrite buildLibraries_eq. unfold buildLibraries_result.
    replace (execCount s1) with (execCount s) by reflexivity.
    rewrite Hbuild. cbn [fst snd].
    unfold bind at 1. rewrite cleanRegistry_eq.
    unfold bind at 1. rewrite publishPackages_eq.
    unfold bind at 1.
    rewrite (setupFileWatchers_libs_refused env _ m Hi Hm).
    unfold killChildProcesses, when.
    unfold bind, console_error, emit, get_state, exit.
    cbn [verdaccioProcess bump set_execCount set_now set_verdaccioProcess s1].
    cbn [app]. repeat (rewrite <- ?app_assoc; cbn [app]). reflexivity.
  - cbn [app execs is_exec]. rewrite !execs_app. cbn [execs is_exec].
    rewrite !execs_app, cleanRegistry_trace_execs, publishPackages_trace_execs.
    destruct (spawn_trace_quiet env) as (-> & _ & _).
    destruct (polls_quiet (S n) 0 (now s)) as (-> & _ & _).
    reflexivity.
  - cbn [app watches]. rewrite !watches_app. cbn [watches].
    rewrite !watches_app.
    destruct (spawn_trace_quiet env) as (_ & -> & _).
    destruct (polls_quiet (S n) 0 (now s)) as (_ & -> & _).
    rewrite cleanRegistry_trace_watches, publishPackages_trace_watches.
    reflexivity.
Qed.

Lemma boot_watch_failure_is_fatal_witness :
  spawn_is_fatal env_libs_missing = false
  /\ (exists k, 1 <= k <= maxAttempts
                /\ responds_200 (ping env_libs_missing k) = true)
  /\ exec_result env_libs_missing (execCount initial_state) CmdBuild
     = ExecOk ""
  /\ shouldIgnore (join (cwd env_libs_missing) "libs") = false
  /\ watch_error env_libs_missing (join (cwd env_libs_missing) "libs")
     = Some "ENOENT: no such file or directory, watch '/work/libs'"
  /\ exists s' tr,
       startWatchMode env_libs_missing initial_state =
       (Halt 1, s',
        tr ++ [EError "Fatal:"
                 (Some (JsError
                    "ENOENT: no such file or directory, watch '/work/libs'"));
               EKill; EExit 1])
       /\ execs tr = [CmdBuild; CmdUnpublish; CmdPublish]
       /\ watches tr = []
       /\ verdaccioProcess s' = true.
Proof.
  assert (H : exists k, 1 <= k <= maxAttempts
                        /\ responds_200 (ping env_libs_missing k) = true).
  { exists 1. unfold maxAttempts. split; [lia|reflexivity]. }
  split; [reflexivity|]. split; [exact H|]. split; [reflexivity|].
  split; [reflexivity|]. split; [reflexivity|].
  apply (boot_watch_failure_is_fatal env_libs_missing initial_state ""
           "ENOENT: no such file or directory, watch '/work/libs'");
    [reflexivity|exact H|reflexivity|reflexivity|reflexivity].
Defined.

(** ** The interrupt signal *)

Section Child.

Variable env : Env.

Lemma child_kept_bind {A B} (m : M A) (k : A -> M B) :
  child_kept m -> (forall a, child_kept (k a)) -> child_kept (bind m k).
Proof.
  intros Hm Hk s H. specialize (Hm s H). unfold bind.
  destruct (m s) as [[[a|e|c] s1] t1]; cbn [fst snd] in *; try exact Hm.
  specialize (Hk a s1 Hm). destruct (k a s1) as [[o s2] t2]. exact Hk.
Qed.

Lemma child_kept_try_catch {A} (body : M A) (handler : Thrown -> M A) :
  child_kept body -> (forall e, child_kept (handler e)) ->
  child_kept (try_catch body handler).
Proof.
  intros Hb Hh s H. specialize (Hb s H). unfold try_catch.
  destruct (body s) as [[[a|e|c] s1] t1]; cbn [fst snd] in *; try exact Hb.
  specialize (Hh e s1 Hb). destruct (handler e s1) as [[o s2] t2]. exact Hh.
Qed.

Lemma child_kept_pure {A} (m : M A) :
  (forall s, snd (fst (m s)) = s) -> child_kept m.
Proof. intros Hm s H. now rewrite Hm. Qed.

Lemma child_kept_health_loop remaining : forall attempts,
  child_kept (health_loop env remaining attempts).
Proof.
  induction remaining as [|r IH]; intros attempts; cbn [health_loop].
  - now apply child_kept_pure.
  - apply child_kept_bind.
    + intros s H. exact H.
    + intros _. apply child_kept_bind; [now apply child_kept_pure|].
      intros [|]; [now apply child_kept_pure|apply IH].
Qed.

Lemma child_kept_buildLibraries : child_kept (buildLibraries env).
Proof.
  intros s H. rewrite buildLibraries_eq. exact H.
Qed.

Lemma child_kept_cleanRegistry : child_kept (cleanRegistry env).
Proof. intros s H. rewrite cleanRegistry_eq. exact H. Qed.

Lemma child_kept_publishPackages : child_kept (publishPackages env).
Proof. intros s H. rewrite publishPackages_eq. exact H. Qed.

Lemma child_kept_killChildProcesses : child_kept killChildProcesses.
Proof.
  apply child_kept_pure. intros s. unfold killChildProcesses, bind, get_state.
  cbn. destruct (verdaccioProcess s); reflexivity.
Qed.

Lemma child_kept_setupFileWatchers directories :
  child_kept (setupFileWatchers env directories).
Proof.
  apply child_kept_pure. intros s. unfold setupFileWatchers.
  destruct (walk_entries (watchDirectory env) directories [])
    as [[w t] [e|]]; reflexivity.
Qed.

Lemma child_set_startVerdaccio : child_set (startVerdaccio env).
Proof.
  intros s. unfold startVerdaccio.
  unfold bind at 1 2 3. unfold console_log at 1, emit at 1 2, modify at 1.
  assert (K : child_kept
                (match spawn_error env with
                 | Some message => on_spawn_error message
                 | None => ret tt
                 end ;; health_loop env maxAttempts 0)%js).
  { apply child_kept_bind; [|intros _; apply child_kept_health_loop].
    destruct (spawn_error env) as [message|]; [|now apply child_kept_pure].
    apply child_kept_pure. intros s0. unfold on_spawn_error, bind,
      console_error, emit, uncaught, ret.
    destruct (negb (Js.includes message "EADDRINUSE")); reflexivity. }
  specialize (K (set_verdaccioProcess true s) eq_refl).
  destruct ((_ ;; health_loop env maxAttempts 0)%js (set_verdaccioProcess true s))
    as [[[a|e|c] s1] t1]; exact K.
Qed.

Lemma child_set_startWatchMode : child_set (startWatchMode env).
Proof.
  intros s. unfold startWatchMode, try_catch.
  unfold bind at 1. unfold console_log at 1, emit at 1.
  match goal with
  | |- context [bind (startVerdaccio env) ?k s] => set (rest := k)
  end.
  assert (Kr : forall a, child_kept (rest a)).
  { intros a. subst rest. cbv beta.
    apply child_kept_bind; [apply child_kept_buildLibraries|]. intros _.
    apply child_kept_bind; [apply child_kept_cleanRegistry|]. intros _.
    apply child_kept_bind; [apply child_kept_publishPackages|]. intros _.
    apply child_kept_bind; [apply child_kept_setupFileWatchers|]. intros _.
    repeat (apply child_kept_bind; [now apply child_kept_pure|intros _]).
    now apply child_kept_pure. }
  assert (Kb : child_alive (snd (fst (bind (startVerdaccio env) rest s)))).
  { pose proof (child_set_startVerdaccio s) as Hv. unfold bind.
    destruct (startVerdaccio env s) as [[[a|e|c] s1] t1]; cbn [fst snd] in *;
      try exact Hv.
    specialize (Kr a s1 Hv). destruct (rest a s1) as [[o s2] t2]. exact Kr. }
  destruct (bind (startVerdaccio env) rest s) as [[[a|e|c] s1] t1];
    cbn [fst snd] in *; try exact Kb.
  assert (Kh : child_kept
                 (console_error "Fatal:" (Some e) ;;
                  killChildProcesses ;; @exit unit 1)%js).
  { apply child_kept_bind; [now apply child_kept_pure|]. intros _.
    apply child_kept_bind; [apply child_kept_killChildProcesses|]. intros _.
    now apply child_kept_pure. }
  specialize (Kh s1 Kb).
  destruct ((console_error "Fatal:" (Some e) ;; killChildProcesses ;; exit 1)%js s1)
    as [[o s2] t2]. exact Kh.
Qed.

Lemma keeps_child_rebuild : keeps child_alive (rebuild env).
Proof.
  intros s H. destruct (rebuild_frame env s) as (s' & tr & E & _ & _ & Hv & _).
  exists tt, s', tr. split; [exact E|]. unfold child_alive. now rewrite Hv.
Qed.

Lemma keeps_child_advance horizon : keeps child_alive (advance env horizon).
Proof.
  assert (Kf : forall t, keeps child_alive (fire env t)).
  { intros t. unfold fire. apply keeps_bind.
    - intros s H. eexists tt, _, []. split; [reflexivity|exact H].
    - intros _. apply keeps_bind.
      + intros s H. now exists tt, s, [EFire (timer_id t) (timer_due t)].
      + intros _. destruct (timer_callback t). unfold run_callback.
        apply keeps_bind; [apply keeps_get_state|].
        intros s. destruct (isRebuilding s); [apply keeps_ret|].
        apply keeps_child_rebuild. }
  assert (Kr : forall fuel, keeps child_alive (run_timers env fuel horizon)).
  { induction fuel as [|fuel IH]; cbn [run_timers]; [apply keeps_ret|].
    apply keeps_bind; [apply keeps_get_state|].
    intros s. destruct (next_due horizon (timers s)); [|apply keeps_ret].
    apply keeps_bind; [apply Kf|]. intros _. exact IH. }
  unfold advance. apply keeps_bind; [apply keeps_get_state|].
  intros s. apply keeps_bind; [apply Kr|].
  intros _ s1 H. eexists tt, _, []. split; [reflexivity|exact H].
Qed.

Lemma keeps_child_on_change dir filename :
  keeps child_alive (on_change env dir filename).
Proof.
  unfold on_change. destruct filename as [name|]; [|apply keeps_ret].
  destruct (negb (Js.truthy name) || shouldIgnore name); [apply keeps_ret|].
  apply keeps_bind.
  - intros s H. eexists tt, s, _. split; [reflexivity|exact H].
  - intros _ s H. unfold debounce, bind, get_state, clearTimeout, setTimeout,
      modify, ret.
    destruct (rebuildTimer s); eexists tt, _, _; (split; [reflexivity|exact H]).
Qed.

Lemma keeps_child_event_loop changes horizon :
  keeps child_alive (event_loop env changes horizon).
Proof.
  unfold event_loop. apply keeps_bind; [|intros _; apply keeps_child_advance].
  induction changes as [|c rest IH]; cbn [deliver_all]; [apply keeps_ret|].
  apply keeps_bind; [|intros _; exact IH].
  unfold deliver. apply keeps_bind; [apply keeps_child_advance|].
  intros _. apply keeps_child_on_change.
Qed.

End Child.

(** X11. Whenever the interrupt signal comes after startup, whatever the watch
    loop has done in between: the handler kills the registry child and
    then exits with code 0. *)
Theorem sigint_after_startup_kills_registry
    (env : Env) (s s1 : State) (tr1 : list Event)
    (changes : list Change) (horizon : Z) :
  startWatchMode env s = (Ret tt, s1, tr1) ->
  exists s2 tr2,
    event_loop env changes horizon s1 = (Ret tt, s2, tr2)
    /\ on_SIGINT s2 = (Halt 0, s2, [ELog "Shutting down..."; EKill; EExit 0]).
Proof.
  intros E.
  pose proof (child_set_startWatchMode env s) as H1. rewrite E in H1.
  cbn [fst snd] in H1.
  destruct (keeps_child_event_loop env changes horizon s1 H1)
    as ([] & s2 & tr2 & E2 & H2).
  exists s2, tr2. split; [exact E2|].
  unfold on_SIGINT, killChildProcesses, when, bind, console_log, emit,
    get_state, exit.
  unfold child_alive in H2. rewrite H2. reflexivity.
Qed.

Lemma sigint_after_startup_kills_registry_witness :
  startWatchMode env_healthy initial_state
  = (Ret tt, snd (fst (startWatchMode env_healthy initial_state)),
     snd (startWatchMode env_healthy initial_state))
  /\ exists s2 tr2,
       event_loop env_healthy sample_burst 5000
                  (snd (fst (startWatchMode env_healthy initial_state)))
       = (Ret tt, s2, tr2)
       /\ on_SIGINT s2
          = (Halt 0, s2, [ELog "Shutting down..."; EKill; EExit 0]).
Proof.
  split; [reflexivity|].
  apply (sigint_after_startup_kills_registry env_healthy initial_state
           (snd (fst (startWatchMode env_healthy initial_state)))
           (snd (startWatchMode env_healthy initial_state))
           sample_burst 5000).
  reflexivity.
Defined.

(** ** The one-shot script, further *)

Section MoreLegacy.

Variable env : Env.

Lemma legacy_startVerdaccio_ready s :
  spawn_is_fatal env = false ->
  (exists k, 1 <= k <= maxAttempts /\ responds_200 (ping env k) = true) ->
  exists n,
    Legacy.startVerdaccio env s =
    (Ret tt,
     set_now (elapsed (S n) (now s)) (set_verdaccioProcess true s),
     spawn_trace env ++ polls (S n) 0 (now s) ++ [ELog "Verdaccio is ready!"]).
Proof.
  intros Hs (k & Hk & Hready).
  destruct (health_loop_ready env maxAttempts 0 (set_verdaccioProcess true s))
    as (n & _ & EL & _); [exists k; split; [lia|exact Hready]|].
  exists n. unfold Legacy.startVerdaccio, spawn_trace.
  unfold spawn_is_fatal in Hs.
  unfold bind at 1 2 3. unfold console_log at 1, emit at 1 2, modify at 1.
  destruct (spawn_error env) as [message|].
  - rewrite Hs. unfold bind, console_error, emit, try_catch.
    rewrite legacy_waitForVerdaccio_health_loop, EL. reflexivity.
  - unfold try_catch.
    rewrite legacy_waitForVerdaccio_health_loop, EL. reflexivity.
Qed.

Lemma legacy_unpublish_eq s :
  Legacy.unpublish env s = (Ret tt, bump s, legacy_unpublish_trace env s).
Proof.
  unfold Legacy.unpublish, legacy_unpublish_trace, try_catch, bind, execSync,
    console_log, emit.
  destruct (exec_result env (execCount s) CmdUnpublish); reflexivity.
Qed.

Lemma legacy_unpublish_trace_execs s :
  execs (legacy_unpublish_trace env s) = [CmdUnpublish].
Proof.
  unfold legacy_unpublish_trace.
  destruct (exec_result env (execCount s) CmdUnpublish); reflexivity.
Qed.

Lemma legacy_buildLibs_eq s :
  Legacy.buildLibs env s =
  (fst (buildLibraries_result env s), bump s, snd (buildLibraries_result env s)).
Proof. exact (buildLibraries_eq env s). Qed.

End MoreLegacy.

(** X14. The health check of the one-shot script, written with timers that
    re-arm each other, and the [while] loop of the watch script are one
    and the same for every budget of at least one attempt: same pings at
    the same times, same outcome. With a budget of zero the one-shot
    check still sends one ping before it gives up. *)
Theorem legacy_health_check_agrees (env : Env) (s : State) :
  (forall r, Legacy.waitForVerdaccio env (S r) s = health_loop env (S r) 0 s)
  /\ exists o s',
       Legacy.waitForVerdaccio env 0 s
       = (o, s',
          [ESleep 1000; EPing 1 (now s + 1000)]
          ++ if responds_200 (ping env 1)
             then [ELog "Verdaccio is ready!"] else [])
       /\ o = if responds_200 (ping env 1) then Ret tt
              else Throw (JsError "Verdaccio failed to start").
Proof.
  split.
  - intros r. exact (legacy_checkHealth_health_loop env r 0 s).
  - unfold Legacy.waitForVerdaccio. cbn [Nat.max Legacy.checkHealth].
    unfold bind, sleep, modify, emit, isReady, get_state, ret, console_log,
      throw.
    cbn -[Z.add]. destruct (responds_200 (ping env 1)); cbn -[Z.add];
      eexists _, _; split; reflexivity.
Qed.

(** X15. In the one-shot script a spawn error other than EADDRINUSE is handled
    in order: the fatal error is logged, the child is killed, the process
    exits with code 1, and nothing else is attempted. *)
Theorem legacy_spawn_error_exits_cleanly
    (env : Env) (s : State) (message : string) :
  spawn_error env = Some message ->
  Js.includes message "EADDRINUSE" = false ->
  Legacy.watch env s =
  (Halt 1, set_verdaccioProcess true s,
   [ELog "Starting watch mode for library development";
    ELog "Starting Verdaccio local registry..."; ESpawn;
    EError "Verdaccio process error:" (Some (JsError message));
    EError "Fatal error:" (Some (JsError message)); EKill; EExit 1]).
Proof. apply legacy_spawn_error_is_fatal. Qed.

Lemma legacy_spawn_error_exits_cleanly_witness :
  spawn_error env_spawn_fails = Some "spawn npx ENOENT"
  /\ Js.includes "spawn npx ENOENT" "EADDRINUSE" = false
  /\ Legacy.watch env_spawn_fails initial_state =
     (Halt 1, set_verdaccioProcess true initial_state,
      [ELog "Starting watch mode for library development";
       ELog "Starting Verdaccio local registry..."; ESpawn;
       EError "Verdaccio process error:" (Some (JsError "spawn npx ENOENT"));
       EError "Fatal error:" (Some (JsError "spawn npx ENOENT"));
       EKill; EExit 1]).
Proof.
  split; [reflexivity|]. split; [reflexivity|].
  apply (legacy_spawn_error_exits_cleanly env_spawn_fails initial_state
           "spawn npx ENOENT"); reflexivity.
Defined.

(** X16. In the one-shot script every failure of the publish command is fatal,
    whatever its message and whatever the unpublish command did before:
    the script logs it, kills the registry child and exits with code 1. *)
Theorem legacy_publish_failure_is_fatal
    (env : Env) (s : State) (out : string) (e : ExecError) :
  spawn_is_fatal env = false ->
  (exists k, 1 <= k <= maxAttempts /\ responds_200 (ping env k) = true) ->
  exec_result env (execCount s) CmdBuild = ExecOk out ->
  exec_result env (S (S (execCount s))) CmdPublish = ExecFail e ->
  exists s' tr,
    Legacy.watch env s =
    (Halt 1, s',
     tr ++ [EError ("Publish failed: " ++ err_message e)%string None;
            EError "Fatal error:"
                   (Some (JsError ("Publish failed: " ++ err_message e)%string));
            EKill; EExit 1])
    /\ execs tr = [CmdBuild; CmdUnpublish; CmdPublish].
Proof.
  intros Hs Hready Hbuild Hpub.
  destruct (legacy_startVerdaccio_ready env s Hs Hready) as (n & EV).
  set (s1 := set_now (elapsed (S n) (now s)) (set_verdaccioProcess true s)) in *.
  exists (bump (bump (bump s1))).
  exists ((ELog "Starting watch mode for library development"
           :: spawn_trace env ++ polls (S n) 0 (now s)
           ++ [ELog "Verdaccio is ready!"])
          ++ [ELog "Building libraries..."; EExec CmdBuild;
              ELog "Build completed"]
          ++ legacy_unpublish_trace env (bump s1)
          ++ [ELog "Publishing packages to local registry..."; EExec CmdPublish]).
  split.
  - unfold Legacy.watch, try_catch.
    unfold bind at 1 2. unfold console_log at 1, emit at 1. rewrite EV.
    unfold bind at 1. rewrite legacy_buildLibs_eq. unfold buildLibraries_result.
    replace (execCount s1) with (execCount s) by reflexivity.
    rewrite Hbuild. cbn [fst snd].
    unfold bind at 1. rewrite legacy_unpublish_eq.
    unfold bind at 1.
    rewrite (legacy_publish_rethrows env (bump (bump s1)) e) by exact Hpub.
    unfold killChildProcesses, when.
    unfold bind, console_error, emit, get_state, exit.
    replace (verdaccioProcess (bump (bump (bump s1)))) with true by reflexivity.
    cbn [app]. repeat (rewrite <- ?app_assoc; cbn [app]). reflexivity.
  - cbn [app execs is_exec]. rewrite !execs_app. cbn [execs is_exec].
    rewrite !execs_app, legacy_unpublish_trace_execs.
    destruct (spawn_trace_quiet env) as (-> & _ & _).
    destruct (polls_quiet (S n) 0 (now s)) as (-> & _ & _).
    reflexivity.
Qed.

Lemma legacy_publish_failure_is_fatal_witness :
  spawn_is_fatal env_legacy_republish = false
  /\ (exists k, 1 <= k <= maxAttempts
                /\ responds_200 (ping env_legacy_republish k) = true)
  /\ exec_result env_legacy_republish (execCount initial_state) CmdBuild
     = ExecOk ""
  /\ exec_result env_legacy_republish (S (S (execCount initial_state)))
                 CmdPublish
     = ExecFail (exit_failure (legacy_command_line CmdPublish))
  /\ exists s' tr,
       Legacy.watch env_legacy_republish initial_state =
       (Halt 1, s',
        tr ++ [EError
                 "Publish failed: Command failed: npx nx run-many --target=publish-local --all --parallel"
                 None;
               EError "Fatal error:"
                 (Some (JsError
                    "Publish failed: Command failed: npx nx run-many --target=publish-local --all --parallel"));
               EKill; EExit 1])
       /\ execs tr = [CmdBuild; CmdUnpublish; CmdPublish].
Proof.
  assert (H : exists k, 1 <= k <= maxAttempts
                        /\ responds_200 (ping env_legacy_republish k) = true).
  { exists 1. unfold maxAttempts. split; [lia|reflexivity]. }
  split; [reflexivity|]. split; [exact H|]. split; [reflexivity|].
  split; [reflexivity|].
  apply (legacy_publish_failure_is_fatal env_legacy_republish initial_state ""
           (exit_failure (legacy_command_line CmdPublish)));
    [reflexivity|exact H|reflexivity|reflexivity].
Defined.

(** X17. In the one-shot script a failing unpublish command is swallowed: with
    the registry answering and the build and publish commands succeeding,
    the script runs all three commands and reports that it is ready,
    whatever the unpublish command did. *)
Theorem legacy_unpublish_failure_is_swallowed
    (env : Env) (s : State) (out out' : string) :
  spawn_is_fatal env = false ->
  (exists k, 1 <= k <= maxAttempts /\ responds_200 (ping env k) = true) ->
  exec_result env (execCount s) CmdBuild = ExecOk out ->
  exec_result env (S (S (execCount s))) CmdPublish = ExecOk out' ->
  exists s' tr,
    Legacy.watch env s = (Ret tt, s', tr ++ legacy_ready_lines)
    /\ execs tr = [CmdBuild; CmdUnpublish; CmdPublish].
Proof.
  intros Hs Hready Hbuild Hpub.
  destruct (legacy_startVerdaccio_ready env s Hs Hready) as (n & EV).
  set (s1 := set_now (elapsed (S n) (now s)) (set_verdaccioProcess true s)) in *.
  exists (bump (bump (bump s1))).
  exists ((ELog "Starting watch mode for library development"
           :: spawn_trace env ++ polls (S n) 0 (now s)
           ++ [ELog "Verdaccio is ready!"])
          ++ [ELog "Building libraries..."; EExec CmdBuild;
              ELog "Build completed"]
          ++ legacy_unpublish_trace env (bump s1)
          ++ [ELog "Publishing packages to local registry..."; EExec CmdPublish;
              ELog "All packages published successfully!"]).
  split.
  - unfold Legacy.watch, try_catch.
    unfold bind at 1 2. unfold console_log at 1, emit at 1. rewrite EV.
    unfold bind at 1. rewrite legacy_buildLibs_eq. unfold buildLibraries_result.
    replace (execCount s1) with (execCount s) by reflexivity.
    rewrite Hbuild. cbn [fst snd].
    unfold bind at 1. rewrite legacy_unpublish_eq.
    unfold Legacy.publish, try_catch, execSync.
    unfold bind, console_log, emit.
    replace (execCount (bump (bump s1))) with (S (S (execCount s)))
      by reflexivity.
    rewrite Hpub. unfold legacy_ready_lines.
    cbn [app]. repeat (rewrite <- ?app_assoc; cbn [app]). reflexivity.
  - cbn [app execs is_exec]. rewrite !execs_app. cbn [execs is_exec].
    rewrite !execs_app, legacy_unpublish_trace_execs.
    destruct (spawn_trace_quiet env) as (-> & _ & _).
    destruct (polls_quiet (S n) 0 (now s)) as (-> & _ & _).
    reflexivity.
Qed.

Lemma legacy_unpublish_failure_is_swallowed_witness :
  spawn_is_fatal env_unpublish_fails = false
  /\ (exists k, 1 <= k <= maxAttempts
                /\ responds_200 (ping env_unpublish_fails k) = true)
  /\ exec_result env_unpublish_fails (execCount initial_state) CmdBuild
     = ExecOk ""
  /\ exec_result env_unpublish_fails (S (S (execCount initial_state))) CmdPublish
     = ExecOk ""
  /\ exists s' tr,
       Legacy.watch env_unpublish_fails initial_state
       = (Ret tt, s', tr ++ legacy_ready_lines)
       /\ execs tr = [CmdBuild; CmdUnpublish; CmdPublish].
Proof.
  assert (H : exists k, 1 <= k <= maxAttempts
                        /\ responds_200 (ping env_unpublish_fails k) = true).
  { exists 1. unfold maxAttempts. split; [lia|reflexivity]. }
  split; [reflexivity|]. split; [exact H|]. split; [reflexivity|].
  split; [reflexivity|].
  apply (legacy_unpublish_failure_is_swallowed env_unpublish_fails
           initial_state "" "");
    [reflexivity|exact H|reflexivity|reflexivity].
Defined.

(** ** The command line *)

Lemma parse_args_pair f v rest acc :
  Js.truthy v = true ->
  parse_args (flag_name f :: v :: rest) acc
  = parse_args rest (set_credential acc (f, v)).
Proof.
  intros Hv. cbn [parse_args]. rewrite Hv. destruct f; reflexivity.
Qed.

(** X18. Arguments given as flags with non-empty values, in any order and any
    number: every pair is taken in turn, a value is taken as it is even
    when it reads like a flag, and a flag given again overrides what it
    set before. *)
Theorem parse_args_takes_pairs
    (pairs : list (Flag * string)) (acc : Credentials) :
  forallb (fun fv => Js.truthy (snd fv)) pairs = true ->
  parse_args (flag_args pairs) acc = fold_left set_credential pairs acc.
Proof.
  revert acc. induction pairs as [|[f v] pairs IH]; intros acc H;
    [reflexivity|].
  cbn [forallb snd] in H. apply andb_prop in H. destruct H as [Hv H].
  unfold flag_args. cbn [flat_map app fst snd fold_left].
  rewrite parse_args_pair by exact Hv. apply IH, H.
Qed.

Lemma parse_args_takes_pairs_witness :
  forallb (fun fv => Js.truthy (snd fv)) sample_pairs = true
  /\ parse_args
       ["--email"; "dev@example.org"; "--username"; "--password";
        "--password"; "secret"; "--username"; "dev"] no_credentials
     = mkCredentials "dev" "secret" "dev@example.org".
Proof.
  split; [reflexivity|].
  apply (parse_args_takes_pairs sample_pairs no_credentials). reflexivity.
Defined.

Lemma parse_args_keeps n : forall args acc,
  List.length args <= n ->
  (~ In "--username" args ->
   username (parse_args args acc) = username acc)
  /\ (~ In "--password" args ->
      password (parse_args args acc) = password acc)
  /\ (~ In "--email" args ->
      email (parse_args args acc) = email acc).
Proof.
  induction n as [|n IH]; intros args acc Hlen.
  - destruct args; [repeat split|cbn in Hlen; lia].
  - destruct args as [|arg [|next rest]]; [repeat split..|].
    cbn [List.length] in Hlen.
    assert (H1 : List.length rest <= n) by lia.
    assert (H2 : List.length (next :: rest) <= n) by (cbn; lia).
    cbn [parse_args].
    destruct (String.eqb_spec arg "--username") as [->|Hu]; cbn [andb].
    { destruct (Js.truthy next).
      - destruct (IH rest (mkCredentials next (password acc) (email acc)) H1)
          as (_ & Kp & Ke).
        repeat split; intros Hn.
        + exfalso. apply Hn. now left.
        + rewrite Kp; [reflexivity|]. intros Hin. apply Hn. now right; right.
        + rewrite Ke; [reflexivity|]. intros Hin. apply Hn. now right; right.
      - destruct (IH (next :: rest) acc H2) as (Ku & Kp & Ke).
        repeat split; intros Hn;
          [apply Ku|apply Kp|apply Ke]; intros Hin; apply Hn; now right. }
    destruct (String.eqb_spec arg "--password") as [->|Hp]; cbn [andb].
    { destruct (Js.truthy next).
      - destruct (IH rest (mkCredentials (username acc) next (email acc)) H1)
          as (Ku & _ & Ke).
        repeat split; intros Hn.
        + rewrite Ku; [reflexivity|]. intros Hin. apply Hn. now right; right.
        + exfalso. apply Hn. now left.
        + rewrite Ke; [reflexivity|]. intros Hin. apply Hn. now right; right.
      - destruct (IH (next :: rest) acc H2) as (Ku & Kp & Ke).
        repeat split; intros Hn;
          [apply Ku|apply Kp|apply Ke]; intros Hin; apply Hn; now right. }
    destruct (String.eqb_spec arg "--email") as [->|He]; cbn [andb].
    { destruct (Js.truthy next).
      - destruct (IH rest (mkCredentials (username acc) (password acc) next) H1)
          as (Ku & Kp & _).
        repeat split; intros Hn.
        + rewrite Ku; [reflexivity|]. intros Hin. apply Hn. now right; right.
        + rewrite Kp; [reflexivity|]. intros Hin. apply Hn. now right; right.
        + exfalso. apply Hn. now left.
      - destruct (IH (next :: rest) acc H2) as (Ku & Kp & Ke).
        repeat split; intros Hn;
          [apply Ku|apply Kp|apply Ke]; intros Hin; apply Hn; now right. }
    destruct (IH (next :: rest) acc H2) as (Ku & Kp & Ke).
    repeat split; intros Hn;
      [apply Ku|apply Kp|apply Ke]; intros Hin; apply Hn; now right.
Qed.

(** X19. When one of the three flags is nowhere among the arguments, the
    script prints that arguments are missing, prints the usage line, and
    exits with code 1. *)
Theorem missing_flag_exits (argv : list string) (s : State) :
  ~ In "--username" (skipn 2 argv)
  \/ ~ In "--password" (skipn 2 argv)
  \/ ~ In "--email" (skipn 2 argv) ->
  parseCommandLineArguments argv s
  = (Halt 1, s,
     [EError "Missing required arguments!" None; EError USAGE None; EExit 1]).
Proof.
  intros H. unfold parseCommandLineArguments.
  destruct (parse_args_keeps (List.length (skipn 2 argv)) (skipn 2 argv)
              no_credentials (le_n _)) as (Ku & Kp & Ke).
  assert (E : negb (Js.truthy (username (parse_args (skipn 2 argv) no_credentials)))
              || negb (Js.truthy (password (parse_args (skipn 2 argv) no_credentials)))
              || negb (Js.truthy (email (parse_args (skipn 2 argv) no_credentials)))
              = true).
  { destruct H as [H|[H|H]].
    - rewrite (Ku H). reflexivity.
    - rewrite (Kp H).
      change (negb (Js.truthy (password no_credentials))) with true.
      now rewrite orb_true_r.
    - rewrite (Ke H).
      change (negb (Js.truthy (email no_credentials))) with true.
      now rewrite orb_true_r. }
  rewrite E. reflexivity.
Qed.

Lemma missing_flag_exits_witness :
  (~ In "--username" (skipn 2 ["node"; "watch.ts"; "--username"; "dev"; "--password"; "secret"])
   \/ ~ In "--password" (skipn 2 ["node"; "watch.ts"; "--username"; "dev"; "--password"; "secret"])
   \/ ~ In "--email" (skipn 2 ["node"; "watch.ts"; "--username"; "dev"; "--password"; "secret"]))
  /\ parseCommandLineArguments
       ["node"; "watch.ts"; "--username"; "dev"; "--password"; "secret"]
       initial_state
     = (Halt 1, initial_state,
        [EError "Missing required arguments!" None; EError USAGE None;
         EExit 1]).
Proof.
  assert (H : ~ In "--email"
                (skipn 2 ["node"; "watch.ts"; "--username"; "dev";
                          "--password"; "secret"])).
  { cbn. intros [H|[H|[H|[H|[]]]]]; discriminate. }
  split; [right; right; exact H|].
  apply (missing_flag_exits
           ["node"; "watch.ts"; "--username"; "dev"; "--password"; "secret"]
           initial_state).
  right; right; exact H.
Defined.

(** ** The bound of the health check *)

Section Budget.

Variable env : Env.

Lemma health_loop_bounded remaining : forall attempts s,
  exists o s' tr,
    health_loop env remaining attempts s = (o, s', tr)
    /\ List.length (pings tr) <= remaining
    /\ (now s <= now s' <= now s + 1000 * Z.of_nat remaining)%Z.
Proof.
  induction remaining as [|r IH]; intros attempts s.
  - eexists _, _, _. split; [reflexivity|]. cbn. split; lia.
  - destruct (IH (S attempts) (set_now (now s + 1000) s))
      as (o & s' & tr & E & Hp & Hn).
    cbn [now set_now] in Hn.
    cbn [health_loop].
    unfold bind at 1, sleep, modify, emit, isReady, get_state, ret,
      console_log.
    cbn -[Z.add Z.mul Z.of_nat health_loop].
    destruct (responds_200 (ping env (S attempts))).
    + eexists _, _, _. split; [reflexivity|].
      cbn -[Z.add Z.mul Z.of_nat]. split; lia.
    + rewrite E. eexists _, _, _. split; [reflexivity|].
      cbn -[Z.add Z.mul Z.of_nat]. split; lia.
Qed.

Lemma bounded_search (f : nat -> bool) n : forall a,
  (forall k, a < k <= a + n -> f k = false)
  \/ (exists k, a < k <= a + n /\ f k = true).
Proof.
  induction n as [|n IH]; intros a.
  - left. intros k Hk. lia.
  - destruct (f (S a)) eqn:E.
    + right. exists (S a). split; [lia|exact E].
    + destruct (IH (S a)) as [Hno|(k & Hk & Hy)].
      * left. intros k Hk.
        destruct (Nat.eq_dec k (S a)) as [->|]; [exact E|apply Hno; lia].
      * right. exists k. split; [lia|exact Hy].
Qed.

End Budget.

(** X12. However the registry answers and however startup ends,
    [startVerdaccio] sends at most 30 pings and is over within 30
    seconds. *)
Theorem startup_poll_budget (env : Env) (s : State) :
  exists o s' tr,
    startVerdaccio env s = (o, s', tr)
    /\ List.length (pings tr) <= 30
    /\ (now s <= now s' <= now s + 30000)%Z.
Proof.
  destruct (spawn_is_fatal env) eqn:Hs.
  - unfold spawn_is_fatal in Hs.
    destruct (spawn_error env) as [message|] eqn:Hm; [|discriminate].
    apply negb_true_iff in Hs.
    rewrite (startVerdaccio_spawn_fatal env s message Hm Hs).
    eexists _, _, _. split; [reflexivity|]. cbn. split; lia.
  - rewrite (startVerdaccio_polls env s Hs).
    destruct (health_loop_bounded env maxAttempts 0 (set_verdaccioProcess true s))
      as (o & s' & tr & -> & Hp & Hn).
    eexists _, _, _. split; [reflexivity|].
    rewrite pings_app. destruct (spawn_trace_quiet env) as (_ & _ & ->).
    cbn [app now set_verdaccioProcess] in *. unfold maxAttempts in *.
    split; [exact Hp|lia].
Qed.

(** X13. [startVerdaccio] returns only when the registry has answered a ping
    of the budget with status 200: a registry that never does so is never
    taken for ready. *)
Theorem startup_returns_only_when_ready
    (env : Env) (s s' : State) (tr : list Event) :
  startVerdaccio env s = (Ret tt, s', tr) ->
  exists k, 1 <= k <= maxAttempts /\ responds_200 (ping env k) = true.
Proof.
  intros E.
  destruct (spawn_is_fatal env) eqn:Hs.
  - unfold spawn_is_fatal in Hs.
    destruct (spawn_error env) as [message|] eqn:Hm; [|discriminate].
    apply negb_true_iff in Hs.
    rewrite (startVerdaccio_spawn_fatal env s message Hm Hs) in E.
    discriminate.
  - destruct (bounded_search (fun k => responds_200 (ping env k)) maxAttempts 0)
      as [Hno|(k & Hk & Hy)].
    + rewrite (startVerdaccio_polls env s Hs) in E.
      rewrite health_loop_exhausted in E by exact Hno. discriminate.
    + exists k. split; [lia|exact Hy].
Qed.

Lemma startup_returns_only_when_ready_witness :
  startVerdaccio env_slow_registry initial_state
  = (Ret tt, snd (fst (startVerdaccio env_slow_registry initial_state)),
     snd (startVerdaccio env_slow_registry initial_state))
  /\ exists k, 1 <= k <= maxAttempts
               /\ responds_200 (ping env_slow_registry k) = true.
Proof.
  split; [reflexivity|].
  apply (startup_returns_only_when_ready env_slow_registry initial_state
           (snd (fst (startVerdaccio env_slow_registry initial_state)))
           (snd (startVerdaccio env_slow_registry initial_state))).
  reflexivity.
Defined.

(** ** The variants of the pipeline runner *)

Section Variants.

Variable env : Env.

Lemma develop_buildDevelop_eq s :
  Develop.buildDevelop env s =
  match exec_result env (execCount s) CmdBuild with
  | ExecOk _ =>
      (Ret tt, bump s,
       [ELog "Building libraries..."; EExec CmdBuild; ELog "Build completed"])
  | ExecFail e =>
      (Throw (ExecFailure e), bump s,
       [ELog "Building libraries..."; EExec CmdBuild])
  end.
Proof.
  unfold Develop.buildDevelop, bind, execSync, console_log, emit.
  destruct (exec_result env (execCount s) CmdBuild); reflexivity.
Qed.

Lemma develop_unpublishLocal_eq s :
  Develop.unpublishLocal env s
  = (Ret tt, bump s, develop_unpublish_trace env s).
Proof.
  unfold Develop.unpublishLocal, develop_unpublish_trace, try_catch, bind,
    execSync, console_log, emit, when, ret; simpl.
  destruct (exec_result env (execCount s) CmdUnpublish) as [out|e]; simpl.
  - destruct (Js.truthy out); reflexivity.
  - destruct (Js.truthy (err_stdout e)), (Js.truthy (err_stderr e)),
      (Develop.code_defined_and_not_zero (err_code e)); reflexivity.
Qed.

Lemma develop_publishLocal_eq s :
  Develop.publishLocal env s
  = (Ret tt, bump s, develop_publish_trace env s).
Proof.
  unfold Develop.publishLocal, develop_publish_trace, try_catch, bind,
    execSync, console_log, console_error, emit; simpl.
  destruct (exec_result env (execCount s) CmdPublish) as [out|e]; simpl;
    [reflexivity|].
  destruct (already_published (err_message e)); reflexivity.
Qed.

Lemma develop_rebuildAll_idle s :
  isRebuilding s = false ->
  Develop.rebuildAll env s =
  (Ret tt,
   set_isRebuilding false (pipeline_state env (set_isRebuilding true s)),
   [ERebuilding true; ELog "Rebuilding and republishing..."]
   ++ develop_pipeline_trace env (set_isRebuilding true s)
   ++ [ERebuilding false]).
Proof.
  intros H.
  cbv [Develop.rebuildAll bind get_state try_finally try_catch modify emit
       console_log console_error].
  rewrite H, develop_buildDevelop_eq.
  unfold develop_pipeline_trace, pipeline_state.
  cbn [execCount set_isRebuilding].
  destruct (exec_result env (execCount s) CmdBuild) as [out|e].
  - rewrite develop_unpublishLocal_eq, develop_publishLocal_eq. cbn.
    rewrite <- !app_assoc. reflexivity.
  - reflexivity.
Qed.

Lemma develop_pipeline_trace_reads s :
  execs (develop_pipeline_trace env s) = execs (pipeline_trace env s)
  /\ runs_started (develop_pipeline_trace env s) = 0.
Proof.
  unfold develop_pipeline_trace, pipeline_trace.
  destruct (exec_result env (execCount s) CmdBuild); [|split; reflexivity].
  cbn [app execs is_exec runs_started].
  rewrite !execs_app, !runs_started_app.
  rewrite cleanRegistry_trace_execs, publishPackages_trace_execs.
  unfold develop_unpublish_trace, develop_publish_trace.
  destruct (exec_result env (execCount (bump s)) CmdUnpublish) as [o2|e2];
    destruct (exec_result env (execCount (bump (bump s))) CmdPublish)
      as [o3|e3];
    repeat match goal with
           | |- context [if ?b then _ else _] => destruct b
           end;
    split; reflexivity.
Qed.

End Variants.

(** X20. [rebuild] and [rebuildAll], the runner of the variant whose build step
    does not catch its own error, do the same to the world: from every
    state and whatever the commands do, they end the same way, leave the
    same state, and run the same commands in the same order; they differ
    in what they log. *)
Theorem rebuild_variants_agree (env : Env) (s : State) :
  exists o s' t1 t2,
    rebuild env s = (o, s', t1)
    /\ Develop.rebuildAll env s = (o, s', t2)
    /\ execs t1 = execs t2
    /\ runs_started t1 = runs_started t2.
Proof.
  destruct (isRebuilding s) eqn:Hb.
  - rewrite (rebuild_busy env s Hb).
    unfold Develop.rebuildAll, bind, get_state. rewrite Hb.
    eexists _, _, _, _. repeat split.
  - rewrite (rebuild_idle env s Hb), (develop_rebuildAll_idle env s Hb).
    eexists _, _, _, _. split; [reflexivity|]. split; [reflexivity|].
    cbn [app execs is_exec runs_started].
    rewrite !execs_app, !runs_started_app.
    destruct (develop_pipeline_trace_reads env (set_isRebuilding true s))
      as [-> ->].
    destruct (pipeline_trace_quiet env (set_isRebuilding true s)) as [-> _].
    split; reflexivity.
Qed.

(** X21. When the unpublish command fails with an error object that has no
    [code] (a plain non-zero exit), [cleanRegistry] still logs a line for
    the exit code, and the code it shows is [undefined]; [unpublishLocal]
    of the variant tests for a defined code first and logs no such
    line. *)
Theorem exit_code_line_without_code (env : Env) (s : State) (e : ExecError) :
  exec_result env (execCount s) CmdUnpublish = ExecFail e ->
  err_code e = CodeUndefined ->
  filter is_exit_code_line (snd (cleanRegistry env s))
  = [ELog "Unpublish command exited with code undefined"]
  /\ filter is_exit_code_line (snd (Develop.unpublishLocal env s)) = [].
Proof.
  intros He Hc.
  rewrite cleanRegistry_eq, develop_unpublishLocal_eq. cbn [snd].
  unfold cleanRegistry_trace, develop_unpublish_trace. rewrite He, Hc.
  cbn [code_is_not_zero Develop.code_defined_and_not_zero show_code].
  destruct (Js.truthy (err_stdout e)), (Js.truthy (err_stderr e));
    split; reflexivity.
Qed.

Lemma exit_code_line_without_code_witness :
  exec_result env_unpublish_fails (execCount initial_state) CmdUnpublish
  = ExecFail (mkExecError "Command failed: nx unpublish-local"
                          "" "404 Not Found" CodeUndefined)
  /\ err_code (mkExecError "Command failed: nx unpublish-local"
                           "" "404 Not Found" CodeUndefined) = CodeUndefined
  /\ filter is_exit_code_line (snd (cleanRegistry env_unpublish_fails initial_state))
     = [ELog "Unpublish command exited with code undefined"]
  /\ filter is_exit_code_line
            (snd (Develop.unpublishLocal env_unpublish_fails initial_state))
     = [].
Proof.
  split; [reflexivity|]. split; [reflexivity|].
  apply (exit_code_line_without_code env_unpublish_fails initial_state
           (mkExecError "Command failed: nx unpublish-local"
                        "" "404 Not Found" CodeUndefined)); reflexivity.
Defined.
